(** * pysat.utils.io: the metadata-aware netCDF codec

    A shallow embedding of [pysat/utils/io.py].  Python dictionaries are
    insertion-ordered association lists with unique keys, exceptions and
    log records are threaded through a small writer/error monad, and the
    behaviour of the Python and numpy built-ins the module calls
    ([np.isnan], [isinstance], the type constructors, [!=]) is written out
    for the value universe of metadata: [None], [bool], Python and numpy
    integers and floats, strings, one-dimensional arrays and nested
    metadata sets. *)

From Stdlib Require Import String Ascii List ZArith Bool Lia.
From Stdlib Require Import Floats.SpecFloat.
From Stdlib Require Import DecimalString Sorted.
From Stdlib Require DecimalNat.
Import ListNotations.
Local Open Scope string_scope.
Local Open Scope Z_scope.

Set Implicit Arguments.
Set Warnings "-register-all".

(* ===================================================================== *)
(** * Python values, dictionaries and effects *)
(* ===================================================================== *)

Module Py.

(** Exceptions the module and the built-ins it calls can raise. *)
Inductive exn : Type :=
| TypeError | ValueError | KeyError | IndexError | OverflowError
| AttributeError | NameError | RuntimeError | OSError.

Inductive result (A : Type) : Type :=
| Ok (a : A)
| Raise (e : exn).
Arguments Ok {A} a.
Arguments Raise {A} e.

Definition is_ok {A} (r : result A) : bool :=
  match r with Ok _ => true | Raise _ => false end.

(** Scalars.  The boolean of [SInt] and [SFloat] tells a numpy scalar
    ([np.int64], [np.float64]) from the Python built-in type. *)
Inductive scalar : Type :=
| SNone
| SBool (b : bool)
| SInt (np : bool) (z : Z)
| SFloat (np : bool) (f : spec_float)
| SStr (s : string).

(** Metadata values: a scalar, a one-dimensional array of scalars, or the
    nested metadata set stored under the label ['meta'] of a higher-order
    variable (variable name -> label -> value). *)
Inductive pyval : Type :=
| VS (s : scalar)
| VArr (l : list scalar)
| VMeta (d : list (string * list (string * pyval))).

(** A typed one-dimensional array of data. *)
Inductive elems : Type :=
| EInt (l : list Z)
| EFloat (l : list spec_float)
| EStr (l : list string)
| EDatetime (l : list Z) (* datetime64[ns] *).

Definition elems_len (e : elems) : nat :=
  match e with
  | EInt l => length l
  | EFloat l => length l
  | EStr l => length l
  | EDatetime l => length l
  end.

Definition record : Type := list (string * pyval).
Definition mdict : Type := list (string * record).

Definition vnone : pyval := VS SNone.
Definition vstr (s : string) : pyval := VS (SStr s).
Definition vint (z : Z) : pyval := VS (SInt false z).
Definition vfloat (f : spec_float) : pyval := VS (SFloat false f).
Definition vnan : pyval := VS (SFloat false S754_nan).

(** ** Strings *)

Definition lower_ascii (c : ascii) : ascii :=
  let n := nat_of_ascii c in
  if (Nat.leb 65 n && Nat.leb n 90)%bool then ascii_of_nat (n + 32) else c.

(** [str.lower()] on ASCII text. *)
Fixpoint lower (s : string) : string :=
  match s with
  | EmptyString => EmptyString
  | String c s' => String (lower_ascii c) (lower s')
  end.

Definition mem (k : string) (l : list string) : bool :=
  existsb (String.eqb k) l.

(** ** Insertion-ordered dictionaries *)

Section Dict.
Variable V : Type.

Fixpoint dget (k : string) (d : list (string * V)) : option V :=
  match d with
  | [] => None
  | (k', v) :: d' => if String.eqb k' k then Some v else dget k d'
  end.

Definition dmem (k : string) (d : list (string * V)) : bool :=
  match dget k d with Some _ => true | None => false end.

(** [d[k] = v]: an existing key keeps its position, a new key goes last. *)
Fixpoint dset (k : string) (v : V) (d : list (string * V))
  : list (string * V) :=
  match d with
  | [] => [(k, v)]
  | (k', v') :: d' =>
      if String.eqb k' k then (k', v) :: d' else (k', v') :: dset k v d'
  end.

(** [d.pop(k)] / [del d[k]] on a key that is present. *)
Fixpoint dpop (k : string) (d : list (string * V)) : list (string * V) :=
  match d with
  | [] => []
  | (k', v') :: d' =>
      if String.eqb k' k then d' else (k', v') :: dpop k d'
  end.

Definition dkeys (d : list (string * V)) : list string := map fst d.

(** [d.update(src)] *)
Definition dupdate (d src : list (string * V)) : list (string * V) :=
  fold_left (fun acc kv => dset (fst kv) (snd kv) acc) src d.

(** [d[k]] as an expression: [KeyError] when the key is missing. *)
Definition dindex (k : string) (d : list (string * V)) : result V :=
  match dget k d with Some v => Ok v | None => Raise KeyError end.

End Dict.

(** ** Types used as [coltype]

    [TNpInt64] and [TNpFloat64] are the numpy scalar types [_get_data_info]
    reports for integer and float columns; [TStr] is [str]. *)
Inductive pytype : Type :=
| TBool | TInt | TFloat | TStr | TNpInt64 | TNpFloat64
| TOther (* any other class: DataFrame, Series, ... *).

(** The [coltype] argument is a type or a [np.dtype] (whose [.type] is the
    carried scalar type). *)
Inductive coltype_arg : Type :=
| AType (t : pytype)
| ADtype (t : pytype).

(** ** Log records

    The text of a message is kept as the list of values handed to the
    format call, in the order the source passes them. *)
Inductive event : Type :=
| WarnUnableToCast (key : string) (value : pyval) (coltype : pytype)
| LogInconsistent (file_key new_key : string) (file_value kept_value : pyval)
| LogLabelNotFound (trans_key var_key : string)
| LogNoMetaData (level : string) (var : string)
| LogEmptyInstrument (fname : string)
| LogUsingTable
| LogExportNanDefault
| PrintLine (what : string).

(** ** Writer/error monad *)

Definition Eff (A : Type) : Type := (list event * result A)%type.

Definition ret {A} (a : A) : Eff A := ([], Ok a).
Definition raise {A} (e : exn) : Eff A := ([], Raise e).
Definition emit (ev : event) : Eff unit := ([ev], Ok tt).
Definition lift {A} (r : result A) : Eff A := ([], r).

Definition bind {A B} (m : Eff A) (k : A -> Eff B) : Eff B :=
  match m with
  | (l, Ok a) => let (l', r) := k a in ((l ++ l')%list, r)
  | (l, Raise e) => (l, Raise e)
  end.

Definition outcome {A} (m : Eff A) : result A := snd m.
Definition logged {A} (m : Eff A) : list event := fst m.

End Py.

Import Py.

Notation "x <- m ;; k" := (Py.bind m (fun x => k))
  (at level 61, m at next level, right associativity).
Notation "m ;;; k" := (Py.bind m (fun _ => k))
  (at level 61, right associativity).

(* ===================================================================== *)
(** * The built-ins the codec calls *)
(* ===================================================================== *)

Module Builtin.

(** Text conversions and conversions of whole arrays are left to the
    interpreter and to numpy: [int_of_str] and [float_of_str] are
    [int(s)] and [float(s)] ([None] stands for [ValueError]),
    [str_of_val] is [str(v)], [array_cast] is a type constructor applied
    to an array, and [invalid_int64] is what the C conversion of a
    [np.float64] that is NaN, infinite or out of range leaves in an
    [np.int64].  The last fields are the collaborators of the writer
    that live outside this module. *)
Class Externals : Type := {
  int_of_str : string -> option Z;
  float_of_str : string -> option spec_float;
  str_of_val : pyval -> string;
  array_cast : pytype -> list scalar -> result pyval;
  invalid_int64 : Z;
  (* [Instrument._get_var_type_code]: the netCDF type code of a type *)
  var_type_code : pytype -> result string;
  (* [datetime.strftime(t, '%a, %d %b %Y,  %Y-%m-%dT%H:%M:%S.%f')] of a
     timestamp in nanoseconds, and [utcnow().strftime('%Y%m%d')] *)
  strftime : Z -> string;
  utcnow_date : string;
  (* [os.path.split] *)
  path_split : string -> string * string;
  pysat_version : string;
  (* [dir(pysat.Instrument())] *)
  base_attrb : list string;
  (* numpy's conversion of a row assigned into a buffer of another type *)
  buffer_cast : pytype -> elems -> result elems
}.

Definition is_nan (f : spec_float) : bool :=
  match f with S754_nan => true | _ => false end.

(** Binary64: [float(z)] rounds to nearest even. *)
Definition float_of_Z (z : Z) : spec_float :=
  binary_normalize 53 1024 z 0 false.

(** [int(f)]: truncation toward zero; NaN is a [ValueError], an infinity
    an [OverflowError]. *)
Definition trunc_float (f : spec_float) : result Z :=
  match f with
  | S754_nan => Raise ValueError
  | S754_infinity _ => Raise OverflowError
  | S754_zero _ => Ok 0
  | S754_finite s m e =>
      let mag := if 0 <=? e then Z.pos m * 2 ^ e else Z.pos m / 2 ^ (- e) in
      Ok (if s then - mag else mag)
  end.

Definition in_int64 (z : Z) : bool :=
  (- 2 ^ 63 <=? z) && (z <? 2 ^ 63).

(** [np.isnan(x)] on a scalar.  A Python integer outside the 64-bit
    ranges becomes an object and is refused with [TypeError]. *)
Definition isnan_scalar (s : scalar) : result bool :=
  match s with
  | SNone => Raise TypeError
  | SStr _ => Raise TypeError
  | SBool _ => Ok false
  | SInt true _ => Ok false
  | SInt false z =>
      if (- 2 ^ 63 <=? z) && (z <? 2 ^ 64) then Ok false else Raise TypeError
  | SFloat _ f => Ok (is_nan f)
  end.

Definition numeric (s : scalar) : bool := is_ok (isnan_scalar s).

(** The truth value of [np.isnan(v)] as an [if] takes it.  On an array
    the result is an array: empty it is false, with one element it is that
    element, with more its truth value is a [ValueError]. *)
Definition isnan_truth (v : pyval) : result bool :=
  match v with
  | VS s => isnan_scalar s
  | VArr l =>
      if forallb numeric l then
        match l with
        | [] => Ok false
        | [s] => isnan_scalar s
        | _ => Raise ValueError
        end
      else Raise TypeError
  | VMeta _ => Raise TypeError
  end.

(** [isinstance(v, t)].  [bool] is a subclass of [int], [np.float64] of
    [float]; [np.int64] is not a subclass of [int]. *)
Definition isinstance (v : pyval) (t : pytype) : bool :=
  match v, t with
  | VS (SBool _), TBool => true
  | VS (SBool _), TInt => true
  | VS (SInt false _), TInt => true
  | VS (SInt true _), TNpInt64 => true
  | VS (SFloat _ _), TFloat => true
  | VS (SFloat true _), TNpFloat64 => true
  | VS (SStr _), TStr => true
  | _, _ => false
  end.

Definition truthy (s : scalar) : bool :=
  match s with
  | SNone => false
  | SBool b => b
  | SInt _ z => negb (z =? 0)
  | SFloat _ (S754_zero _) => false
  | SFloat _ _ => true
  | SStr s => negb (String.eqb s "")
  end.

Section Construct.
Context {X : Externals}.

(** [int(s)] *)
Definition py_int (s : scalar) : result Z :=
  match s with
  | SNone => Raise TypeError
  | SBool b => Ok (Z.b2z b)
  | SInt _ z => Ok z
  | SFloat _ f => trunc_float f
  | SStr t => match int_of_str t with Some z => Ok z | None => Raise ValueError end
  end.

(** [float(s)] *)
Definition py_float (s : scalar) : result spec_float :=
  match s with
  | SNone => Raise TypeError
  | SBool b => Ok (float_of_Z (Z.b2z b))
  | SInt _ z =>
      match float_of_Z z with
      | S754_infinity _ => Raise OverflowError
      | f => Ok f
      end
  | SFloat _ f => Ok f
  | SStr t =>
      match float_of_str t with Some f => Ok f | None => Raise ValueError end
  end.

(** [np.int64(s)]: a Python number goes through [int] and must fit; a
    [np.float64] is converted by a C cast, which never raises. *)
Definition np_int64 (s : scalar) : result Z :=
  match s with
  | SFloat true f =>
      match trunc_float f with
      | Ok z => Ok (if in_int64 z then z else invalid_int64)
      | Raise _ => Ok invalid_int64
      end
  | _ =>
      match py_int s with
      | Ok z => if in_int64 z then Ok z else Raise OverflowError
      | Raise e => Raise e
      end
  end.

(** [t(v)]: the call [coltype(value)]. *)
Definition construct (t : pytype) (v : pyval) : result pyval :=
  match t, v with
  | TStr, _ => Ok (vstr (str_of_val v))
  | TBool, VS s => Ok (VS (SBool (truthy s)))
  | TBool, VMeta d => Ok (VS (SBool (negb (Nat.eqb (length d) 0))))
  | TOther, _ => Raise TypeError
  | _, VArr l => array_cast t l
  | _, VMeta _ => Raise TypeError
  | TInt, VS s =>
      match py_int s with
      | Ok z => Ok (VS (SInt false z))
      | Raise e => Raise e
      end
  | TFloat, VS s =>
      match py_float s with
      | Ok f => Ok (VS (SFloat false f))
      | Raise e => Raise e
      end
  | TNpFloat64, VS SNone => Ok (VS (SFloat true S754_nan))
  | TNpFloat64, VS s =>
      match py_float s with
      | Ok f => Ok (VS (SFloat true f))
      | Raise e => Raise e
      end
  | TNpInt64, VS s =>
      match np_int64 s with
      | Ok z => Ok (VS (SInt true z))
      | Raise e => Raise e
      end
  end.

End Construct.

End Builtin.

Import Builtin.

(* ===================================================================== *)
(** * ValueFilter: [filter_netcdf4_metadata] *)
(* ===================================================================== *)

Module Filter.

Section WithExternals.
Context {X : Externals}.

(** [if coltype is bool: coltype = int
     elif isinstance(coltype, np.dtype): coltype = coltype.type] *)
Definition resolve_coltype (c : coltype_arg) : pytype :=
  match c with
  | AType TBool => TInt
  | AType t => t
  | ADtype t => t
  end.

(** First loop: drop the NaN-valued entries whose label is not in
    [export_nan].  Only [TypeError] is caught. *)
Fixpoint nan_loop (items : record) (export_nan : list string)
  (filtered_dict : record) : result record :=
  match items with
  | [] => Ok filtered_dict
  | (key, value) :: rest =>
      match isnan_truth value with
      | Ok true =>
          nan_loop rest export_nan
            (if mem key export_nan then filtered_dict
             else dpop key filtered_dict)
      | Ok false => nan_loop rest export_nan filtered_dict
      | Raise TypeError => nan_loop rest export_nan filtered_dict
      | Raise e => Raise e
      end
  end.

(** Second loop: over the keys of [filtered_dict]; booleans become
    integers, [None] and mismatching [check_type] labels are queued in
    [remove_keys] or recast.  Only [TypeError] and [ValueError] of the
    cast are caught. *)
Fixpoint check_loop (keys : list string) (coltype : pytype) (remove : bool)
  (check_type : list string) (filtered_dict : record)
  (remove_keys : list string) : Eff (record * list string) :=
  match keys with
  | [] => ret (filtered_dict, remove_keys)
  | key :: keys' =>
      v0 <- lift (dindex key filtered_dict) ;;
      let v := match v0 with
               | VS (SBool b) => VS (SInt false (Z.b2z b))
               | _ => v0
               end in
      let fd := match v0 with
                | VS (SBool _) => dset key v filtered_dict
                | _ => filtered_dict
                end in
      match v with
      | VS SNone =>
          check_loop keys' coltype remove check_type fd
            (remove_keys ++ [key])
      | _ =>
          if mem key check_type && negb (isinstance v coltype) then
            if remove then
              check_loop keys' coltype remove check_type fd
                (remove_keys ++ [key])
            else
              match construct coltype v with
              | Ok v' =>
                  check_loop keys' coltype remove check_type
                    (dset key v' fd) remove_keys
              | Raise TypeError | Raise ValueError =>
                  emit (WarnUnableToCast key v coltype) ;;;
                  check_loop keys' coltype remove check_type fd
                    (remove_keys ++ [key])
              | Raise e => raise e
              end
          else check_loop keys' coltype remove check_type fd remove_keys
      end
  end.

(** [for key in remove_keys: del filtered_dict[key]] *)
Definition delete_keys (remove_keys : list string) (d : record) : record :=
  fold_left (fun acc key => dpop key acc) remove_keys d.

Definition default_list (o : option (list string)) : list string :=
  match o with Some l => l | None => [] end.

(** [filter_netcdf4_metadata(inst, mdata_dict, coltype, remove,
    check_type, export_nan)]; [inst] is not used by the body. *)
Definition filter_netcdf4_metadata (mdata_dict : record)
  (coltype : coltype_arg) (remove : bool)
  (check_type export_nan : option (list string)) : Eff record :=
  let check_type := default_list check_type in
  let export_nan := default_list export_nan in
  let coltype := resolve_coltype coltype in
  filtered_dict <- lift (nan_loop mdata_dict export_nan mdata_dict) ;;
  st <- check_loop (dkeys filtered_dict) coltype remove check_type
          filtered_dict [] ;;
  ret (delete_keys (snd st) (fst st)).

End WithExternals.

End Filter.

(* ===================================================================== *)
(** * The instrument handed to the codec *)
(* ===================================================================== *)

Module Inst.

(** Modelled from the spec: the [pysat.Instrument] and [pysat.Meta]
    classes are not part of this module.  The spec treats the metadata
    store as a mapping [variable -> {label -> value}] with a name-case
    lookup helper, and a variable as a 1-D array aligned to the time index
    or an object column whose cells are tables or series.  The instrument
    holds its data in the pandas format; the xarray branch of the writer
    hands the whole write to [xarray.Dataset.to_netcdf]. *)

Record frame : Type := {
  f_index : elems;
  f_index_name : option string;
  f_columns : list (string * elems)
}.

Record series : Type := {
  s_name : string;
  s_index : elems;
  s_index_name : option string;
  s_values : elems
}.

Inductive cell : Type :=
| CFrame (f : frame)
| CSeries (s : series).

Inductive column : Type :=
| Col1D (e : elems)
| ColObj (cells : list cell).

Record MetaLabels : Type := {
  l_units : string;
  l_name : string;
  l_notes : string;
  l_desc : string;
  l_min_val : string;
  l_max_val : string;
  l_fill_val : string;
  label_attrs : list (string * string)
}.

Record Instrument : Type := {
  index : list Z;                       (* DatetimeIndex, nanoseconds *)
  data : list (string * column);        (* the columns: [inst.variables] *)
  meta : mdict;                         (* [inst.meta], names as stored *)
  labels : MetaLabels;                  (* [inst.meta.labels] *)
  meta_export_nan : list string;        (* [inst.meta._export_nan] *)
  header : option record;               (* [inst.meta.header.to_dict()] *)
  attrs : record;                       (* [dir(inst)] with its values *)
  platform : pyval;
  name : pyval;
  tag : pyval;
  inst_id : pyval;
  acknowledgements : pyval;
  references : pyval;
  meta_translation_table : option (list (string * list string));
  export_meta_post_processing : option (mdict -> Eff mdict)
}.

Definition variables (inst : Instrument) : list string := dkeys (data inst).

(** [inst.empty]: no data, that is, an axis of the frame has length 0. *)
Definition empty (inst : Instrument) : bool :=
  Nat.eqb (length (index inst)) 0 || Nat.eqb (length (data inst)) 0.

(** [name in inst.meta]: the lookup ignores case. *)
Definition meta_contains (m : mdict) (name : string) : bool :=
  mem (lower name) (map lower (dkeys m)).

(** [inst.meta.var_case_name(name)]: the name as the store spells it. *)
Fixpoint var_case_name (m : mdict) (name : string) : string :=
  match m with
  | [] => name
  | (k, _) :: m' =>
      if String.eqb (lower k) (lower name) then k else var_case_name m' name
  end.

(** [inst.meta.to_dict()]: keyed by the lower-case variable names, which
    is how the writer indexes the result. *)
Definition to_dict (m : mdict) : mdict :=
  fold_left (fun acc kr => dset (lower (fst kr)) (snd kr) acc) m [].

(** [inst._get_data_info(data)]: the element type and the datetime flag. *)
Definition elems_info (e : elems) : pytype * bool :=
  match e with
  | EInt _ => (TNpInt64, false)
  | EFloat _ => (TNpFloat64, false)
  | EStr _ => (TStr, false)
  | EDatetime _ => (TNpInt64, true)
  end.

Definition get_data_info (c : column) : pytype * bool :=
  match c with
  | Col1D e => elems_info e
  | ColObj _ => (TOther, false)
  end.

(** [inst[var].dtype == np.dtype('O')] *)
Definition is_object (c : column) : bool :=
  match c with
  | Col1D (EStr _) => true
  | Col1D _ => false
  | ColObj _ => true
  end.

Definition cell_index (c : cell) : elems :=
  match c with CFrame f => f_index f | CSeries s => s_index s end.

Definition cell_index_name (c : cell) : option string :=
  match c with CFrame f => f_index_name f | CSeries s => s_index_name s end.

(** [len(cell)]: the number of rows. *)
Definition cell_len (c : cell) : nat := elems_len (cell_index c).

(** [pandas.Index.is_monotonic_increasing]: equal or increasing. *)
Fixpoint is_monotonic_increasing (l : list Z) : bool :=
  match l with
  | a :: ((b :: _) as t) => (a <=? b) && is_monotonic_increasing t
  | _ => true
  end.

(** [pandas.Index.is_monotonic_decreasing]: equal or decreasing. *)
Fixpoint is_monotonic_decreasing (l : list Z) : bool :=
  match l with
  | a :: ((b :: _) as t) => (b <=? a) && is_monotonic_decreasing t
  | _ => true
  end.

End Inst.

Import Inst.

(* ===================================================================== *)
(** * StandardsOverlay *)
(* ===================================================================== *)

Module Standards.

Definition epoch_label : string := "Milliseconds since 1970-1-1 00:00:00".

(** [len(v)] *)
Definition py_len (v : pyval) : result nat :=
  match v with
  | VS (SStr s) => Ok (String.length s)
  | VS _ => Raise TypeError
  | VArr l => Ok (length l)
  | VMeta d => Ok (length d)
  end.

(** The loop over [basic_labels] of [return_epoch_metadata]. *)
Fixpoint fill_basic_labels (basic_labels : list string) (new_dict : record)
  : result record :=
  match basic_labels with
  | [] => Ok new_dict
  | label :: rest =>
      match dget label new_dict with
      | None => fill_basic_labels rest (dset label (vstr epoch_label) new_dict)
      | Some v =>
          match py_len v with
          | Ok n =>
              fill_basic_labels rest
                (if Nat.eqb n 0 then dset label (vstr epoch_label) new_dict
                 else new_dict)
          | Raise e => Raise e
          end
      end
  end.

(** [time_dict], with the [MonoTon] tag of the time index. *)
Definition time_dict (idx : list Z) : record :=
  let base := [("calendar", vstr "standard"); ("Format", vstr "i8");
               ("Var_Type", vstr "data"); ("Time_Base", vstr epoch_label);
               ("Time_Scale", vstr "UTC")] in
  if is_monotonic_increasing idx then dset "MonoTon" (vstr "increase") base
  else if is_monotonic_decreasing idx then
         dset "MonoTon" (vstr "decrease") base
       else base.

(** [return_epoch_metadata(inst, epoch_name)] *)
Definition return_epoch_metadata (inst : Instrument) (epoch_name : string)
  : result record :=
  let new_dict :=
    if meta_contains (meta inst) epoch_name then
      match dget (var_case_name (meta inst) epoch_name) (meta inst) with
      | Some r => r
      | None => []
      end
    else [] in
  let lb := labels inst in
  match fill_basic_labels [l_units lb; l_desc lb; l_notes lb] new_dict with
  | Ok new_dict =>
      let new_dict := dset (l_name lb) (vstr epoch_name) new_dict in
      Ok (dupdate new_dict (time_dict (index inst)))
  | Raise e => Raise e
  end.

(** ** Removal *)

Definition vals : list string :=
  ["Depend_0"; "Depend_1"; "Depend_2"; "Depend_3"; "Depend_4";
   "Depend_5"; "Depend_6"; "Depend_7"; "Depend_8"; "Depend_9";
   "Display_Type"; "Var_Type"; "Format";
   "Time_Scale"; "MonoTon"; "calendar"; "Time_Base"].

Definition lower_vals : list string := map lower vals.

Definition epoch_vals : list string :=
  ["Time_Scale"; "MonoTon"; "calendar"; "Time_Base"].

(** [for i, check_val in enumerate(lower_sub_keys):
       if check_val == lval: mdict[key].pop(sub_keys[i])]
    The popped label is present: a label matches one [lval] at most. *)
Fixpoint pop_matching (lval : string) (sub_keys : list string) (r : record)
  : record :=
  match sub_keys with
  | [] => r
  | k :: ks =>
      pop_matching lval ks (if String.eqb (lower k) lval then dpop k r else r)
  end.

(** The [else] branch: remove any entry whose label is in [vals],
    compared in lower case. *)
Definition strip_standards (r : record) : record :=
  let sub_keys := dkeys r in
  let lower_sub_keys := map lower sub_keys in
  fold_left
    (fun acc lval =>
       if mem lval lower_sub_keys then pop_matching lval sub_keys acc
       else acc)
    lower_vals r.

Section Level.
(** The recursive call on a nested set, with epoch name [''] *)
Variable self : pyval -> result pyval.

(** [mdict[key]['meta'] = self(mdict[key]['meta'])] *)
Fixpoint set_meta (r : record) : result record :=
  match r with
  | [] => Raise KeyError
  | (k, v) :: r' =>
      if String.eqb k "meta" then
        match self v with
        | Ok v' => Ok ((k, v') :: r')
        | Raise e => Raise e
        end
      else
        match set_meta r' with
        | Ok r'' => Ok ((k, v) :: r'')
        | Raise e => Raise e
        end
  end.

Fixpoint remove_vars (d : mdict) : result mdict :=
  match d with
  | [] => Ok []
  | (key, r) :: d' =>
      match (if mem "meta" (map lower (dkeys r)) then set_meta r
             else Ok (strip_standards r)) with
      | Ok r' =>
          match remove_vars d' with
          | Ok d'' => Ok ((key, r') :: d'')
          | Raise e => Raise e
          end
      | Raise e => Raise e
      end
  end.
End Level.

(** The function applied to the object stored under ['meta']: anything
    but a dictionary has no [keys]. *)
Fixpoint remove_nested (v : pyval) : result pyval :=
  match v with
  | VMeta d =>
      match remove_vars remove_nested d with
      | Ok d' => Ok (VMeta d')
      | Raise e => Raise e
      end
  | _ => Raise AttributeError
  end.

(** [for val in epoch_vals: if val in mdict[epoch_name]: pop] *)
Definition strip_epoch (epoch_name : string) (d : mdict) : mdict :=
  if String.eqb epoch_name "" then d
  else
    match dget epoch_name d with
    | Some r =>
        dset epoch_name
          (fold_left (fun acc val => if dmem val acc then dpop val acc else acc)
             epoch_vals r) d
    | None => d
    end.

(** [remove_netcdf4_standards_from_meta(mdict, epoch_name)] *)
Definition remove_netcdf4_standards_from_meta (d : mdict)
  (epoch_name : string) : result mdict :=
  match remove_vars remove_nested d with
  | Ok d' => Ok (strip_epoch epoch_name d')
  | Raise e => Raise e
  end.

End Standards.

(* ===================================================================== *)
(** * StandardsOverlay: [add_netcdf4_standards_to_metadict] *)
(* ===================================================================== *)

Module Overlay.

Import Standards Filter.

Definition pytype_eqb (a b : pytype) : bool :=
  match a, b with
  | TBool, TBool | TInt, TInt | TFloat, TFloat | TStr, TStr
  | TNpInt64, TNpInt64 | TNpFloat64, TNpFloat64 | TOther, TOther => true
  | _, _ => false
  end.

(** [inst[i, var]] *)
Definition nth_cell (cells : list cell) (i : nat) : result cell :=
  match nth_error cells i with
  | Some c => Ok c
  | None => Raise IndexError
  end.

(** [for idat in np.arange(len(inst.data)):
       if len(inst[idat, var]) > 0: good_data_loc = idat; break] *)
Fixpoint first_with_data (cells : list cell) (idat : nat) : option nat :=
  match cells with
  | [] => None
  | c :: cs =>
      if Nat.ltb 0 (cell_len c) then Some idat
      else first_with_data cs (S idat)
  end.

Definition good_data_loc (cells : list cell) : nat :=
  match first_with_data cells 0 with Some i => i | None => 0 end.

(** [inst._get_data_info(idx)] for the sub-variable [svar] of a cell.  A
    column mixes tables and series only by mistake; the lookup then
    fails. *)
Definition subvar_info (is_frame : bool) (c : cell) (svar : string)
  : result (pytype * bool) :=
  match c, is_frame with
  | CFrame f, true =>
      match dget svar (f_columns f) with
      | Some e => Ok (elems_info e)
      | None => Raise KeyError
      end
  | CSeries s, false => Ok (elems_info (s_values s))
  | CFrame _, false => Raise AttributeError
  | CSeries _, true => Raise KeyError
  end.

(** [d.pop(k)] without default *)
Definition pop_strict (k : string) (r : record) : result record :=
  if dmem k r then Ok (dpop k r) else Raise KeyError.

Section WithExternals.
Context {X : Externals}.

(** [{'Depend_0': epoch_name, 'Display_Type': 'Time Series',
      'Var_Type': 'data'}], with name and units of a datetime column. *)
Definition std_meta_dict (lb : MetaLabels) (epoch_name : string)
  (datetime_flag : bool) : record :=
  let meta_dict := [("Depend_0", vstr epoch_name);
                    ("Display_Type", vstr "Time Series");
                    ("Var_Type", vstr "data")] in
  if datetime_flag then
    dset (l_units lb) (vstr epoch_label)
      (dset (l_name lb) (vstr epoch_name) meta_dict)
  else meta_dict.

(** The loop over the sub-variables of a higher-order variable. *)
Fixpoint subvar_loop (subvars : list string) (is_frame : bool)
  (cells : list cell) (lb : MetaLabels) (epoch_name var : string)
  (check_type export_nan : option (list string)) (in_meta_dict : mdict)
  : Eff mdict :=
  match subvars with
  | [] => ret in_meta_dict
  | svar :: rest =>
      c <- lift (nth_cell cells (good_data_loc cells)) ;;
      info <- lift (subvar_info is_frame c svar) ;;
      let sctype := fst info in
      smeta_dict <-
        (if negb (snd info) then
           code <- lift (var_type_code sctype) ;;
           ret [("Depend_0", vstr epoch_name); ("Depend_1", vstr var);
                ("Display_Type", vstr "Spectrogram");
                ("Format", vstr code); ("Var_Type", vstr "data")]
         else
           ret (dset (l_units lb) (vstr epoch_label)
                  (dset (l_name lb) (vstr epoch_name) []))) ;;
      let sname := (lower var ++ "_" ++ lower svar)%string in
      r <- filter_netcdf4_metadata smeta_dict (AType sctype)
             (pytype_eqb sctype TStr) check_type export_nan ;;
      subvar_loop rest is_frame cells lb epoch_name var check_type
        export_nan (dset sname r in_meta_dict)
  end.

(** [if lower_var in in_meta_dict: in_meta_dict[lower_var].update(d)
     else: in_meta_dict[lower_var] = d] *)
Definition update_or_set (lower_var : string) (d : record)
  (in_meta_dict : mdict) : mdict :=
  match dget lower_var in_meta_dict with
  | Some r => dset lower_var (dupdate r d) in_meta_dict
  | None => dset lower_var d in_meta_dict
  end.

(** The body of the loop over [inst.variables].  The test
    [inst[var].dtype == np.dtype('O') and coltype != str] holds exactly
    for the columns of tables or series. *)
Definition add_var (inst : Instrument) (epoch_name : string)
  (check_type export_nan : option (list string)) (in_meta_dict : mdict)
  (var : string) (col : column) : Eff mdict :=
  if meta_contains (meta inst) var && negb (String.eqb var epoch_name) then
    let lb := labels inst in
    let lower_var := lower var in
    let coltype := fst (get_data_info col) in
    let datetime_flag := snd (get_data_info col) in
    (if datetime_flag then emit (PrintLine "Found another Epoch! ")
     else ret tt) ;;;
    let meta_dict := std_meta_dict lb epoch_name datetime_flag in
    match col with
    | ColObj cells =>
        first <- lift (nth_cell cells 0) ;;
        let subvars := match first with
                       | CFrame f => dkeys (f_columns f)
                       | CSeries s => [s_name s]
                       end in
        let is_frame := match first with
                        | CFrame _ => true
                        | CSeries _ => false
                        end in
        let meta_dict := dset "Depend_1" (vstr var) meta_dict in
        d <- subvar_loop subvars is_frame cells lb epoch_name var
               check_type export_nan in_meta_dict ;;
        (* [good_data_loc] is bound by the first pass of the loop *)
        match subvars with
        | [] => raise NameError
        | _ =>
            c <- lift (nth_cell cells (good_data_loc cells)) ;;
            let index_type := fst (elems_info (cell_index c)) in
            d <- (if snd (elems_info (cell_index c)) then
                    td <- lift (return_epoch_metadata inst epoch_name) ;;
                    td <- lift (pop_strict "MonoTon" td) ;;
                    ret (update_or_set lower_var (dupdate td meta_dict) d)
                  else
                    let name := match cell_index_name c with
                                | Some n => n
                                | None => var
                                end in
                    let index_dict :=
                      dupdate [(l_name lb, vstr name)] meta_dict in
                    ret (update_or_set lower_var index_dict d)) ;;
            r <- lift (dindex lower_var d) ;;
            r' <- filter_netcdf4_metadata r (AType index_type)
                    (pytype_eqb index_type TStr) check_type export_nan ;;
            ret (dset lower_var r' d)
        end
    | Col1D _ =>
        code <- lift (var_type_code coltype) ;;
        let meta_dict := dset "Format" (vstr code) meta_dict in
        r <- lift (dindex lower_var in_meta_dict) ;;
        r' <- filter_netcdf4_metadata (dupdate r meta_dict) (AType coltype)
                (pytype_eqb coltype TStr) check_type export_nan ;;
        ret (dset lower_var r' in_meta_dict)
    end
  else
    emit (LogNoMetaData "warning" var) ;;; ret in_meta_dict.

Fixpoint add_loop (inst : Instrument) (epoch_name : string)
  (check_type export_nan : option (list string))
  (vars : list (string * column)) (in_meta_dict : mdict) : Eff mdict :=
  match vars with
  | [] => ret in_meta_dict
  | (var, col) :: rest =>
      d <- add_var inst epoch_name check_type export_nan in_meta_dict
             var col ;;
      add_loop inst epoch_name check_type export_nan rest d
  end.

(** [add_netcdf4_standards_to_metadict(inst, in_meta_dict, epoch_name,
    check_type, export_nan)] *)
Definition add_netcdf4_standards_to_metadict (inst : Instrument)
  (in_meta_dict : mdict) (epoch_name : string)
  (check_type export_nan : option (list string)) : Eff mdict :=
  add_loop inst epoch_name check_type export_nan (data inst) in_meta_dict.

End WithExternals.

End Overlay.

(* ===================================================================== *)
(** * Comparison of metadata values *)
(* ===================================================================== *)

Module Compare.

(** Python's [==] on scalars.  Integers and floats are compared by value;
    when a numpy scalar takes part the integer is rounded to binary64
    first. *)
Definition float_is_int (f : spec_float) (z : Z) : bool :=
  match f with
  | S754_zero _ => z =? 0
  | S754_finite s m e =>
      let sm := if s then Z.neg m else Z.pos m in
      if 0 <=? e then z =? sm * 2 ^ e else z * 2 ^ (- e) =? sm
  | _ => false
  end.

Definition int_float_eq (np : bool) (z : Z) (f : spec_float) : bool :=
  if np then SFeqb (float_of_Z z) f else float_is_int f z.

Definition scalar_eq (x y : scalar) : bool :=
  match x, y with
  | SNone, SNone => true
  | SStr a, SStr b => String.eqb a b
  | SBool a, SBool b => Bool.eqb a b
  | SBool a, SInt _ z => Z.b2z a =? z
  | SInt _ z, SBool a => z =? Z.b2z a
  | SInt _ a, SInt _ b => a =? b
  | SBool a, SFloat np f => int_float_eq np (Z.b2z a) f
  | SFloat np f, SBool a => int_float_eq np (Z.b2z a) f
  | SInt n1 z, SFloat n2 f => int_float_eq (n1 || n2) z f
  | SFloat n1 f, SInt n2 z => int_float_eq (n1 || n2) z f
  | SFloat _ f, SFloat _ g => SFeqb f g
  | _, _ => false
  end.

(** The element kinds numpy tells apart when it compares arrays. *)
Inductive kind : Type := KNum | KStr | KObj.

Definition scalar_kind (s : scalar) : kind :=
  match s with
  | SStr _ => KStr
  | SNone => KObj
  | _ => KNum
  end.

Definition is_kind (k : kind) (s : scalar) : bool :=
  match k, scalar_kind s with
  | KNum, KNum | KStr, KStr | KObj, KObj => true
  | _, _ => false
  end.

Definition array_kind (l : list scalar) : kind :=
  if forallb (is_kind KNum) l then KNum
  else if forallb (is_kind KStr) l then KStr
  else KObj.

(** Numbers against text: the element-wise comparison fails and numpy
    (before 1.25) answers with the scalar [False] for [==], [True] for
    [!=]. *)
Definition comparison_fails (a b : kind) : bool :=
  match a, b with
  | KNum, KStr | KStr, KNum => true
  | _, _ => false
  end.

(** The truth value of an array of booleans. *)
Definition truth_of_array (bs : list bool) : result bool :=
  match bs with
  | [] => Ok false
  | [b] => Ok b
  | _ => Raise ValueError
  end.

Fixpoint zip_with (f : scalar -> scalar -> bool) (l1 l2 : list scalar)
  : list bool :=
  match l1, l2 with
  | x :: l1', y :: l2' => f x y :: zip_with f l1' l2'
  | _, _ => []
  end.

(** The truth value of [a == b] ([ne = false]) or [a != b] ([ne = true])
    when an array takes part. *)
Definition array_cmp (ne : bool) (l1 l2 : list scalar) : result bool :=
  let f := fun x y => xorb ne (scalar_eq x y) in
  if comparison_fails (array_kind l1) (array_kind l2) then Ok ne
  else if Nat.eqb (length l1) (length l2) then
         truth_of_array (zip_with f l1 l2)
  else match l1, l2 with
       | [x], _ => truth_of_array (map (fun y => f x y) l2)
       | _, [y] => truth_of_array (map (fun x => f x y) l1)
       | _, _ => Ok ne
       end.

Definition array_scalar_cmp (ne : bool) (l : list scalar) (y : scalar)
  : result bool :=
  if comparison_fails (array_kind l) (scalar_kind y) then Ok ne
  else truth_of_array (map (fun x => xorb ne (scalar_eq x y)) l).

Section Level.
(** The comparison of two stored values; values met in two dictionaries
    are distinct objects, so the identity shortcut never applies. *)
Variable self : pyval -> pyval -> result bool.

(** [dict.__eq__] on the items of the left operand: the first difference
    answers [False]. *)
Fixpoint record_items_eq (r1 r2 : record) : result bool :=
  match r1 with
  | [] => Ok true
  | (k, v1) :: r1' =>
      match dget k r2 with
      | None => Ok false
      | Some v2 =>
          match self v1 v2 with
          | Ok true => record_items_eq r1' r2
          | other => other
          end
      end
  end.

Definition record_eq (r1 r2 : record) : result bool :=
  if Nat.eqb (length r1) (length r2) then record_items_eq r1 r2
  else Ok false.

Fixpoint mdict_items_eq (d1 d2 : mdict) : result bool :=
  match d1 with
  | [] => Ok true
  | (k, r1) :: d1' =>
      match dget k d2 with
      | None => Ok false
      | Some r2 =>
          match record_eq r1 r2 with
          | Ok true => mdict_items_eq d1' d2
          | other => other
          end
      end
  end.

Definition mdict_eq (d1 d2 : mdict) : result bool :=
  if Nat.eqb (length d1) (length d2) then mdict_items_eq d1 d2
  else Ok false.
End Level.

(** The truth value of [a == b]. *)
Fixpoint eq_truth (a b : pyval) {struct a} : result bool :=
  match a, b with
  | VS x, VS y => Ok (scalar_eq x y)
  | VArr l, VS y => array_scalar_cmp false l y
  | VS x, VArr l => array_scalar_cmp false l x
  | VArr l1, VArr l2 => array_cmp false l1 l2
  | VMeta d1, VMeta d2 => mdict_eq eq_truth d1 d2
  | VMeta _, VS _ => Ok false
  | VS _, VMeta _ => Ok false
  | VMeta _, VArr l => truth_of_array (map (fun _ => false) l)
  | VArr l, VMeta _ => truth_of_array (map (fun _ => false) l)
  end.

(** The truth value of [a != b]. *)
Definition ne_truth (a b : pyval) : result bool :=
  match a, b with
  | VS x, VS y => Ok (negb (scalar_eq x y))
  | VArr l, VS y => array_scalar_cmp true l y
  | VS x, VArr l => array_scalar_cmp true l x
  | VArr l1, VArr l2 => array_cmp true l1 l2
  | VMeta _, VMeta _ =>
      match eq_truth a b with
      | Ok e => Ok (negb e)
      | Raise e => Raise e
      end
  | VMeta _, VS _ => Ok true
  | VS _, VMeta _ => Ok true
  | VMeta _, VArr l => truth_of_array (map (fun _ => true) l)
  | VArr l, VMeta _ => truth_of_array (map (fun _ => true) l)
  end.

End Compare.

(* ===================================================================== *)
(** * LabelTranslator *)
(* ===================================================================== *)

Module Translate.

Import Compare.

(** [default_from_netcdf_translation_table(meta)] *)
Definition default_from_netcdf_translation_table (lb : MetaLabels)
  : list (string * string) :=
  dset "fill" (l_fill_val lb)
    (dset "FillVal" (l_fill_val lb)
       (dset "_FillValue" (l_fill_val lb) [])).

(** [default_to_netcdf_translation_table(inst)]:
    [for key, val in zip(label_attrs.values(), label_attrs.keys()):
       trans_table[key] = [val]] and then the fill labels. *)
Definition default_to_netcdf_translation_table (inst : Instrument)
  : list (string * list string) :=
  let lb := labels inst in
  let trans_table :=
    fold_left (fun acc kv => dset (snd kv) [fst kv] acc) (label_attrs lb) []
  in
  dset (l_fill_val lb) ["_FillValue"; "FillVal"; "fill"] trans_table.

(** The loop over the labels of one variable, write direction. *)
Fixpoint translate_labels_to (trans_table : list (string * list string))
  (loop_meta_dict : record) (out : record) : record :=
  match loop_meta_dict with
  | [] => out
  | (orig_key, v) :: rest =>
      translate_labels_to trans_table rest
        (match dget orig_key trans_table with
         | Some translated =>
             fold_left (fun acc translated_key => dset translated_key v acc)
               translated out
         | None => dset orig_key v out
         end)
  end.

(** [apply_table_translation_to_file(inst, meta_dict, trans_table)] *)
Definition apply_table_translation_to_file (inst : Instrument)
  (meta_dict : mdict) (trans_table : option (list (string * list string)))
  : mdict :=
  let trans_table := match trans_table with
                     | Some t => t
                     | None => default_to_netcdf_translation_table inst
                     end in
  fold_left
    (fun export_dict kr =>
       dset (fst kr) (translate_labels_to trans_table (snd kr) []) export_dict)
    meta_dict [].

Definition new_key_of (trans_table : list (string * string))
  (file_key : string) : string :=
  match dget file_key trans_table with
  | Some k => k
  | None => file_key
  end.

(** [try: check = (not np.isnan(kept)) and (not np.isnan(value))
     except TypeError: check = True] *)
Definition nan_check (kept value : pyval) : result bool :=
  match isnan_truth kept with
  | Raise TypeError => Ok true
  | Raise e => Raise e
  | Ok n1 =>
      match isnan_truth value with
      | Raise TypeError => Ok true
      | Raise e => Raise e
      | Ok n2 => Ok (negb n1 && negb n2)
      end
  end.

(** The loop over the file labels of one variable, read direction. *)
Fixpoint translate_labels_from (trans_table : list (string * string))
  (items : record) (filt : record) : Eff record :=
  match items with
  | [] => ret filt
  | (file_key, value) :: rest =>
      let new_key := new_key_of trans_table file_key in
      match dget new_key filt with
      | None =>
          translate_labels_from trans_table rest (dset new_key value filt)
      | Some kept =>
          differ <- lift (ne_truth kept value) ;;
          (if differ then
             check <- lift (nan_check kept value) ;;
             if check then emit (LogInconsistent file_key new_key value kept)
             else ret tt
           else ret tt) ;;;
          translate_labels_from trans_table rest filt
      end
  end.

(** [for trans_key in trans_table.keys():
       if trans_key not in meta_dict[var_key].keys(): logger.debug(...)] *)
Definition missing_labels (trans_table : list (string * string))
  (var_key : string) (r : record) : list event :=
  map (fun trans_key => LogLabelNotFound trans_key var_key)
    (filter (fun trans_key => negb (dmem trans_key r)) (dkeys trans_table)).

(** The file label that supplied the value kept under [target]. *)
Fixpoint first_source (trans_table : list (string * string))
  (items : record) (target : string) : option string :=
  match items with
  | [] => None
  | (file_key, _) :: rest =>
      if String.eqb (new_key_of trans_table file_key) target
      then Some file_key
      else first_source trans_table rest target
  end.

Definition is_substring (a b : string) : bool :=
  match String.index 0 a b with Some _ => true | None => false end.

(** The loop over the nested set when [filt_dict[var_key]['meta']] is the
    nested set itself: adding a label changes the size of the dictionary
    being iterated, which the next step of the loop refuses. *)
Fixpoint nested_loop_aliased (trans_table : list (string * string))
  (keys : list string) (ldict : mdict) : result unit :=
  match keys with
  | [] => Ok tt
  | file_key :: rest =>
      if dmem (new_key_of trans_table file_key) ldict
      then nested_loop_aliased trans_table rest ldict
      else Raise RuntimeError
  end.

(** The same loop when the value kept under ['meta'] is another object. *)
Fixpoint nested_loop_other (trans_table : list (string * string))
  (items : mdict) (target : pyval) : result pyval :=
  match items with
  | [] => Ok target
  | (file_key, sub) :: rest =>
      let new_key := new_key_of trans_table file_key in
      match target with
      | VMeta td =>
          nested_loop_other trans_table rest
            (if dmem new_key td then target else VMeta (dset new_key sub td))
      | VS (SStr s) =>
          if is_substring new_key s
          then nested_loop_other trans_table rest target
          else Raise TypeError
      | VS _ => Raise TypeError
      | VArr l =>
          if existsb (scalar_eq (SStr new_key)) l
          then nested_loop_other trans_table rest target
          else Raise IndexError
      end
  end.

(** [if 'meta' in meta_dict[var_key].keys(): ...] *)
Definition translate_nested (trans_table : list (string * string))
  (r filt : record) : result record :=
  match dget "meta" r with
  | None => Ok filt
  | Some (VMeta ldict) =>
      match ldict with
      | [] => Ok filt
      | _ =>
          match dget "meta" filt with
          | None => Raise KeyError
          | Some target =>
              match first_source trans_table r "meta" with
              | Some "meta" =>
                  match nested_loop_aliased trans_table (dkeys ldict) ldict
                  with
                  | Ok _ => Ok filt
                  | Raise e => Raise e
                  end
              | _ =>
                  match nested_loop_other trans_table ldict target with
                  | Ok target' => Ok (dset "meta" target' filt)
                  | Raise e => Raise e
                  end
              end
          end
      end
  | Some _ => Raise AttributeError
  end.

Fixpoint translate_vars_from (trans_table : list (string * string))
  (items : mdict) (filt_dict : mdict) : Eff mdict :=
  match items with
  | [] => ret filt_dict
  | (var_key, r) :: rest =>
      filt <- translate_labels_from trans_table r [] ;;
      (missing_labels trans_table var_key r, Ok tt) ;;;
      filt <- lift (translate_nested trans_table r filt) ;;
      translate_vars_from trans_table rest (dset var_key filt filt_dict)
  end.

(** [apply_table_translation_from_file(trans_table, meta_dict)] *)
Definition apply_table_translation_from_file
  (trans_table : list (string * string)) (meta_dict : mdict) : Eff mdict :=
  translate_vars_from trans_table meta_dict [].

End Translate.

(* ===================================================================== *)
(** * ArrayExpander: [meta_array_expander] *)
(* ===================================================================== *)

Module Expander.

(** ["{:d}".format(i)] *)
Definition string_of_nat (n : nat) : string :=
  NilEmpty.string_of_uint (Nat.to_uint n).

(** [for i, val in enumerate(tst_array):
       loop_dict["{:}{:d}".format(meta_key, i)] = val] *)
Fixpoint expand_array (meta_key : string) (i : nat) (l : list scalar)
  (loop_dict : record) : record :=
  match l with
  | [] => loop_dict
  | val :: l' =>
      expand_array meta_key (S i) l'
        (dset (meta_key ++ string_of_nat i)%string (VS val) loop_dict)
  end.

Section Level.
(** The recursive call on the set stored under ['meta'] *)
Variable self : pyval -> result pyval.

(** The loop over the labels of one variable.  The expanded nested set is
    assigned back into the dictionary being read, not into [loop_dict]. *)
Fixpoint expand_labels (items : record) (loop_dict : record)
  : result record :=
  match items with
  | [] => Ok loop_dict
  | (meta_key, value) :: rest =>
      if String.eqb meta_key "meta" then
        match self value with
        | Ok _ => expand_labels rest loop_dict
        | Raise e => Raise e
        end
      else
        expand_labels rest
          (match value with
           | VS _ => dset meta_key value loop_dict
           | VMeta _ => dset meta_key value loop_dict
           | VArr [x] => dset meta_key (VS x) loop_dict
           | VArr l => expand_array meta_key 0 l loop_dict
           end)
  end.

(** [for key in meta_dict.keys(): ...; meta_dict[key] = loop_dict] *)
Fixpoint expand_vars (d : mdict) : result mdict :=
  match d with
  | [] => Ok []
  | (key, r) :: d' =>
      match expand_labels r [] with
      | Ok loop_dict =>
          match expand_vars d' with
          | Ok d'' => Ok ((key, loop_dict) :: d'')
          | Raise e => Raise e
          end
      | Raise e => Raise e
      end
  end.
End Level.

Fixpoint expand_nested (v : pyval) : result pyval :=
  match v with
  | VMeta d =>
      match expand_vars expand_nested d with
      | Ok d' => Ok (VMeta d')
      | Raise e => Raise e
      end
  | _ => Raise AttributeError
  end.

(** [meta_array_expander(meta_dict)] *)
Definition meta_array_expander (meta_dict : mdict) : result mdict :=
  expand_vars expand_nested meta_dict.

End Expander.

(* ===================================================================== *)
(** * The array-file container *)
(* ===================================================================== *)

Module NetCDF.

(** The container as the codec uses it: global attributes, dimensions
    and typed variables with attributes and a one- or two-dimensional
    buffer, all in creation order.  What is written is what is read. *)
Inductive ncdata : Type :=
| D1 (e : elems)
| D2 (ncols : nat) (flat : elems) (* row-major *).

Record ncvar : Type := {
  nc_dtype : pytype;
  nc_dims : list string;
  nc_attrs : record;
  nc_data : option ncdata
}.

Record dataset : Type := {
  ds_attrs : record;
  ds_dims : list (string * option nat);
  ds_vars : list (string * ncvar)
}.

Definition empty_dataset : dataset :=
  {| ds_attrs := []; ds_dims := []; ds_vars := [] |}.

(** The files on disk, by path. *)
Definition disk : Type := list (string * dataset).

Inductive open_mode : Type := ModeW | ModeA.

(** [netCDF4.Dataset(fname, mode=mode)]: ['w'] starts a new file over
    whatever was there, ['a'] needs the file. *)
Definition open_dataset (fname : string) (mode : open_mode) (fs : disk)
  : result dataset :=
  match mode with
  | ModeW => Ok empty_dataset
  | ModeA =>
      match dget fname fs with
      | Some ds => Ok ds
      | None => Raise OSError
      end
  end.

Definition set_global_attrs (d : record) (ds : dataset) : dataset :=
  {| ds_attrs := dupdate (ds_attrs ds) d;
     ds_dims := ds_dims ds; ds_vars := ds_vars ds |}.

Definition create_dimension (name : string) (size : option nat)
  (ds : dataset) : result dataset :=
  if dmem name (ds_dims ds) then Raise RuntimeError
  else Ok {| ds_attrs := ds_attrs ds;
             ds_dims := (ds_dims ds ++ [(name, size)])%list;
             ds_vars := ds_vars ds |}.

Definition create_variable (name : string) (dtype : pytype)
  (dims : list string) (ds : dataset) : result dataset :=
  if dmem name (ds_vars ds) then Raise RuntimeError
  else Ok {| ds_attrs := ds_attrs ds;
             ds_dims := ds_dims ds;
             ds_vars := (ds_vars ds ++
                           [(name, {| nc_dtype := dtype; nc_dims := dims;
                                      nc_attrs := []; nc_data := None |})])%list
          |}.

Definition update_var (name : string) (f : ncvar -> ncvar) (ds : dataset)
  : dataset :=
  match dget name (ds_vars ds) with
  | Some v =>
      {| ds_attrs := ds_attrs ds; ds_dims := ds_dims ds;
         ds_vars := dset name (f v) (ds_vars ds) |}
  | None => ds
  end.

(** [cdfkey.setncatts(d)] *)
Definition setncatts (name : string) (d : record) (ds : dataset) : dataset :=
  update_var name
    (fun v => {| nc_dtype := nc_dtype v; nc_dims := nc_dims v;
                 nc_attrs := dupdate (nc_attrs v) d;
                 nc_data := nc_data v |}) ds.

(** [cdfkey[:] = buffer] *)
Definition set_data (name : string) (buffer : ncdata) (ds : dataset)
  : dataset :=
  update_var name
    (fun v => {| nc_dtype := nc_dtype v; nc_dims := nc_dims v;
                 nc_attrs := nc_attrs v; nc_data := Some buffer |}) ds.

(** ** Steps on an open dataset

    A step leaves the dataset it reached, also when it raises: a failed
    write leaves a partial file. *)
Definition step : Type := dataset -> dataset * Eff unit.

Definition done : step := fun ds => (ds, ret tt).
Definition fail (e : exn) : step := fun ds => (ds, raise e).
Definition say (ev : event) : step := fun ds => (ds, emit ev).
Definition change (f : dataset -> dataset) : step :=
  fun ds => (f ds, ret tt).
Definition attempt (f : dataset -> result dataset) : step :=
  fun ds => match f ds with
            | Ok ds' => (ds', ret tt)
            | Raise e => (ds, raise e)
            end.

Definition seq (a b : step) : step :=
  fun ds =>
    match a ds with
    | (ds1, (l1, Ok _)) =>
        match b ds1 with
        | (ds2, (l2, r)) => (ds2, ((l1 ++ l2)%list, r))
        end
    | (ds1, (l1, Raise e)) => (ds1, (l1, Raise e))
    end.

Fixpoint seq_all (l : list step) : step :=
  match l with
  | [] => done
  | a :: l' => seq a (seq_all l')
  end.

End NetCDF.

Import NetCDF.

(* ===================================================================== *)
(** * Codec.Write: [inst_to_netcdf] *)
(* ===================================================================== *)

Module Write.

Import Standards Overlay Translate.

Record options : Type := {
  base_instrument : option Instrument;
  epoch_name : string;
  mode : open_mode;
  zlib : bool;
  complevel : Z;
  shuffle : bool;
  preserve_meta_case : bool;
  check_type : option (list string);
  export_nan : option (list string);
  unlimited_time : bool;
  meta_translation : option (list (string * list string));
  meta_processor : option (mdict -> Eff mdict)
}.

(** The keyword defaults of [inst_to_netcdf] *)
Definition default_options : options :=
  {| base_instrument := None; epoch_name := "Epoch"; mode := ModeW;
     zlib := false; complevel := 4; shuffle := true;
     preserve_meta_case := false; check_type := None; export_nan := None;
     unlimited_time := true; meta_translation := None;
     meta_processor := None |}.

(** [s[:-3]] *)
Definition drop_last3 (s : string) : string :=
  String.substring 0 (String.length s - 3) s.

(** [s.split('.')] *)
Fixpoint split_dot (s : string) (cur : string) : list string :=
  match s with
  | EmptyString => [cur]
  | String c s' =>
      if Ascii.eqb c "."%char then cur :: split_dot s' ""
      else split_dot s' (cur ++ String c "")%string
  end.

(** [l[:-1]] *)
Definition but_last (l : list string) : list string := removelast l.

(** [name.find('_') != 0] *)
Definition is_public (name : string) : bool :=
  match name with
  | String c _ => negb (Ascii.eqb c "_"%char)
  | EmptyString => true
  end.

Definition pysat_items : list string :=
  ["Date_End"; "Date_Start"; "File"; "File_Date"; "Generation_Date";
   "Logical_File_ID"].

(** 1.0E-6 in binary64 *)
Definition float_1e_6 : spec_float :=
  S754_finite false 4722366482869645 (-72).

(** [(ns * 1.0E-6).astype(np.int64)] on an integer *)
Definition ns_to_ms (ns : Z) : Z :=
  match trunc_float (SFmul 53 1024 (float_of_Z ns) float_1e_6) with
  | Ok z => z
  | Raise _ => 0
  end.

(** [len(np.unique(l))] *)
Definition count_unique (l : list string) : nat :=
  length (nodup string_dec l).

Section WithExternals.
Context {X : Externals}.

(** [for ikey in inst_attrb:
       if ikey not in base_attrb:
         if ikey.find('_') != 0: attrb_dict[ikey] = getattr(inst, ikey)]
    [base_attrb] is bound only when no base instrument is given. *)
Fixpoint custom_attrs (base : option (list string)) (inst_attrb : record)
  (attrb_dict : record) : result record :=
  match inst_attrb with
  | [] => Ok attrb_dict
  | (ikey, value) :: rest =>
      match base with
      | None => Raise NameError
      | Some names =>
          custom_attrs base rest
            (if negb (mem ikey names) && is_public ikey
             then dset ikey value attrb_dict else attrb_dict)
      end
  end.

Definition last_index (inst : Instrument) : Z := last (index inst) 0.
Definition first_index (inst : Instrument) : Z := hd 0 (index inst).

Definition date_string (t : Z) : pyval :=
  vstr (drop_last3 (strftime t) ++ " UTC").

(** The attributes the writer sets itself, in the order it sets them. *)
Definition file_info (inst : Instrument) (fname : string)
  (attrb_dict : record) : record :=
  let d := dset "platform" (platform inst) attrb_dict in
  let d := dset "name" (name inst) d in
  let d := dset "tag" (tag inst) d in
  let d := dset "inst_id" (inst_id inst) d in
  let d := dset "acknowledgements" (acknowledgements inst) d in
  let d := dset "references" (references inst) d in
  let d := dset "Date_End" (date_string (last_index inst)) d in
  let d := dset "Date_Start" (date_string (first_index inst)) d in
  let d := dset "File"
             (VArr [SStr (fst (path_split fname));
                    SStr (snd (path_split fname))]) d in
  let d := dset "File_Date" (date_string (last_index inst)) d in
  let d := dset "Generation_Date" (vstr utcnow_date) d in
  dset "Logical_File_ID"
    (VArr (map SStr (but_last (split_dot (snd (path_split fname)) "")))) d.

(** [None] becomes [''], a boolean an integer. *)
Definition plain_attr (v : pyval) : pyval :=
  match v with
  | VS SNone => vstr ""
  | VS (SBool b) => vint (Z.b2z b)
  | _ => v
  end.

(** The attributes added to conform to the standard, the removal of the
    names the writer owns, the file information and the conversion of
    [None] and booleans. *)
Definition standard_attributes (inst : Instrument) (fname : string)
  (attrb_dict : record) : record :=
  let d := dset "pysat_version" (vstr pysat_version) attrb_dict in
  let d := if dmem "Conventions" d then d
           else dset "Conventions"
                  (vstr "pysat-simplified SPDF ISTP/IACG for NetCDF") d in
  let d := if dmem "Text_Supplement" d then d
           else dset "Text_Supplement" (vstr "") d in
  let d := fold_left (fun acc pitem =>
                        if dmem pitem acc then dpop pitem acc else acc)
             pysat_items d in
  let d := file_info inst fname d in
  map (fun kv => (fst kv, plain_attr (snd kv))) d.

(** The global attributes of the file. *)
Definition global_attributes (inst : Instrument) (fname : string)
  (o : options) : result record :=
  let base := match base_instrument o with
              | None => Some base_attrb
              | Some _ => None
              end in
  let attrb_dict := match header inst with
                    | Some h => if Nat.ltb 0 (length h) then h else []
                    | None => []
                    end in
  match custom_attrs base (attrs inst) attrb_dict with
  | Raise e => Raise e
  | Ok attrb_dict => Ok (standard_attributes inst fname attrb_dict)
  end.

(** The check for variables that differ by case only. *)
Definition case_collision (inst : Instrument) : bool :=
  let lower_variables := map lower (variables inst) in
  negb (Nat.eqb (count_unique lower_variables) (length lower_variables)).

(** [for label in [fill_val, max_val, min_val]:
       if label not in check_type: check_type.append(label)] *)
Definition resolve_check_type (inst : Instrument)
  (check_type : option (list string)) : list string :=
  let lb := labels inst in
  let std := [l_fill_val lb; l_max_val lb; l_min_val lb] in
  match check_type with
  | None => std
  | Some l =>
      fold_left (fun acc label => if mem label acc then acc
                                  else (acc ++ [label])%list) std l
  end.

(** The translation table of the write, completed with the defaults. *)
Definition resolve_translation (inst : Instrument) (o : options)
  : Eff (list (string * list string)) :=
  t <- match meta_translation o with
       | Some t => ret t
       | None =>
           match meta_translation_table inst with
           | Some t => emit LogUsingTable ;;; ret t
           | None => ret (default_to_netcdf_translation_table inst)
           end
       end ;;
  ret (fold_left (fun acc kv => if dmem (fst kv) acc then acc
                                else dset (fst kv) (snd kv) acc)
         (default_to_netcdf_translation_table inst) t).

(** The metadata the file will carry, per variable. *)
Definition export_metadata (inst : Instrument) (o : options)
  (check_type export_nan : list string) : Eff mdict :=
  table <- resolve_translation inst o ;;
  let export_meta := to_dict (meta inst) in
  epoch_meta <- lift (return_epoch_metadata inst (epoch_name o)) ;;
  let export_meta := dset (epoch_name o) epoch_meta export_meta in
  export_meta <- add_netcdf4_standards_to_metadict inst export_meta
                   (epoch_name o) (Some check_type) (Some export_nan) ;;
  let export_meta :=
    apply_table_translation_to_file inst export_meta (Some table) in
  match meta_processor o with
  | Some f => f export_meta
  | None =>
      match export_meta_post_processing inst with
      | Some f => f export_meta
      | None => ret export_meta
      end
  end.

(** Everything the writer does before it opens the file. *)
Definition preflight (inst : Instrument) (fname : string) (o : options)
  : Eff (record * mdict) :=
  export_nan <- match export_nan o with
                | Some l => ret l
                | None => emit LogExportNanDefault ;;;
                          ret (meta_export_nan inst)
                end ;;
  let check_type := resolve_check_type inst (check_type o) in
  attrb_dict <- lift (global_attributes inst fname o) ;;
  (if case_collision inst then raise ValueError else ret tt) ;;;
  export_meta <- export_metadata inst o check_type export_nan ;;
  ret (attrb_dict, export_meta).

(** ** The file stage *)

Definition elems_app (a b : elems) : result elems :=
  match a, b with
  | EInt x, EInt y => Ok (EInt (x ++ y))
  | EFloat x, EFloat y => Ok (EFloat (x ++ y))
  | EStr x, EStr y => Ok (EStr (x ++ y))
  | EDatetime x, EDatetime y => Ok (EDatetime (x ++ y))
  | _, _ => Raise TypeError
  end.

(** [np.zeros((0, n)).astype(coltype)]: the empty buffer of a type *)
Definition empty_buffer (t : pytype) : elems :=
  match t with
  | TStr => EStr []
  | TNpFloat64 | TFloat => EFloat []
  | _ => EInt []
  end.

Definition same_buffer_type (t : pytype) (e : elems) : bool :=
  match t, e with
  | TStr, EStr _ => true
  | TNpFloat64, EFloat _ => true
  | TNpInt64, EInt _ => true
  | _, _ => false
  end.

Definition truncate (n : nat) (s : string) : string := String.substring 0 n s.

(** A row as the typed buffer holds it.  Text is cut to the width of the
    buffer ([width] characters); a row of another type is converted. *)
Definition store_row (t : pytype) (width : nat) (e : elems) : result elems :=
  match t, e with
  | TStr, EStr l => Ok (EStr (map (truncate width) l))
  | TNpInt64, EDatetime l => Ok (EInt l)
  | _, _ => if same_buffer_type t e then Ok e else buffer_cast t e
  end.

Definition elems_repeat (n : nat) (e : elems) : elems :=
  match e with
  | EInt l => EInt (concat (repeat l n))
  | EFloat l => EFloat (concat (repeat l n))
  | EStr l => EStr (concat (repeat l n))
  | EDatetime l => EDatetime (concat (repeat l n))
  end.

(** [temp[i, :] = row]: the row has the length of the buffer's rows, or
    one element that is repeated. *)
Definition fit_row (n : nat) (e : elems) : result elems :=
  if Nat.eqb (elems_len e) n then Ok e
  else if Nat.eqb (elems_len e) 1 then Ok (elems_repeat n e)
  else Raise ValueError.

(** [for i in range(num): temp[i, :] = get(inst[key].iloc[i])] *)
Fixpoint fill_buffer (get : cell -> result elems) (t : pytype)
  (width n : nat) (cells : list cell) (buffer : elems) : result elems :=
  match cells with
  | [] => Ok buffer
  | c :: rest =>
      match get c with
      | Raise e => Raise e
      | Ok row =>
          match fit_row n row with
          | Raise e => Raise e
          | Ok row =>
              match store_row t width row with
              | Raise e => Raise e
              | Ok row =>
                  match elems_app buffer row with
                  | Raise e => Raise e
                  | Ok buffer' => fill_buffer get t width n rest buffer'
                  end
              end
          end
      end
  end.

(** [inst[key].iloc[i][col].values] *)
Definition frame_column (col : string) (c : cell) : result elems :=
  match c with
  | CFrame f => dindex col (f_columns f)
  | CSeries _ => Raise KeyError
  end.

(** [inst[i, key].values] written into one row *)
Definition series_values (c : cell) : result elems :=
  match c with
  | CSeries s => Ok (s_values s)
  | CFrame _ => Raise ValueError
  end.

(** [cdfkey.setncatts(export_meta[lower_key])], or the warning *)
Definition attach_meta (var_name lower_key warn_name : string)
  (export_meta : mdict) : step :=
  match dget lower_key export_meta with
  | Some r => change (setncatts var_name r)
  | None => say (LogNoMetaData "warning" warn_name)
  end.

Definition ms_values (e : elems) : elems :=
  match e with
  | EInt l => EInt (map ns_to_ms l)
  | EDatetime l => EInt (map ns_to_ms l)
  | _ => e
  end.

(** A column that is not an object column, or a column of strings. *)
Definition write_1d (o : options) (export_meta : mdict)
  (key case_key : string) (e : elems) : step :=
  seq_all
    [attempt (create_variable case_key (fst (elems_info e)) [epoch_name o]);
     attach_meta case_key (lower key) key export_meta;
     change (set_data case_key
               (D1 (match e with
                    | EDatetime l => EInt (map ns_to_ms l)
                    | _ => e
                    end)))].

(** One sub-variable of a column of tables. *)
Definition write_frame_column (o : options) (export_meta : mdict)
  (key case_key : string) (cells : list cell) (first : cell) (dim0 : nat)
  (col : string) : step :=
  match frame_column col first with
  | Raise e => fail e
  | Ok idx =>
      let coltype := fst (elems_info idx) in
      let name := (case_key ++ "_" ++ col)%string in
      let lkey := (lower key ++ "_" ++ lower col)%string in
      seq_all
        [attempt (create_variable name coltype [epoch_name o; case_key]);
         attach_meta name lkey lkey export_meta;
         match fill_buffer (frame_column col) coltype 32 dim0 cells
                 (empty_buffer coltype) with
         | Ok buffer => change (set_data name (D2 dim0 buffer))
         | Raise e => fail e
         end]
  end.

(** The single variable of a column of series. *)
Definition write_series_data (o : options) (export_meta : mdict)
  (key case_key : string) (cells : list cell) (first : cell) (dim0 : nat)
  : step :=
  let coltype := match first with
                 | CSeries s => fst (elems_info (s_values s))
                 | CFrame _ => TOther
                 end in
  let name := (case_key ++ "_data")%string in
  seq_all
    [attempt (create_variable name coltype [epoch_name o; case_key]);
     attach_meta name (lower key) case_key export_meta;
     match fill_buffer series_values coltype 1 dim0 cells
             (empty_buffer coltype) with
     | Ok buffer => change (set_data name (D2 dim0 buffer))
     | Raise e => fail e
     end].

(** The index of the cells, stored under the name of the variable. *)
Definition write_cell_index (o : options) (export_meta : mdict)
  (key case_key : string) (cells : list cell) (first : cell) (dim0 : nat)
  : step :=
  let coltype := fst (elems_info (cell_index first)) in
  let datetime_flag := snd (elems_info (cell_index first)) in
  let new_dict := match dget (lower key) export_meta with
                  | Some r => r
                  | None => []
                  end in
  seq_all
    [attempt (create_variable case_key coltype [epoch_name o; case_key]);
     (if dmem (lower key) export_meta then done
      else say (LogNoMetaData "warning" case_key));
     (if datetime_flag then say (PrintLine "Setting datetime info ")
      else done);
     change (setncatts case_key new_dict);
     match fill_buffer (fun c => Ok (cell_index c)) coltype 1 dim0 cells
             (empty_buffer coltype) with
     | Ok buffer =>
         change (set_data case_key
                   (D2 dim0 (if datetime_flag then ms_values buffer
                             else buffer)))
     | Raise e => fail e
     end].

(** An object column whose cells are tables or series. *)
Definition write_nested (o : options) (export_meta : mdict)
  (key case_key : string) (cells : list cell) : step :=
  match nth_cell cells 0 with
  | Raise e => fail e
  | Ok first =>
      let dim0 := cell_len first in
      seq_all
        [attempt (create_dimension case_key (Some dim0));
         match first with
         | CFrame f =>
             seq_all
               (map (write_frame_column o export_meta key case_key cells
                       first dim0)
                  (dkeys (f_columns f)))
         | CSeries _ =>
             write_series_data o export_meta key case_key cells first dim0
         end;
         write_cell_index o export_meta key case_key cells first dim0]
  end.

(** The body of the loop over [inst.variables]. *)
Definition write_variable (inst : Instrument) (o : options)
  (export_meta : mdict) (kc : string * column) : step :=
  let key := fst kc in
  let case_key := if preserve_meta_case o
                  then var_case_name (meta inst) key else key in
  match snd kc with
  | Col1D e => write_1d o export_meta key case_key e
  | ColObj cells => write_nested o export_meta key case_key cells
  end.

(** The block under [with netCDF4.Dataset(...) as out_data]. *)
Definition write_pandas (inst : Instrument) (o : options)
  (attrb_dict : record) (export_meta : mdict) : step :=
  seq_all
    [change (set_global_attrs attrb_dict);
     attempt (create_dimension (epoch_name o)
                (if unlimited_time o then None
                 else Some (length (index inst))));
     attempt (create_variable (epoch_name o) TNpInt64 [epoch_name o]);
     match dget (epoch_name o) export_meta with
     | Some r => change (setncatts (epoch_name o) r)
     | None => fail KeyError
     end;
     change (set_data (epoch_name o) (D1 (EInt (map ns_to_ms (index inst)))));
     seq_all (map (write_variable inst o export_meta) (data inst))].

(** [inst_to_netcdf(inst, fname, ...)] on the files [fs]. *)
Definition inst_to_netcdf (inst : Instrument) (fname : string) (o : options)
  (fs : disk) : disk * Eff unit :=
  if empty inst then (fs, emit (LogEmptyInstrument fname))
  else
    match preflight inst fname o with
    | (l, Raise e) => (fs, (l, Raise e))
    | (l, Ok prepared) =>
        match open_dataset fname (mode o) fs with
        | Raise e => (fs, (l, Raise e))
        | Ok out_data =>
            match write_pandas inst o (fst prepared) (snd prepared) out_data
            with
            | (ds, (l', r)) => (dset fname ds fs, ((l ++ l')%list, r))
            end
        end
    end.

End WithExternals.

End Write.

(* ===================================================================== *)
(** * Codec.Read: [load_netcdf_pandas] *)
(* ===================================================================== *)

Module Read.

Import Standards Translate Expander Compare.

Record options : Type := {
  strict_meta : bool;
  epoch_name : string;
  epoch_unit : Z;      (* nanoseconds per unit: ['ms'] is 1000000 *)
  epoch_origin : Z;    (* nanoseconds of the origin: ['unix'] is 0 *)
  labels : MetaLabels;
  meta_processor : option (mdict -> Eff mdict);
  meta_translation : option (list (string * string));
  drop_meta_labels : option (list string)
}.

(** What one file contributes to the frame: the time index and the
    columns.  [pds.concat] stacks the contributions in file order. *)
Record loaded : Type := {
  ld_index : list Z;
  ld_columns : list (string * column)
}.

(** A stored record goes with the number of the file that created it:
    two records of the same file and name are one object. *)

Record state : Type := {
  full_mdict : list (string * (nat * record));
  two_d_keys : list string;
  two_d_dims : list (string * string);
  running_store : list loaded;
  saved_meta : option (list (string * (nat * record)));
  header_attrs : record
}.

Definition initial : state :=
  {| full_mdict := []; two_d_keys := []; two_d_dims := [];
     running_store := []; saved_meta := None; header_attrs := [] |}.

(** [pds.to_datetime(time_var, unit=epoch_unit, origin=epoch_origin)] on
    integers *)
Definition to_datetime (o : options) (e : elems) : result (list Z) :=
  match e with
  | EInt l => Ok (map (fun t => t * epoch_unit o + epoch_origin o) l)
  | EDatetime l => Ok l
  | _ => Raise TypeError
  end.

(** [s.split(sep)[-1]]: what follows the last occurrence of [sep]. *)
Fixpoint after_last (sep : string) (s : string) (fuel : nat) : string :=
  match fuel with
  | O => s
  | S fuel' =>
      match String.index 0 sep s with
      | Some i =>
          after_last sep
            (String.substring (i + String.length sep)
               (String.length s - (i + String.length sep)) s) fuel'
      | None => s
      end
  end.

Definition clean_key (obj_key key : string) : string :=
  after_last (obj_key ++ "_") key (String.length key).

Definition pair_eqb (a b : string * string) : bool :=
  String.eqb (fst a) (fst b) && String.eqb (snd a) (snd b).

(** [set(two_d_dims)], in the order of first occurrence *)
Fixpoint unique_dims (l : list (string * string))
  (seen : list (string * string)) : list (string * string) :=
  match l with
  | [] => []
  | d :: l' =>
      if existsb (pair_eqb d) seen then unique_dims l' seen
      else d :: unique_dims l' (d :: seen)
  end.

(** The variables that carry the dimension pair [dim] *)
Fixpoint keys_with_dim (dim : string * string) (keys : list string)
  (dims : list (string * string)) : list string :=
  match keys, dims with
  | k :: keys', d :: dims' =>
      if pair_eqb dim d then k :: keys_with_dim dim keys' dims'
      else keys_with_dim dim keys' dims'
  | _, _ => []
  end.

Definition flat_data (v : ncvar) : elems :=
  match nc_data v with
  | Some (D1 e) => e
  | Some (D2 _ e) => e
  | None => EFloat []
  end.

(** [data.variables[key].shape[0]] and [len(data.variables[key][0, :])] *)
Definition row_width (v : ncvar) : result nat :=
  match nc_data v with
  | Some (D2 w e) => if Nat.eqb (elems_len e) 0 then Raise IndexError else Ok w
  | _ => Raise IndexError
  end.

Definition row_count (v : ncvar) : nat :=
  match nc_data v with
  | Some (D2 w e) => Nat.div (elems_len e) w
  | Some (D1 e) => elems_len e
  | None => 0
  end.

Definition elems_slice (from n : nat) (e : elems) : elems :=
  match e with
  | EInt l => EInt (firstn n (skipn from l))
  | EFloat l => EFloat (firstn n (skipn from l))
  | EStr l => EStr (firstn n (skipn from l))
  | EDatetime l => EDatetime (firstn n (skipn from l))
  end.

(** The label of an index: a name read from the file, when it is text. *)
Definition name_of (v : pyval) : option string :=
  match v with
  | VS (SStr s) => Some s
  | _ => None
  end.

(** [np.arange(loop_lim * step) % step] *)
Definition integer_index (loop_lim step : nat) : elems :=
  EInt (map (fun i => Z.of_nat (Nat.modulo i step)) (List.seq 0 (loop_lim * step))).

(** The cells rebuilt from the flat columns of one dimension pair. *)
Definition rebuild_cells (loop_dict : list (string * elems))
  (clean_var_keys obj_var_keys : list string) (obj_key : string)
  (loop_lim step : nat) (new_index : elems) (new_index_name : option string)
  : result (list cell) :=
  if Nat.ltb 1 (length loop_dict) then
    let columns :=
      filter (fun kv => negb (String.eqb (fst kv) obj_key))
        (flat_map (fun k => match dget k loop_dict with
                            | Some e => [(k, e)]
                            | None => []
                            end) clean_var_keys) in
    Ok (map (fun i =>
               CFrame {| f_index := elems_slice (step * i) step new_index;
                         f_index_name := new_index_name;
                         f_columns :=
                           map (fun kv =>
                                  (fst kv,
                                   elems_slice (step * i) step (snd kv)))
                             columns |})
          (List.seq 0 loop_lim))
  else
    match dindex (hd "" clean_var_keys) loop_dict with
    | Raise e => Raise e
    | Ok values =>
        Ok (map (fun i =>
                   CSeries {| s_name := hd "" obj_var_keys;
                              s_index :=
                                elems_slice (step * i) step new_index;
                              s_index_name := new_index_name;
                              s_values := elems_slice (step * i) step values |})
              (List.seq 0 loop_lim))
    end.

Definition attrs_of (ds : dataset) (key : string) : result record :=
  match dindex key (ds_vars ds) with
  | Ok v => Ok (nc_attrs v)
  | Raise e => Raise e
  end.

(** [for key, clean_key in zip(obj_var_keys, clean_var_keys):
       dim_meta_data[clean_key] = attributes of key] *)
Fixpoint dim_meta (ds : dataset) (obj_key : string)
  (obj_var_keys : list string) (acc : mdict) : result mdict :=
  match obj_var_keys with
  | [] => Ok acc
  | key :: rest =>
      match attrs_of ds key with
      | Ok r => dim_meta ds obj_key rest (dset (clean_key obj_key key) r acc)
      | Raise e => Raise e
      end
  end.

(** [loop_dict[clean_key] = data.variables[key][:, :].flatten()] *)
Fixpoint flat_columns (ds : dataset) (obj_key : string)
  (obj_var_keys : list string) (acc : list (string * elems))
  : result (list (string * elems)) :=
  match obj_var_keys with
  | [] => Ok acc
  | key :: rest =>
      match dindex key (ds_vars ds) with
      | Ok v =>
          flat_columns ds obj_key rest
            (dset (clean_key obj_key key) (flat_data v) acc)
      | Raise e => Raise e
      end
  end.

Section WithOptions.
Variable o : options.
Variable file_no : nat.

(** The first loop over the variables of a file. *)
Fixpoint scan_variables (vars : list (string * ncvar))
  (loaded_vars : list (string * column)) (st : state)
  : result (list (string * column) * state) :=
  match vars with
  | [] => Ok (loaded_vars, st)
  | (key, v) :: rest =>
      match length (nc_dims v) with
      | 0%nat => scan_variables rest loaded_vars st
      | 1%nat =>
          scan_variables rest (dset key (Col1D (flat_data v)) loaded_vars)
            {| full_mdict := dset key (file_no, nc_attrs v) (full_mdict st);
               two_d_keys := two_d_keys st; two_d_dims := two_d_dims st;
               running_store := running_store st;
               saved_meta := saved_meta st;
               header_attrs := header_attrs st |}
      | 2%nat =>
          scan_variables rest loaded_vars
            {| full_mdict := full_mdict st;
               two_d_keys := (two_d_keys st ++ [key])%list;
               two_d_dims :=
                 (two_d_dims st ++
                    [(nth 0 (nc_dims v) "", nth 1 (nc_dims v) "")])%list;
               running_store := running_store st;
               saved_meta := saved_meta st;
               header_attrs := header_attrs st |}
      | _ => Raise ValueError
      end
  end.

(** The body of the loop over the distinct dimension pairs. *)
Definition load_group (ds : dataset) (dim : string * string)
  (loaded_vars : list (string * column)) (st : state)
  : result (list (string * column) * state) :=
  match (if String.eqb (fst dim) (epoch_name o) then Ok (snd dim)
         else if String.eqb (snd dim) (epoch_name o) then Ok (fst dim)
              else Raise KeyError) with
  | Raise e => Raise e
  | Ok obj_key =>
      let obj_var_keys := keys_with_dim dim (two_d_keys st) (two_d_dims st) in
      let clean_var_keys := map (clean_key obj_key) obj_var_keys in
      let has_index := mem obj_key obj_var_keys in
      match (if has_index then
               match attrs_of ds obj_key with
               | Raise e => Raise e
               | Ok r =>
                   match dget (l_name (labels o)) r with
                   | None => Raise AttributeError
                   | Some nm =>
                       match eq_truth nm (vstr (epoch_name o)) with
                       | Raise e => Raise e
                       | Ok true => Ok (true, Some (epoch_name o))
                       | Ok false => Ok (false, name_of nm)
                       end
                   end
               end
             else Ok (false, None)) with
      | Raise e => Raise e
      | Ok (time_index_flag, index_name) =>
          match dim_meta ds obj_key obj_var_keys [] with
          | Raise e => Raise e
          | Ok dim_meta_data =>
              match (if has_index then
                       match attrs_of ds obj_key with
                       | Ok r =>
                           Ok (dset obj_key
                                 (file_no,
                                  dupdate [("meta", VMeta dim_meta_data)] r)
                                 (full_mdict st))
                       | Raise e => Raise e
                       end
                     else Ok (full_mdict st)) with
              | Raise e => Raise e
              | Ok full =>
                  match flat_columns ds obj_key obj_var_keys [] with
                  | Raise e => Raise e
                  | Ok loop_dict =>
                      match dindex (hd "" obj_var_keys) (ds_vars ds) with
                      | Raise e => Raise e
                      | Ok v0 =>
                          match row_width v0 with
                          | Raise e => Raise e
                          | Ok step =>
                              let loop_lim := row_count v0 in
                              match (if has_index then
                                       match dindex obj_key loop_dict with
                                       | Raise e => Raise e
                                       | Ok time_var =>
                                           match (if time_index_flag then
                                                    match to_datetime o time_var with
                                                    | Ok l => Ok (EDatetime l)
                                                    | Raise e => Raise e
                                                    end
                                                  else Ok time_var) with
                                           | Raise e => Raise e
                                           | Ok new_index =>
                                               Ok (dpop obj_key loop_dict,
                                                   new_index, index_name)
                                           end
                                       end
                                     else
                                       Ok (loop_dict,
                                           integer_index loop_lim step,
                                           Some "index")) with
                              | Raise e => Raise e
                              | Ok (loop_dict', new_index, new_index_name) =>
                                  match rebuild_cells loop_dict' clean_var_keys
                                          obj_var_keys obj_key loop_lim step
                                          new_index new_index_name with
                                  | Raise e => Raise e
                                  | Ok cells =>
                                      Ok (dset obj_key (ColObj cells)
                                            loaded_vars,
                                          {| full_mdict := full;
                                             two_d_keys := two_d_keys st;
                                             two_d_dims := two_d_dims st;
                                             running_store := running_store st;
                                             saved_meta := saved_meta st;
                                             header_attrs := header_attrs st |})
                                  end
                              end
                          end
                      end
                  end
              end
          end
      end
  end.

Fixpoint load_groups (ds : dataset) (dims : list (string * string))
  (loaded_vars : list (string * column)) (st : state)
  : result (list (string * column) * state) :=
  match dims with
  | [] => Ok (loaded_vars, st)
  | dim :: rest =>
      match load_group ds dim loaded_vars st with
      | Ok (lv, st') => load_groups ds rest lv st'
      | Raise e => Raise e
      end
  end.

End WithOptions.

(** [full_mdict != saved_meta] *)
Fixpoint tagged_items_differ (full saved : list (string * (nat * record)))
  : result bool :=
  match full with
  | [] => Ok false
  | (k, (n1, r1)) :: rest =>
      match dget k saved with
      | None => Ok true
      | Some (n2, r2) =>
          if Nat.eqb n1 n2 then tagged_items_differ rest saved
          else
            match record_eq eq_truth r1 r2 with
            | Ok true => tagged_items_differ rest saved
            | Ok false => Ok true
            | Raise e => Raise e
            end
      end
  end.

Definition metadata_differs (full saved : list (string * (nat * record)))
  : result bool :=
  if Nat.eqb (length full) (length saved) then tagged_items_differ full saved
  else Ok true.

(** The body of the loop over the files. *)
Definition load_file (o : options) (fs : disk) (file_no : nat)
  (fname : string) (st : state) : result state :=
  match dget fname fs with
  | None => Raise OSError
  | Some ds =>
      let st := {| full_mdict := full_mdict st;
                   two_d_keys := two_d_keys st; two_d_dims := two_d_dims st;
                   running_store := running_store st;
                   saved_meta := saved_meta st;
                   header_attrs := dupdate (header_attrs st) (ds_attrs ds) |} in
      match scan_variables file_no (ds_vars ds) [] st with
      | Raise e => Raise e
      | Ok (loaded_vars, st) =>
          match load_groups o file_no ds (unique_dims (two_d_dims st) [])
                  loaded_vars st with
          | Raise e => Raise e
          | Ok (loaded_vars, st) =>
              match dget (epoch_name o) loaded_vars with
              | None => Raise KeyError
              | Some (ColObj _) => Raise TypeError
              | Some (Col1D time_var) =>
                  match to_datetime o time_var with
                  | Raise e => Raise e
                  | Ok idx =>
                      let item :=
                        {| ld_index := idx;
                           ld_columns := dpop (epoch_name o) loaded_vars |} in
                      let store := (running_store st ++ [item])%list in
                      if strict_meta o then
                        match saved_meta st with
                        | None =>
                            Ok {| full_mdict := full_mdict st;
                                  two_d_keys := two_d_keys st;
                                  two_d_dims := two_d_dims st;
                                  running_store := store;
                                  saved_meta := Some (full_mdict st);
                                  header_attrs := header_attrs st |}
                        | Some saved =>
                            match metadata_differs (full_mdict st) saved with
                            | Raise e => Raise e
                            | Ok true => Raise ValueError
                            | Ok false =>
                                Ok {| full_mdict := full_mdict st;
                                      two_d_keys := two_d_keys st;
                                      two_d_dims := two_d_dims st;
                                      running_store := store;
                                      saved_meta := saved_meta st;
                                      header_attrs := header_attrs st |}
                            end
                        end
                      else
                        Ok {| full_mdict := full_mdict st;
                              two_d_keys := two_d_keys st;
                              two_d_dims := two_d_dims st;
                              running_store := store;
                              saved_meta := saved_meta st;
                              header_attrs := header_attrs st |}
                  end
              end
          end
      end
  end.

Fixpoint load_files (o : options) (fs : disk) (file_no : nat)
  (fnames : list string) (st : state) : result state :=
  match fnames with
  | [] => Ok st
  | fname :: rest =>
      match load_file o fs file_no fname st with
      | Ok st' => load_files o fs (S file_no) rest st'
      | Raise e => Raise e
      end
  end.

(** [for label in drop_meta_labels: ...] on one variable *)
Definition drop_labels (drop : list string) (r : record) : record :=
  fold_left
    (fun acc label =>
       let acc := if dmem label acc then dpop label acc else acc in
       match dget "meta" acc with
       | Some (VMeta d) =>
           if dmem label d then dset "meta" (VMeta (dpop label d)) acc
           else acc
       | _ => acc
       end)
    drop r.

(** The records handed to the metadata store:
    [meta[key] = {'meta': dim_meta}] for a higher-order variable,
    [meta[key] = filt_mdict[key]] otherwise. *)
Fixpoint assign_meta (filt_mdict : mdict) (store : mdict) : result mdict :=
  match filt_mdict with
  | [] => Ok store
  | (key, r) :: rest =>
      match dget "meta" r with
      | Some (VMeta d) => assign_meta rest (dset key [("meta", VMeta d)] store)
      | Some _ => Raise AttributeError
      | None => assign_meta rest (dset key r store)
      end
  end.

(** The metadata pipeline after the files are read. *)
Definition process_metadata (o : options) (full : mdict) : Eff mdict :=
  let drop := match drop_meta_labels o with Some l => l | None => [] end in
  let full := map (fun kr => (fst kr, drop_labels drop (snd kr))) full in
  filt <- lift (remove_netcdf4_standards_from_meta full (epoch_name o)) ;;
  let table := match meta_translation o with
               | Some t => t
               | None => default_from_netcdf_translation_table (labels o)
               end in
  filt <- apply_table_translation_from_file table filt ;;
  filt <- match meta_processor o with
          | Some f => f filt
          | None => ret filt
          end ;;
  filt <- lift (meta_array_expander filt) ;;
  lift (assign_meta filt []).

(** [load_netcdf_pandas(fnames, ...)]: the frames of the files, the
    metadata assigned to the store and the header attributes. *)
Definition load_netcdf_pandas (fs : disk) (fnames : list string)
  (o : options) : Eff (list loaded * mdict * record) :=
  st <- lift (load_files o fs 0 fnames initial) ;;
  meta <- process_metadata o
            (map (fun kt => (fst kt, snd (snd kt))) (full_mdict st)) ;;
  ret (running_store st, meta, header_attrs st).

End Read.

(* ===================================================================== *)
(** * An interpreter to run the model on concrete inputs *)
(* ===================================================================== *)

Module Sample.

Definition digit_of (c : ascii) : option Z :=
  let n := nat_of_ascii c in
  if (Nat.leb 48 n && Nat.leb n 57)%bool then Some (Z.of_nat (n - 48))
  else None.

Fixpoint digits (s : string) (acc : Z) : option Z :=
  match s with
  | EmptyString => Some acc
  | String c s' =>
      match digit_of c with
      | Some d => digits s' (10 * acc + d)
      | None => None
      end
  end.

(** Decimal integer literals with an optional sign. *)
Definition parse_int (s : string) : option Z :=
  match s with
  | EmptyString => None
  | String "-"%char (String c s') =>
      match digits (String c s') 0 with
      | Some z => Some (- z)
      | None => None
      end
  | _ => digits s 0
  end.

Definition parse_float (s : string) : option spec_float :=
  if String.eqb (lower s) "nan" then Some S754_nan
  else if String.eqb (lower s) "inf" then Some (S754_infinity false)
  else match parse_int s with
       | Some z => Some (float_of_Z z)
       | None => None
       end.

Definition show_Z (z : Z) : string :=
  NilZero.string_of_int (Z.to_int z).

Definition show (v : pyval) : string :=
  match v with
  | VS (SStr s) => s
  | VS (SInt _ z) => show_Z z
  | VS (SBool true) => "True"
  | VS (SBool false) => "False"
  | VS SNone => "None"
  | _ => "<value>"
  end.

Definition type_code (t : pytype) : result string :=
  match t with
  | TNpInt64 => Ok "i8"
  | TNpFloat64 => Ok "f8"
  | TStr => Ok "S1"
  | _ => Raise TypeError
  end.

#[export] Instance interpreter : Externals := {|
  int_of_str := parse_int;
  float_of_str := parse_float;
  str_of_val := show;
  array_cast := fun _ _ => Raise TypeError;
  invalid_int64 := - 2 ^ 63;
  var_type_code := type_code;
  strftime := fun t => (show_Z t ++ ".000000")%string;
  utcnow_date := "20260101";
  path_split := fun p => ("", p);
  pysat_version := "3.0.1";
  base_attrb := [];
  buffer_cast := fun _ _ => Raise ValueError
|}.

Definition std_labels : MetaLabels :=
  {| l_units := "units"; l_name := "long_name"; l_notes := "notes";
     l_desc := "desc"; l_min_val := "value_min"; l_max_val := "value_max";
     l_fill_val := "fill";
     label_attrs := [("units", "units"); ("long_name", "name");
                     ("notes", "notes"); ("desc", "desc");
                     ("value_min", "min_val"); ("value_max", "max_val");
                     ("fill", "fill_val")] |}.

(** An instrument with the given index, columns and metadata and nothing
    else attached. *)
Definition instrument (idx : list Z) (cols : list (string * column))
  (m : mdict) : Instrument :=
  {| index := idx; data := cols; meta := m; labels := std_labels;
     meta_export_nan := ["fill"; "value_min"; "value_max"];
     header := None; attrs := [];
     platform := vstr "pysat"; name := vstr "testing"; tag := vstr "";
     inst_id := vstr ""; acknowledgements := vstr ""; references := vstr "";
     meta_translation_table := None;
     export_meta_post_processing := None |}.

Definition read_options : Read.options :=
  {| Read.strict_meta := false; Read.epoch_name := "Epoch";
     Read.epoch_unit := 1000000; Read.epoch_origin := 0;
     Read.labels := std_labels; Read.meta_processor := None;
     Read.meta_translation := None; Read.drop_meta_labels := None |}.

End Sample.

(* ===================================================================== *)
(** * Reference functions the code is compared with *)
(* ===================================================================== *)

Module Reference.

Section WithExternals.
Context {X : Externals}.

(** The entries the first pass of the filter removes. *)
Definition nan_dropped (export_nan : list string) (kv : string * pyval)
  : bool :=
  match isnan_truth (snd kv) with
  | Ok true => negb (mem (fst kv) export_nan)
  | _ => false
  end.

(** The entries on which the first pass of the filter stops. *)
Definition nan_escapes (kv : string * pyval) : option exn :=
  match isnan_truth (snd kv) with
  | Raise TypeError => None
  | Raise e => Some e
  | Ok _ => None
  end.

Fixpoint first_escape (d : record) : option exn :=
  match d with
  | [] => None
  | kv :: d' =>
      match nan_escapes kv with
      | Some e => Some e
      | None => first_escape d'
      end
  end.

Definition coerce_bool (v : pyval) : pyval :=
  match v with
  | VS (SBool b) => VS (SInt false (Z.b2z b))
  | _ => v
  end.

(** What the second pass makes of the entries, one after the other. *)
Fixpoint checked_entries (coltype : pytype) (remove : bool)
  (check_type : list string) (d : record) : Eff record :=
  match d with
  | [] => ret []
  | (key, v0) :: rest =>
      let v := coerce_bool v0 in
      match v with
      | VS SNone => checked_entries coltype remove check_type rest
      | _ =>
          if mem key check_type && negb (isinstance v coltype) then
            if remove then checked_entries coltype remove check_type rest
            else
              match construct coltype v with
              | Ok v' =>
                  kept <- checked_entries coltype remove check_type rest ;;
                  ret ((key, v') :: kept)
              | Raise TypeError | Raise ValueError =>
                  emit (WarnUnableToCast key v coltype) ;;;
                  checked_entries coltype remove check_type rest
              | Raise e => raise e
              end
          else
            kept <- checked_entries coltype remove check_type rest ;;
            ret ((key, v) :: kept)
      end
  end.

(** The filter, entry by entry. *)
Definition filtered (mdata_dict : record) (coltype : coltype_arg)
  (remove : bool) (check_type export_nan : option (list string))
  : Eff record :=
  match first_escape mdata_dict with
  | Some e => raise e
  | None =>
      checked_entries (Filter.resolve_coltype coltype) remove
        (Filter.default_list check_type)
        (filter (fun kv => negb (nan_dropped (Filter.default_list export_nan) kv))
           mdata_dict)
  end.

(** An entry the filter passes on as it is. *)
Definition stable (coltype : pytype) (check_type export_nan : list string)
  (kv : string * pyval) : bool :=
  match snd kv with
  | VS SNone => false
  | VS (SBool _) => false
  | VS (SFloat _ S754_nan) => mem (fst kv) export_nan
                              && (negb (mem (fst kv) check_type)
                                  || isinstance (snd kv) coltype)
  | VS _ => negb (mem (fst kv) check_type) || isinstance (snd kv) coltype
  | _ => false
  end.

End WithExternals.

(** The labels of the standards overlay, compared in lower case. *)
Definition is_standard (label : string) : bool :=
  mem (lower label) Standards.lower_vals.

Definition without_standards (r : record) : record :=
  filter (fun kv => negb (is_standard (fst kv))) r.

(** A record that holds a nested set: some label is ['meta'] in lower
    case. *)
Definition has_meta_label (r : record) : bool :=
  mem "meta" (map lower (dkeys r)).

(** A label the overlay does not clash with: in lower case it is neither
    a label of the overlay nor ['meta']. *)
Definition clean_label (label : string) : bool :=
  negb (is_standard label) && negb (String.eqb (lower label) "meta").

Definition clean (r : record) : Prop :=
  NoDup (dkeys r) /\ forall label, In label (dkeys r) -> clean_label label = true.

(** An entry the overlay adds: a text under one of its labels, which the
    type check leaves alone. *)
Definition overlay_entry (check_type : list string) (kv : string * pyval)
  : Prop :=
  is_standard (fst kv) = true
  /\ mem (fst kv) check_type = false
  /\ exists t, snd kv = vstr t.

(** [r'] is [r] followed by entries of the overlay. *)
Definition overlaid (check_type : list string) (r r' : record) : Prop :=
  exists s, r' = (r ++ s)%list
            /\ NoDup (dkeys r')
            /\ forall x, In x s -> overlay_entry check_type x.

Definition overlaid_var (check_type : list string)
  (kr kr' : string * record) : Prop :=
  fst kr = fst kr' /\ overlaid check_type (snd kr) (snd kr').


(** A variable the overlay handles without changing what the caller
    stored: a column of numbers or of text, with a type code, whose record
    holds only entries the filter passes on as they are. *)
Definition plain_variable {X : Externals} (inst : Instrument)
  (epoch_name : string) (check_type export_nan : option (list string))
  (M : mdict) (var : string) (col : column) : Prop :=
  meta_contains (meta inst) var && negb (String.eqb var epoch_name) = true ->
  exists e r code,
    col = Col1D e
    /\ snd (elems_info e) = false
    /\ var_type_code (fst (elems_info e)) = Ok code
    /\ dget (lower var) M = Some r
    /\ forallb (stable (Filter.resolve_coltype (AType (fst (elems_info e))))
                  (Filter.default_list check_type)
                  (Filter.default_list export_nan)) r = true.

(** Removing the overlay from what adding it returns. *)
Definition remove_add {X : Externals} (inst : Instrument) (M : mdict)
  (epoch_name : string) (check_type export_nan : option (list string))
  : result mdict :=
  match outcome (Overlay.add_netcdf4_standards_to_metadict inst M epoch_name
                   check_type export_nan) with
  | Ok M' => Standards.remove_netcdf4_standards_from_meta M' epoch_name
  | Raise e => Raise e
  end.

Definition strictly_increasing :=
  fix go (l : list Z) : bool :=
    match l with
    | a :: ((b :: _) as t) => (a <? b) && go t
    | _ => true
    end.

Definition strictly_decreasing :=
  fix go (l : list Z) : bool :=
    match l with
    | a :: ((b :: _) as t) => (b <? a) && go t
    | _ => true
    end.

(** A step that leaves the global attributes of the file alone. *)
Definition keeps_attrs (s : step) : Prop :=
  forall ds, ds_attrs (fst (s ds)) = ds_attrs ds.

(** The attributes the caller attached: the header and then the public
    attributes of the instrument that a plain instrument does not have. *)
Definition caller_attr {X : Externals} (inst : Instrument) (k : string)
  : option pyval :=
  match Write.custom_attrs (Some base_attrb) (attrs inst)
          (match header inst with
           | Some h => if Nat.ltb 0 (length h) then h else []
           | None => []
           end) with
  | Ok d => dget k d
  | Raise _ => None
  end.

(** A record whose values are all scalars (no array, no nested set). *)
Definition scalar_valued (r : record) : Prop :=
  forall k v, In (k, v) r -> exists s, v = VS s.

(** The value of the first label of the file that translates to [n]. *)
Definition first_value (trans_table : list (string * string)) (r : record)
  (n : string) : option pyval :=
  match Translate.first_source trans_table r n with
  | Some f => dget f r
  | None => None
  end.




(** A set of variables whose records hold scalars only and no nested set. *)
Definition flat (meta_dict : mdict) : Prop :=
  forall var r, In (var, r) meta_dict ->
    NoDup (dkeys r) /\ scalar_valued r /\ ~ In "meta" (dkeys r).















(** The attributes of the variables as the reader collects them. *)
Definition raw_records (vars : list (string * NetCDF.ncvar)) : mdict :=
  map (fun kv => (fst kv, NetCDF.nc_attrs (snd kv))) vars.




(** What the read translation makes of the record of a variable of
    the file: every label of the result holds the value of the first label
    of the file that translates to it. *)
Definition translated (trans_table : list (string * string))
  (kr kf : string * record) : Prop :=
  fst kf = fst kr
  /\ (forall n, dget n (snd kf) = first_value trans_table (snd kr) n)
  /\ NoDup (dkeys (snd kf))
  /\ scalar_valued (snd kf)
  /\ dget "meta" (snd kf) = None.

(** The labels of the file a label of the store is written under. *)
Definition targets (trans_table : list (string * list string))
  (label : string) : list string :=
  match dget label trans_table with
  | Some translated => translated
  | None => [label]
  end.


(** Every column has one dimension. *)
Definition one_dimensional (inst : Instrument) : Prop :=
  forall k c, In (k, c) (data inst) -> exists e, c = Col1D e.













(** A record whose values are all text. *)
Definition text_valued (r : record) : Prop :=
  forall k v, dget k r = Some v -> exists s, v = vstr s.

(** The last character of a text, and the decimal digits. *)
Fixpoint last_char (s : string) : option ascii :=
  match s with
  | EmptyString => None
  | String c EmptyString => Some c
  | String _ s' => last_char s'
  end.

Definition is_digit (c : ascii) : bool :=
  (Nat.leb 48 (nat_of_ascii c) && Nat.leb (nat_of_ascii c) 57)%bool.

End Reference.

(* ===================================================================== *)
(** * Concrete inputs *)
(* ===================================================================== *)

Module Cases.

Import Sample.

(** Metadata with a nested set. *)
Definition nested_input : mdict :=
  [("profiles",
    [("units", vstr "m");
     ("meta", VMeta [("density", [("range", VArr [SInt true 0; SInt true 9])])])])].

(** A time index with a repeated value. *)
Definition repeated_index : Instrument :=
  instrument [1000000; 1000000] [("mlt", Col1D (EInt [1; 2]))] [].

(** A frame without rows whose columns differ by case only, and the same
    columns with one row. *)
Definition colliding_empty : Instrument :=
  instrument [] [("Foo", Col1D (EInt [])); ("foo", Col1D (EFloat []))] [].

Definition colliding : Instrument :=
  instrument [0] [("Foo", Col1D (EInt [1]));
                  ("foo", Col1D (EFloat [S754_zero false]))] [].

(** An instrument whose header carries its own Conventions attribute. *)
Definition with_conventions : Instrument :=
  {| index := [0]; data := [("mlt", Col1D (EInt [1]))]; meta := [];
     labels := std_labels;
     meta_export_nan := ["fill"; "value_min"; "value_max"];
     header := Some [("Conventions", vstr "CF-1.8")]; attrs := [];
     platform := vstr "pysat"; name := vstr "testing"; tag := vstr "";
     inst_id := vstr ""; acknowledgements := vstr ""; references := vstr "";
     meta_translation_table := None;
     export_meta_post_processing := None |}.





(** An instrument that has never been loaded. *)
Definition unloaded : Instrument := instrument [] [] [].

(** A column of numbers, a second column of times, and a record with a
    NaN fill value. *)
Definition hours : mdict := [("mlt", [("units", vstr "hours")])].

Definition with_mlt (m : mdict) : Instrument :=
  instrument [0] [("mlt", Col1D (EFloat [S754_zero false]))] m.

Definition seconds : mdict := [("t2", [("units", vstr "s")])].

Definition with_times : Instrument :=
  instrument [0] [("t2", Col1D (EDatetime [1000000]))] seconds.


Definition hours_nan_fill : mdict :=
  [("mlt", [("units", vstr "hours"); ("fill", vnan)])].

Definition lower_case_format : mdict :=
  [("mlt", [("format", vstr "free text"); ("units", vstr "hours")])].



(** Files to read together. *)
Definition time_var : NetCDF.ncvar :=
  {| NetCDF.nc_dtype := TNpInt64; NetCDF.nc_dims := ["Epoch"];
     NetCDF.nc_attrs := [("units", vstr "Milliseconds since 1970-1-1")];
     NetCDF.nc_data := Some (NetCDF.D1 (EInt [0])) |}.

Definition mlt_var (notes : pyval) : NetCDF.ncvar :=
  {| NetCDF.nc_dtype := TNpInt64; NetCDF.nc_dims := ["Epoch"];
     NetCDF.nc_attrs := [("units", vstr "hours"); ("notes", notes)];
     NetCDF.nc_data := Some (NetCDF.D1 (EInt [1])) |}.

Definition file_of (vars : list (string * NetCDF.ncvar)) : NetCDF.dataset :=
  {| NetCDF.ds_attrs := []; NetCDF.ds_dims := [("Epoch", None)];
     NetCDF.ds_vars := vars |}.



Definition strict_dropping_notes : Read.options :=
  {| Read.strict_meta := true; Read.epoch_name := "Epoch";
     Read.epoch_unit := 1000000; Read.epoch_origin := 0;
     Read.labels := std_labels; Read.meta_processor := None;
     Read.meta_translation := None;
     Read.drop_meta_labels := Some ["notes"] |}.

(** A disk that already holds a file. *)
Definition one_file : disk :=
  [("out.nc", {| ds_attrs := [("title", vstr "kept")]; ds_dims := [];
                 ds_vars := [] |})].

End Cases.

(* ===================================================================== *)
(** * Metadata as attributes of an xarray Dataset:
      [pysat_meta_to_xarray_attr] *)
(* ===================================================================== *)

Module Attach.

Import Standards.

(** [is_fill(meta_value, nan_valid)].  [len] is tried first and only its
    [TypeError] is caught; [np.isnan] is called in the handler, unless NaN
    is allowed, and what it raises escapes. *)
Definition is_fill (meta_value : pyval) (nan_valid : bool) : result bool :=
  match meta_value with
  | VS SNone => Ok true
  | _ =>
      match py_len meta_value with
      | Ok n => Ok (negb (Nat.ltb 0 n))
      | Raise TypeError =>
          if nan_valid then Ok false
          else match isnan_truth meta_value with
               | Ok b => Ok b
               | Raise e => Raise e
               end
      | Raise e => Raise e
      end
  end.

(** The loop over the labels of one variable.  The attributes are
    updated in place: what was set before an error stays set. *)
Fixpoint attach_labels (items : record) (export_nan : list string)
  (attrs : record) : record * result unit :=
  match items with
  | [] => (attrs, Ok tt)
  | (meta_key, value) :: rest =>
      match is_fill value (mem meta_key export_nan) with
      | Ok false => attach_labels rest export_nan (dset meta_key value attrs)
      | Ok true => attach_labels rest export_nan attrs
      | Raise e => (attrs, Raise e)
      end
  end.

(** The loop over the variables of the metadata; [data_vars] holds the
    attributes of the data variables of the Dataset, by name. *)
Fixpoint attach_vars (meta_items : mdict) (export_nan : list string)
  (data_vars : list (string * record))
  : list (string * record) * result unit :=
  match meta_items with
  | [] => (data_vars, Ok tt)
  | (data_key, r) :: rest =>
      match dget data_key data_vars with
      | Some attrs =>
          match attach_labels r export_nan attrs with
          | (attrs', Ok _) =>
              attach_vars rest export_nan (dset data_key attrs' data_vars)
          | (attrs', Raise e) => (dset data_key attrs' data_vars, Raise e)
          end
      | None => attach_vars rest export_nan data_vars
      end
  end.

(** [pysat_meta_to_xarray_attr(xr_data, pysat_meta, export_nan)]: the
    attributes of the data variables after the call, and how it ends. *)
Definition pysat_meta_to_xarray_attr (xr_data : list (string * record))
  (pysat_meta : mdict) (export_nan : option (list string))
  : list (string * record) * result unit :=
  attach_vars pysat_meta
    (match export_nan with Some l => l | None => [] end) xr_data.

End Attach.

(* ===================================================================== *)
(** * Codec.Read: the metadata of [load_netcdf_xarray] *)
(* ===================================================================== *)

Module ReadXarray.

Import Standards Translate Expander.

(** [for label in drop_meta_labels:
       if label in full_mdict[var]: full_mdict[var].pop(label)] *)
Definition drop_labels (drop : list string) (r : record) : record :=
  fold_left (fun acc label => if dmem label acc then dpop label acc else acc)
    drop r.

(** [for key in filt_mdict: meta[key] = filt_mdict[key]] *)
Definition assign_meta (filt_mdict : mdict) : mdict :=
  fold_left (fun store kr => dset (fst kr) (snd kr) store) filt_mdict [].

(** The metadata [load_netcdf_xarray] returns, from the point where
    [xr.open_dataset] has opened the files: [variables] holds the
    attributes of [data.variables], by name. *)
Definition load_netcdf_xarray_meta (o : Read.options)
  (variables : list (string * record)) : Eff mdict :=
  let full_mdict :=
    fold_left (fun acc kv => dset (fst kv) (snd kv) acc) variables [] in
  let drop := match Read.drop_meta_labels o with
              | Some l => l
              | None => []
              end in
  let full_mdict :=
    map (fun kr => (fst kr, drop_labels drop (snd kr))) full_mdict in
  filt <- lift (remove_netcdf4_standards_from_meta full_mdict
                  (Read.epoch_name o)) ;;
  let table := match Read.meta_translation o with
               | Some t => t
               | None =>
                   default_from_netcdf_translation_table (Read.labels o)
               end in
  filt <- apply_table_translation_from_file table filt ;;
  filt <- match Read.meta_processor o with
          | Some f => f filt
          | None => ret filt
          end ;;
  filt <- lift (meta_array_expander filt) ;;
  ret (assign_meta filt).

End ReadXarray.

(* ===================================================================== *)
(** * Reference functions for the laws of the codec *)
(* ===================================================================== *)

Module Laws.

Import Reference.

(** A value that is a nested set. *)
Definition is_nested_value (v : pyval) : bool :=
  match v with VMeta _ => true | _ => false end.

(** What the second pass of the filter makes of the value [v0] stored
    under the label [k]: nothing when the entry is dropped. *)
Definition checked_value {X : Externals} (coltype : pytype) (remove : bool)
  (check_type : list string) (k : string) (v0 : pyval) : option pyval :=
  match coerce_bool v0 with
  | VS SNone => None
  | v =>
      if mem k check_type && negb (isinstance v coltype) then
        if remove then None
        else match construct coltype v with
             | Ok v' => Some v'
             | Raise _ => None
             end
      else Some v
  end.

(** What the filter makes of one entry. *)
Definition filtered_value {X : Externals} (coltype : coltype_arg)
  (remove : bool) (check_type export_nan : option (list string))
  (k : string) (v0 : pyval) : option pyval :=
  if nan_dropped (Filter.default_list export_nan) (k, v0) then None
  else checked_value (Filter.resolve_coltype coltype) remove
         (Filter.default_list check_type) k v0.

(** A value that is an array. *)
Definition is_array (v : pyval) : bool :=
  match v with VArr _ => true | _ => false end.

(** The numbered labels an array is spread over, from the number [i]. *)
Fixpoint numbered (key : string) (i : nat) (l : list scalar) : record :=
  match l with
  | [] => []
  | x :: l' =>
      ((key ++ Expander.string_of_nat i)%string, VS x)
      :: numbered key (S i) l'
  end.

(** The table the write translation applies. *)
Definition to_table (inst : Instrument)
  (trans_table : option (list (string * list string)))
  : list (string * list string) :=
  match trans_table with
  | Some t => t
  | None => Translate.default_to_netcdf_translation_table inst
  end.

(** The names the default table writes the fill value under. *)
Definition fill_names : list string := ["_FillValue"; "FillVal"; "fill"].

(** A record whose label ['meta'], if it has one, holds a nested set. *)
Definition meta_is_nested (r : record) : Prop :=
  forall v, dget "meta" r = Some v -> is_nested_value v = true.

(** The labels [pysat_meta_to_xarray_attr] attaches: those whose value is
    not a fill value. *)
Definition attached (export_nan : list string) (kv : string * pyval)
  : bool :=
  match Attach.is_fill (snd kv) (mem (fst kv) export_nan) with
  | Ok false => true
  | _ => false
  end.

(** The record the metadata holds for the time variable when the epoch
    metadata is built. *)
Definition stored_epoch_record (inst : Instrument) (epoch_name : string)
  : record :=
  if meta_contains (meta inst) epoch_name then
    match dget (var_case_name (meta inst) epoch_name) (meta inst) with
    | Some r => r
    | None => []
    end
  else [].

(** A value that has a length, and one that is not empty. *)
Definition filled (v : pyval) : bool :=
  match Standards.py_len v with
  | Ok n => Nat.ltb 0 n
  | Raise _ => false
  end.

(** A scalar that is not text: [len] refuses it. *)
Definition no_length (v : pyval) : bool :=
  match Standards.py_len v with
  | Ok _ => false
  | Raise _ => true
  end.

(** A value that is a numeric array of two elements or more. *)
Definition long_numeric_array (v : pyval) : bool :=
  match v with
  | VArr l => Nat.leb 2 (length l) && forallb numeric l
  | _ => false
  end.

(** A value that is a scalar. *)
Definition is_scalar (v : pyval) : bool :=
  match v with VS _ => true | _ => false end.

(** The pair of dimensions the reader records for a variable of two
    dimensions. *)
Definition dim_pair (v : NetCDF.ncvar) : string * string :=
  (nth 0 (NetCDF.nc_dims v) "", nth 1 (NetCDF.nc_dims v) "").

(** The dimensions of the variables of a file. *)
Definition dims_of (kv : string * NetCDF.ncvar) : nat :=
  length (NetCDF.nc_dims (snd kv)).

(** A file without its variables of no dimension. *)
Definition without_scalars (ds : NetCDF.dataset) : NetCDF.dataset :=
  {| NetCDF.ds_attrs := NetCDF.ds_attrs ds;
     NetCDF.ds_dims := NetCDF.ds_dims ds;
     NetCDF.ds_vars :=
       filter (fun kv => negb (Nat.eqb (dims_of kv) 0)) (NetCDF.ds_vars ds) |}.

(** The global attributes of the files of a read, one file after the
    other. *)
Fixpoint merged_attrs (fs : NetCDF.disk) (fnames : list string)
  (acc : record) : record :=
  match fnames with
  | [] => acc
  | fname :: rest =>
      match dget fname fs with
      | Some ds => merged_attrs fs rest (dupdate acc (NetCDF.ds_attrs ds))
      | None => acc
      end
  end.

(** The header a read returns, when it returns. *)
Definition read_header (fs : NetCDF.disk) (fnames : list string)
  (o : Read.options) : option record :=
  match outcome (Read.load_netcdf_pandas fs fnames o) with
  | Ok (_, _, h) => Some h
  | Raise _ => None
  end.


End Laws.

(* ===================================================================== *)
(** * Concrete inputs for the laws *)
(* ===================================================================== *)

Module Inputs.

Import Sample.

(** A record with a NaN fill value, a missing note and a flag, and what
    the filter returns for it by default. *)
Definition mixed_record : record :=
  [("units", vstr "hours"); ("fill", vnan); ("notes", vnone);
   ("flag", VS (SBool true))].

Definition mixed_filtered : record :=
  [("units", vstr "hours"); ("flag", vint 1)].

(** A record with a range stored as an array. *)
Definition with_range : record :=
  [("units", vstr "hours");
   ("valid_range", VArr [SFloat true (S754_zero false);
                         SFloat true (S754_infinity false)])].

(** Records with labels of the overlay in several spellings, and a record
    whose nested set is stored under a label that is not ['meta'] as the
    removal spells it. *)
Definition overlaid_hours : mdict :=
  [("mlt", [("units", vstr "hours"); ("Depend_0", vstr "Epoch");
            ("FORMAT", vstr "f8"); ("var_type", vstr "data")])].

Definition misspelled_meta : mdict :=
  [("mlt", [("units", vstr "hours")]);
   ("profiles", [("units", vstr "m"); ("META", VMeta [])])].

(** An instrument whose metadata holds a record for the time variable. *)
Definition timed (r : record) : Instrument :=
  instrument [0; 1000000] [("mlt", Col1D (EInt [1; 2]))] [("Epoch", r)].

Definition epoch_notes : record :=
  [("units", vstr ""); ("notes", vstr "UTC, from the GPS receiver")].

Definition epoch_numbers : record :=
  [("units", vstr "ms"); ("notes", vnan)].

(** Metadata as the store holds it for a column with a fill value, and a
    record as a file holds it, with a nested set. *)
Definition with_fill : mdict :=
  [("mlt", [("units", vstr "hours"); ("fill", vfloat (S754_zero false))])].

Definition with_mlt_fill : Instrument :=
  instrument [0] [("mlt", Col1D (EFloat [S754_zero false]))] with_fill.

Definition from_file : mdict :=
  [("mlt", [("units", vstr "hours"); ("_FillValue", vint 0)]);
   ("profiles", [("units", vstr "m");
                 ("meta", VMeta [("density", [("units", vstr "cm-3")])])])].

(** Metadata with a range stored as an array between two texts. *)
Definition ranged_before : record := [("units", vstr "hours")].

Definition ranged_after : record := [("notes", vstr "local time")].

Definition ranged : mdict :=
  [("mlt", (ranged_before
            ++ ("range", VArr [SInt true 0; SInt true 24]) :: ranged_after)%list)].

Definition ranged_expanded : mdict :=
  [("mlt", [("units", vstr "hours"); ("range0", VS (SInt true 0));
            ("range1", VS (SInt true 24)); ("notes", vstr "local time")])].

(** Files: one with a variable of three dimensions, one without the time
    variable, one whose table has no time dimension, one with a variable of
    no dimension, and two files with global attributes. *)
Definition shaped (dims : list string) : NetCDF.ncvar :=
  {| NetCDF.nc_dtype := TNpFloat64; NetCDF.nc_dims := dims;
     NetCDF.nc_attrs := [("units", vstr "m")];
     NetCDF.nc_data := Some (NetCDF.D1 (EFloat [S754_zero false])) |}.

Definition with_cube : NetCDF.dataset :=
  Cases.file_of [("Epoch", Cases.time_var);
                 ("cube", shaped ["Epoch"; "x"; "y"])].

Definition without_epoch : NetCDF.dataset :=
  Cases.file_of [("mlt", Cases.mlt_var (vstr "first"))].

Definition with_grid : NetCDF.dataset :=
  Cases.file_of [("Epoch", Cases.time_var); ("grid", shaped ["x"; "y"])].

Definition with_constant : NetCDF.dataset :=
  Cases.file_of [("Epoch", Cases.time_var); ("version", shaped []);
                 ("mlt", Cases.mlt_var (vstr "first"))].

Definition titled (title : string) (extra : record) : NetCDF.dataset :=
  {| NetCDF.ds_attrs := ("title", vstr title) :: extra;
     NetCDF.ds_dims := [("Epoch", None)];
     NetCDF.ds_vars := [("Epoch", Cases.time_var);
                        ("mlt", Cases.mlt_var (vstr "first"))] |}.

Definition shelf : NetCDF.disk :=
  [("cube.nc", with_cube); ("bare.nc", without_epoch);
   ("grid.nc", with_grid); ("constant.nc", with_constant);
   ("day1.nc", titled "day 1" [("source", vstr "raw")]);
   ("day2.nc", titled "day 2" [])].

(** The attributes of the data variables of a Dataset, and metadata for
    one of them and for a variable the Dataset does not hold. *)
Definition dataset_attrs : list (string * record) :=
  [("mlt", [("units", vstr "h")]); ("slt", [])].

Definition store_meta : mdict :=
  [("mlt", [("units", vstr "hours"); ("notes", vstr ""); ("fill", vnan);
            ("desc", vnone)]);
   ("glat", [("units", vstr "degrees")])].

End Inputs.

(* ===================================================================== *)
(** * Dictionaries *)
(* ===================================================================== *)

Local Open Scope list_scope.

Section DictFacts.
Variable V : Type.
Implicit Types (d : list (string * V)) (k : string) (v : V).

Lemma dget_app d1 d2 k :
  dget k (d1 ++ d2) = match dget k d1 with Some v => Some v | None => dget k d2 end.
Proof.
  induction d1 as [|[k' v'] d1 IH]; simpl; auto.
  destruct (String.eqb k' k); auto.
Qed.

Lemma dget_none_iff d k : dget k d = None <-> ~ In k (dkeys d).
Proof.
  induction d as [|[k' v'] d IH]; simpl.
  - tauto.
  - destruct (String.eqb_spec k' k) as [->|Hne].
    + split; [discriminate | intros H; exfalso; apply H; auto].
    + rewrite IH. split; [intros H [E|E]; auto | tauto].
Qed.

Lemma dget_some_in d k v : dget k d = Some v -> In (k, v) d.
Proof.
  induction d as [|[k' v'] d IH]; simpl; [discriminate|].
  destruct (String.eqb_spec k' k) as [->|Hne].
  - intros [= ->]. auto.
  - auto.
Qed.

Lemma in_dget d k v : NoDup (dkeys d) -> In (k, v) d -> dget k d = Some v.
Proof.
  induction d as [|[k' v'] d IH]; simpl; [tauto|].
  intros Hnd [E|Hin].
  - inversion E; subst. now rewrite String.eqb_refl.
  - inversion Hnd; subst.
    destruct (String.eqb_spec k' k) as [->|Hne].
    + exfalso. apply H1. change k with (fst (k, v)). now apply in_map.
    + auto.
Qed.

Lemma dmem_true_iff d k : dmem k d = true <-> In k (dkeys d).
Proof.
  unfold dmem. destruct (dget k d) eqn:E.
  - split; auto. intros _. apply dget_some_in in E.
    change k with (fst (k, v)). now apply in_map.
  - apply dget_none_iff in E. split; [discriminate | tauto].
Qed.

Lemma dmem_false_iff d k : dmem k d = false <-> ~ In k (dkeys d).
Proof.
  rewrite <- dmem_true_iff. destruct (dmem k d); split; auto; try discriminate.
  intros H. exfalso. now apply H.
Qed.

Lemma dget_dset_same d k v : dget k (dset k v d) = Some v.
Proof.
  induction d as [|[k' v'] d IH]; simpl.
  - now rewrite String.eqb_refl.
  - destruct (String.eqb k' k) eqn:E; simpl; rewrite E; auto.
Qed.

Lemma dget_dset_other d k k' v : k <> k' -> dget k' (dset k v d) = dget k' d.
Proof.
  intros Hne. induction d as [|[k0 v0] d IH]; simpl.
  - destruct (String.eqb_spec k k'); congruence.
  - destruct (String.eqb_spec k0 k) as [->|Hk]; simpl.
    + destruct (String.eqb_spec k k'); congruence.
    + now rewrite IH.
Qed.

Lemma dset_notin d k v : ~ In k (dkeys d) -> dset k v d = d ++ [(k, v)].
Proof.
  induction d as [|[k' v'] d IH]; simpl; auto.
  intros H. destruct (String.eqb_spec k' k) as [->|Hne].
  - exfalso. auto.
  - f_equal. apply IH. tauto.
Qed.

Lemma dset_app_head d1 d2 k v v' :
  ~ In k (dkeys d1) -> dset k v (d1 ++ (k, v') :: d2) = d1 ++ (k, v) :: d2.
Proof.
  induction d1 as [|[k0 v0] d1 IH]; simpl.
  - now rewrite String.eqb_refl.
  - intros H. destruct (String.eqb_spec k0 k) as [->|Hne].
    + exfalso. auto.
    + f_equal. apply IH. tauto.
Qed.

Lemma dkeys_dset d k v :
  dkeys (dset k v d) = if dmem k d then dkeys d else dkeys d ++ [k].
Proof.
  induction d as [|[k' v'] d IH]; simpl; auto.
  unfold dmem in *. simpl.
  destruct (String.eqb_spec k' k) as [->|Hne]; simpl; auto.
  rewrite IH. destruct (dget k d); auto.
Qed.

Lemma NoDup_dset d k v : NoDup (dkeys d) -> NoDup (dkeys (dset k v d)).
Proof.
  intros H. rewrite dkeys_dset. destruct (dmem k d) eqn:E; auto.
  apply dmem_false_iff in E.
  apply NoDup_app; auto.
  - constructor; [intros []|constructor].
  - intros x Hx [<-|[]]. auto.
Qed.

Lemma dpop_notin d k : ~ In k (dkeys d) -> dpop k d = d.
Proof.
  induction d as [|[k' v'] d IH]; simpl; auto.
  intros H. destruct (String.eqb_spec k' k) as [->|Hne].
  - exfalso. auto.
  - f_equal. apply IH. tauto.
Qed.

Lemma dpop_app_head d1 d2 k v :
  ~ In k (dkeys d1) -> dpop k (d1 ++ (k, v) :: d2) = d1 ++ d2.
Proof.
  induction d1 as [|[k0 v0] d1 IH]; simpl.
  - now rewrite String.eqb_refl.
  - intros H. destruct (String.eqb_spec k0 k) as [->|Hne].
    + exfalso. auto.
    + f_equal. apply IH. tauto.
Qed.

Lemma dpop_filter d k :
  NoDup (dkeys d) ->
  dpop k d = filter (fun kv => negb (String.eqb (fst kv) k)) d.
Proof.
  induction d as [|[k' v'] d IH]; simpl; auto.
  intros H. inversion H; subst.
  destruct (String.eqb_spec k' k) as [->|Hne]; simpl.
  - symmetry. apply forallb_filter_id. apply forallb_forall.
    intros [k1 v1] Hin. simpl.
    destruct (String.eqb_spec k1 k) as [->|]; auto.
    exfalso. apply H2. change k with (fst (k, v1)). now apply in_map.
  - f_equal. auto.
Qed.

Lemma dkeys_filter_incl (f : string * V -> bool) d k :
  In k (dkeys (filter f d)) -> In k (dkeys d).
Proof.
  unfold dkeys. rewrite !in_map_iff. intros [x [E Hin]].
  apply filter_In in Hin. exists x. tauto.
Qed.

Lemma NoDup_dkeys_filter (f : string * V -> bool) d :
  NoDup (dkeys d) -> NoDup (dkeys (filter f d)).
Proof.
  induction d as [|[k v] d IH]; simpl; auto.
  intros H. inversion H; subst. destruct (f (k, v)); simpl; auto.
  constructor; auto. intros Hin. apply H2. eapply dkeys_filter_incl; eauto.
Qed.

Lemma dkeys_app d1 d2 : dkeys (d1 ++ d2) = dkeys d1 ++ dkeys d2.
Proof. unfold dkeys. apply map_app. Qed.

End DictFacts.

Lemma mem_true_iff k l : mem k l = true <-> In k l.
Proof.
  unfold mem. rewrite existsb_exists. split.
  - intros [x [Hin E]]. apply String.eqb_eq in E. now subst.
  - intros H. exists k. split; auto. apply String.eqb_refl.
Qed.

Lemma mem_false_iff k l : mem k l = false <-> ~ In k l.
Proof.
  rewrite <- mem_true_iff. destruct (mem k l); split; auto; try discriminate.
  intros H. exfalso. now apply H.
Qed.

(* ===================================================================== *)
(** * ValueFilter *)
(* ===================================================================== *)

Section FilterFacts.
Context {X : Externals}.
Import Filter Reference.

Lemma bind_ret_l A B (a : A) (k : A -> Eff B) : Py.bind (ret a) k = k a.
Proof. unfold Py.bind, ret. destruct (k a). reflexivity. Qed.

Lemma bind_assoc A B C (m : Eff A) (f : A -> Eff B) (g : B -> Eff C) :
  Py.bind (Py.bind m f) g = Py.bind m (fun a => Py.bind (f a) g).
Proof.
  destruct m as [l [a|e]]; simpl; auto.
  destruct (f a) as [l1 [b|e]]; simpl; auto.
  destruct (g b) as [l2 r]. now rewrite app_assoc.
Qed.

Lemma bind_emit_ret A B (ev : event) (a : A) (k : A -> Eff B) :
  Py.bind (emit ev ;;; ret a) k = (ev :: fst (k a), snd (k a)).
Proof.
  unfold emit, ret, Py.bind. simpl. destruct (k a). reflexivity.
Qed.

Lemma bind_lift_ok A B (a : A) (k : A -> Eff B) :
  Py.bind (lift (Ok a)) k = k a.
Proof. apply bind_ret_l. Qed.

(** The first pass, from any point of the scan: the entries already
    seen that stay, then the entries still to see. *)
Lemma nan_loop_scan (export_nan : list string) (items seen : record) :
  NoDup (dkeys (seen ++ items)) ->
  nan_loop items export_nan
    (filter (fun kv => negb (nan_dropped export_nan kv)) seen ++ items)
  = match first_escape items with
    | Some e => Raise e
    | None =>
        Ok (filter (fun kv => negb (nan_dropped export_nan kv))
              (seen ++ items))
    end.
Proof.
  set (F := filter (fun kv => negb (nan_dropped export_nan kv))).
  revert seen. induction items as [|[key value] rest IH]; intros seen Hnd.
  - simpl. now rewrite !app_nil_r.
  - assert (Hnotin : ~ In key (dkeys (F seen))).
    { rewrite dkeys_app in Hnd. simpl in Hnd.
      apply NoDup_remove_2 in Hnd. intros H. apply Hnd.
      apply in_or_app. left. eapply dkeys_filter_incl; eauto. }
    assert (Hnd' : NoDup (dkeys ((seen ++ [(key, value)]) ++ rest))).
    { now rewrite <- app_assoc. }
    specialize (IH (seen ++ [(key, value)]) Hnd').
    rewrite <- app_assoc in IH. simpl in IH.
    assert (Hkeep : nan_dropped export_nan (key, value) = false ->
                    F seen ++ (key, value) :: rest
                    = F (seen ++ [(key, value)]) ++ rest).
    { intros Hd. unfold F. rewrite filter_app. simpl. rewrite Hd. simpl.
      now rewrite <- app_assoc. }
    assert (Hdrop : nan_dropped export_nan (key, value) = true ->
                    F seen ++ rest = F (seen ++ [(key, value)]) ++ rest).
    { intros Hd. unfold F. rewrite filter_app. simpl. rewrite Hd. simpl.
      now rewrite app_nil_r. }
    simpl. unfold nan_escapes. unfold nan_dropped in Hkeep, Hdrop.
    simpl in *.
    destruct (isnan_truth value) as [[|]|e] eqn:E.
    + destruct (mem key export_nan) eqn:Em; simpl in *.
      * rewrite Hkeep by reflexivity. apply IH.
      * rewrite dpop_app_head by assumption.
        rewrite Hdrop by reflexivity. apply IH.
    + rewrite Hkeep by reflexivity. apply IH.
    + destruct e; try reflexivity.
      rewrite Hkeep by reflexivity. apply IH.
Qed.

Lemma nan_loop_spec (export_nan : list string) (d : record) :
  NoDup (dkeys d) ->
  nan_loop d export_nan d
  = match first_escape d with
    | Some e => Raise e
    | None => Ok (filter (fun kv => negb (nan_dropped export_nan kv)) d)
    end.
Proof.
  intros H. exact (nan_loop_scan export_nan d [] H).
Qed.

Lemma filter_twice A (f g : A -> bool) (l : list A) :
  filter f (filter g l) = filter (fun x => g x && f x) l.
Proof.
  induction l as [|x l IH]; simpl; auto.
  destruct (g x); simpl; [destruct (f x)|]; simpl; now rewrite IH.
Qed.

Lemma bind_ext A B (m : Eff A) (f g : A -> Eff B) :
  (forall a, f a = g a) -> Py.bind m f = Py.bind m g.
Proof.
  intros H. destruct m as [l [a|e]]; simpl; auto. now rewrite H.
Qed.

Lemma delete_keys_filter (rk : list string) (d : record) :
  NoDup (dkeys d) ->
  delete_keys rk d = filter (fun kv => negb (mem (fst kv) rk)) d.
Proof.
  unfold delete_keys. revert d. induction rk as [|k rk IH]; intros d Hnd.
  - simpl. symmetry. apply forallb_filter_id. now apply forallb_forall.
  - simpl. rewrite IH, dpop_filter by
      (try rewrite dpop_filter by assumption;
       try apply NoDup_dkeys_filter; assumption).
    rewrite filter_twice. apply filter_ext. intros [k' v']. simpl.
    rewrite (String.eqb_sym k' k).
    destruct (String.eqb k k'); simpl; auto.
Qed.

Lemma delete_keys_keep (rk : list string) (done : record) k v :
  NoDup (dkeys (done ++ [(k, v)])) -> ~ In k rk ->
  delete_keys rk (done ++ [(k, v)]) = delete_keys rk done ++ [(k, v)].
Proof.
  intros Hnd Hk. rewrite !delete_keys_filter; auto.
  - rewrite filter_app. simpl. apply mem_false_iff in Hk. now rewrite Hk.
  - rewrite dkeys_app in Hnd. now apply NoDup_app_remove_r in Hnd.
Qed.

Lemma delete_keys_drop (rk : list string) (done : record) k v :
  NoDup (dkeys (done ++ [(k, v)])) ->
  delete_keys (rk ++ [k]) (done ++ [(k, v)]) = delete_keys rk done.
Proof.
  intros Hnd.
  assert (Hd : NoDup (dkeys done)).
  { rewrite dkeys_app in Hnd. now apply NoDup_app_remove_r in Hnd. }
  assert (Hk : ~ In k (dkeys done)).
  { rewrite dkeys_app in Hnd. simpl in Hnd.
    apply NoDup_remove_2 in Hnd. now rewrite app_nil_r in Hnd. }
  rewrite !delete_keys_filter; auto.
  rewrite filter_app. simpl.
  assert (E : mem k (rk ++ [k]) = true).
  { apply mem_true_iff. apply in_or_app. right. now left. }
  rewrite E. simpl. rewrite app_nil_r.
  apply filter_ext_in. intros [k' v'] Hin. simpl.
  f_equal. unfold mem. rewrite existsb_app. simpl.
  destruct (String.eqb_spec k' k) as [->|]; [|now rewrite !orb_false_r].
  exfalso. apply Hk. change k with (fst (k, v')). now apply in_map.
Qed.

(** The second pass and the deletions, from any point of the scan. *)
Lemma check_loop_scan (coltype : pytype) (remove : bool)
  (check_type : list string) (todo done : record) (rk : list string) :
  NoDup (dkeys (done ++ todo)) ->
  (forall k, In k rk -> In k (dkeys done)) ->
  Py.bind (check_loop (dkeys todo) coltype remove check_type (done ++ todo) rk)
    (fun st => ret (delete_keys (snd st) (fst st)))
  = Py.bind (checked_entries coltype remove check_type todo)
      (fun kept => ret (delete_keys rk done ++ kept)).
Proof.
  revert done rk.
  induction todo as [|[key v0] rest IH]; intros done rk Hnd Hrk.
  - simpl. now rewrite !app_nil_r.
  - assert (Hk : ~ In key (dkeys done)).
    { rewrite dkeys_app in Hnd. simpl in Hnd.
      apply NoDup_remove_2 in Hnd. intros H. apply Hnd.
      apply in_or_app. now left. }
    assert (Hnd1 : forall v, NoDup (dkeys ((done ++ [(key, v)]) ++ rest))).
    { intros v. rewrite <- app_assoc. simpl.
      rewrite dkeys_app in *. exact Hnd. }
    assert (Hnd2 : forall v, NoDup (dkeys (done ++ [(key, v)]))).
    { intros v. specialize (Hnd1 v). rewrite dkeys_app in Hnd1.
      now apply NoDup_app_remove_r in Hnd1. }
    assert (Hcons : forall v, done ++ (key, v) :: rest
                              = (done ++ [(key, v)]) ++ rest).
    { intros v. now rewrite <- app_assoc. }
    assert (Hnone : forall v,
              Py.bind
                (check_loop (dkeys rest) coltype remove check_type
                   (done ++ (key, v) :: rest) (rk ++ [key]))
                (fun st => ret (delete_keys (snd st) (fst st)))
              = Py.bind (checked_entries coltype remove check_type rest)
                  (fun kept => ret (delete_keys rk done ++ kept))).
    { intros v. rewrite Hcons, IH.
      - now rewrite delete_keys_drop by apply Hnd2.
      - apply Hnd1.
      - intros k Hin. rewrite dkeys_app. apply in_or_app.
        apply in_app_or in Hin. destruct Hin as [Hin|[<-|[]]]; simpl; auto. }
    assert (Hsome : forall v,
              Py.bind
                (check_loop (dkeys rest) coltype remove check_type
                   (done ++ (key, v) :: rest) rk)
                (fun st => ret (delete_keys (snd st) (fst st)))
              = Py.bind
                  (kept <- checked_entries coltype remove check_type rest ;;
                   ret ((key, v) :: kept))
                  (fun kept => ret (delete_keys rk done ++ kept))).
    { intros v. rewrite Hcons, IH.
      - rewrite bind_assoc. apply bind_ext. intros kept.
        rewrite bind_ret_l. rewrite delete_keys_keep; auto.
        now rewrite <- app_assoc.
      - apply Hnd1.
      - intros k Hin. rewrite dkeys_app. apply in_or_app. auto. }
    simpl dkeys. cbn [check_loop checked_entries].
    unfold dindex. rewrite dget_app.
    destruct (dget key done) eqn:Eg.
    { exfalso. apply Hk. apply dmem_true_iff. unfold dmem. now rewrite Eg. }
    simpl dget. rewrite String.eqb_refl. rewrite bind_lift_ok.
    destruct v0 as [[| b | np z | np f | s] | l | d]; cbn [coerce_bool];
      rewrite ?dset_app_head by assumption;
      try apply Hnone;
      (destruct (mem key check_type && negb (isinstance _ coltype));
       [ destruct remove; [apply Hnone|];
         destruct (construct coltype _) as [v'|e];
         [ rewrite ?dset_app_head by assumption; apply Hsome
         | destruct e; try reflexivity;
           rewrite !bind_assoc; apply bind_ext; intros []; apply Hnone ]
       | apply Hsome ]).
Qed.

(** The filter does what the entry-by-entry reference does. *)
Theorem filter_refines (d : record) (coltype : coltype_arg) (remove : bool)
  (check_type export_nan : option (list string)) :
  NoDup (dkeys d) ->
  filter_netcdf4_metadata d coltype remove check_type export_nan
  = filtered d coltype remove check_type export_nan.
Proof.
  intros Hnd. unfold filter_netcdf4_metadata, filtered.
  rewrite nan_loop_spec by assumption.
  destruct (first_escape d) as [e|]; [reflexivity|].
  rewrite bind_lift_ok.
  set (d1 := filter _ d).
  assert (Hnd1 : NoDup (dkeys ([] ++ d1))).
  { simpl. now apply NoDup_dkeys_filter. }
  pose proof (check_loop_scan (resolve_coltype coltype) remove
                (default_list check_type) d1 [] [] Hnd1) as H.
  simpl in H. rewrite H by tauto.
  destruct (checked_entries _ _ _ d1) as [l [kept|e]]; simpl; auto.
  now rewrite app_nil_r.
Qed.

Lemma stable_scalar coltype ct en k v :
  stable coltype ct en (k, v) = true ->
  nan_escapes (k, v) = None /\ nan_dropped en (k, v) = false
  /\ coerce_bool v = v /\ v <> VS SNone
  /\ mem k ct && negb (isinstance v coltype) = false.
Proof.
  assert (Hc : forall b c, negb b || c = true -> b && negb c = false).
  { intros [] []; simpl; auto. }
  unfold stable, nan_escapes, nan_dropped. simpl.
  destruct v as [[| b | np z | np f | s] | l | d]; simpl; try discriminate.
  - intros H. split; [|split; [|split; [|split]]]; auto; try discriminate;
      destruct np; auto;
      match goal with
      | |- context [if ?c then _ else _] => destruct c
      end; auto.
  - intros H. destruct f; simpl in *;
      (split; [|split; [|split; [|split]]]); auto; try discriminate;
      apply andb_true_iff in H; destruct H as [H1 H2]; auto.
    now rewrite H1.
  - intros H. split; [|split; [|split; [|split]]]; auto; discriminate.
Qed.

(** A dictionary of stable entries passes the filter unchanged and
    without a warning. *)
Theorem filter_stable (d : record) (coltype : coltype_arg) (remove : bool)
  (check_type export_nan : option (list string)) :
  NoDup (dkeys d) ->
  forallb (stable (resolve_coltype coltype) (default_list check_type)
             (default_list export_nan)) d = true ->
  filter_netcdf4_metadata d coltype remove check_type export_nan = ret d.
Proof.
  intros Hnd Hst. rewrite filter_refines by assumption. unfold filtered.
  rewrite forallb_forall in Hst.
  assert (E1 : first_escape d = None).
  { clear Hnd. induction d as [|[k v] d IH]; simpl; auto.
    destruct (stable_scalar _ _ _ k v (Hst _ (or_introl eq_refl)))
      as [-> _].
    apply IH. intros x Hx. apply Hst. now right. }
  rewrite E1.
  assert (E2 : filter (fun kv => negb (nan_dropped (default_list export_nan) kv)) d
               = d).
  { apply forallb_filter_id. apply forallb_forall. intros [k v] Hin.
    destruct (stable_scalar _ _ _ k v (Hst _ Hin)) as [_ [-> _]].
    reflexivity. }
  rewrite E2. clear E1 E2 Hnd.
  induction d as [|[k v] d IH]; simpl; auto.
  destruct (stable_scalar _ _ _ k v (Hst _ (or_introl eq_refl)))
    as [_ [_ [Ec [Hn Hm]]]].
  rewrite Ec, Hm.
  rewrite IH by (intros x Hx; apply Hst; now right).
  destruct v as [[| b | np z | np f | s] | l | dd]; try reflexivity.
  congruence.
Qed.

Lemma checked_entries_origin coltype remove check_type (l : record) :
  forall log kept k v',
    checked_entries coltype remove check_type l = (log, Ok kept) ->
    In (k, v') kept ->
    exists v0, In (k, v0) l /\ v0 <> VS SNone.
Proof.
  induction l as [|[key v0] rest IH]; intros log kept k v'; simpl.
  - intros [= <- <-] [].
  - assert (Hskip : forall log0,
              checked_entries coltype remove check_type rest = (log0, Ok kept) ->
              In (k, v') kept ->
              exists v1, (key, v0) = (k, v1) /\ v1 <> VS SNone
                         \/ In (k, v1) rest /\ v1 <> VS SNone).
    { intros log0 E Hin. destruct (IH _ _ _ _ E Hin) as [v1 [H1 H2]].
      exists v1. now right. }
    assert (Hkeep : forall v log0,
              v0 <> VS SNone ->
              (kept0 <- checked_entries coltype remove check_type rest ;;
               ret ((key, v) :: kept0)) = (log0, Ok kept) ->
              In (k, v') kept ->
              exists v1, (key, v0) = (k, v1) /\ v1 <> VS SNone
                         \/ In (k, v1) rest /\ v1 <> VS SNone).
    { intros v log0 Hv0 E Hin.
      destruct (checked_entries coltype remove check_type rest)
        as [l1 [kept1|e]] eqn:E1; simpl in E; [|discriminate].
      inversion E; subst. destruct Hin as [Hin|Hin].
      - inversion Hin; subst. exists v0. now left.
      - destruct (IH _ _ _ _ eq_refl Hin) as [v1 [H1 H2]].
        exists v1. now right. }
    assert (Hwarn : forall ev log0,
              (emit ev ;;; checked_entries coltype remove check_type rest)
              = (log0, Ok kept) ->
              In (k, v') kept ->
              exists v1, (key, v0) = (k, v1) /\ v1 <> VS SNone
                         \/ In (k, v1) rest /\ v1 <> VS SNone).
    { intros ev log0.
      destruct (checked_entries coltype remove check_type rest)
        as [l1 [kept1|e1]] eqn:E1; simpl; [|discriminate].
      intros [= <- <-]. now apply (Hskip l1). }
    assert (Hcase : checked_entries coltype remove check_type ((key, v0) :: rest)
                    = (log, Ok kept) ->
                    In (k, v') kept ->
                    exists v1, (key, v0) = (k, v1) /\ v1 <> VS SNone
                               \/ In (k, v1) rest /\ v1 <> VS SNone).
    { simpl.
      destruct v0 as [[| b | np z | np f | s] | l | d]; cbn [coerce_bool];
        try (now apply Hskip);
        (destruct (mem key check_type && negb (isinstance _ coltype));
         [ destruct remove; [now apply Hskip|];
           destruct (construct coltype _) as [v2|e];
           [ apply Hkeep; discriminate
           | destruct e; try discriminate; apply Hwarn ]
         | apply Hkeep; discriminate ]). }
    intros E Hin. destruct (Hcase E Hin) as [v1 [[H1 H2]|[H1 H2]]];
      exists v1; split; auto.
Qed.

(** X30: what the filter returns holds no label whose value was [None],
    and no label whose value was NaN unless the label is in
    [export_nan]. *)
Theorem filter_drops_none_and_nan (d d' : record) (coltype : coltype_arg)
  (remove : bool) (check_type export_nan : option (list string))
  (k : string) (v : pyval) :
  NoDup (dkeys d) ->
  outcome (filter_netcdf4_metadata d coltype remove check_type export_nan)
  = Ok d' ->
  In (k, v) d ->
  v = VS SNone
  \/ (isnan_truth v = Ok true /\ ~ In k (default_list export_nan)) ->
  dget k d' = None.
Proof.
  intros Hnd Hout Hin Hv. rewrite filter_refines in Hout by assumption.
  unfold filtered in Hout.
  destruct (first_escape d); [discriminate|].
  destruct (checked_entries _ _ _ _) as [log [kept|e]] eqn:E;
    simpl in Hout; [|discriminate].
  inversion Hout; subst kept.
  destruct (dget k d') as [v'|] eqn:G; auto. exfalso.
  apply dget_some_in in G.
  destruct (checked_entries_origin _ _ _ _ _ _ E G) as [v0 [H0 Hn]].
  apply filter_In in H0. destruct H0 as [H0 Hd].
  assert (v0 = v).
  { apply in_dget in H0; auto. apply in_dget in Hin; auto. congruence. }
  subst v0. destruct Hv as [->|[Hnan Hex]]; [congruence|].
  unfold nan_dropped in Hd. simpl in Hd. rewrite Hnan in Hd.
  apply mem_false_iff in Hex. now rewrite Hex in Hd.
Qed.

(** C4 (the defect): a cast that fails with [OverflowError] is not among
    the failures the filter catches.  A boolean column makes [coltype]
    [int], and [int] of an infinite fill value is an [OverflowError]:
    the filter raises where the claim has it drop the label. *)
Theorem filter_overflow_escapes :
  filter_netcdf4_metadata [("fill", vfloat (S754_infinity false))]
    (AType TBool) false (Some ["fill"]) None
  = ([], Raise OverflowError).
Proof. reflexivity. Qed.

(** The first pass has the same kind of gap: the truth value of
    [np.isnan] of an array with several elements is a [ValueError], and
    only [TypeError] is caught there. *)
Theorem filter_array_escapes :
  filter_netcdf4_metadata
    [("valid_range", VArr [SFloat true (S754_zero false);
                           SFloat true (S754_infinity false)])]
    (AType TNpFloat64) false None None
  = ([], Raise ValueError).
Proof. reflexivity. Qed.

End FilterFacts.

(* ===================================================================== *)
(** * ArrayExpander *)
(* ===================================================================== *)

Section ExpanderFacts.
Import Expander Reference Cases.

Lemma last_char_app (s t : string) :
  t <> EmptyString -> last_char (s ++ t)%string = last_char t.
Proof.
  intros Ht. induction s as [|c s IH]; simpl; auto.
  rewrite IH. destruct (s ++ t)%string eqn:E; auto.
  destruct s; simpl in E; congruence.
Qed.

Lemma last_char_uint (d : Decimal.uint) (c : ascii) :
  last_char (NilEmpty.string_of_uint d) = Some c -> is_digit c = true.
Proof.
  induction d; simpl; try discriminate;
    (destruct (NilEmpty.string_of_uint d) eqn:E;
     [intros [= <-]; reflexivity | exact IHd]).
Qed.

Lemma string_of_nat_nonempty (n : nat) : string_of_nat n <> EmptyString.
Proof.
  unfold string_of_nat. intros H.
  assert (E : Nat.to_uint n = Decimal.Nil).
  { destruct (Nat.to_uint n); simpl in H; congruence. }
  pose proof (DecimalNat.Unsigned.to_of (Nat.to_uint n)) as T.
  rewrite DecimalNat.Unsigned.of_to in T.
  rewrite E in T at 1. symmetry in T. revert T. rewrite E. discriminate.
Qed.

(** A label made by the expansion of an array is never ['meta']. *)
Lemma numbered_label_not_meta (meta_key : string) (i : nat) :
  (meta_key ++ string_of_nat i)%string <> "meta".
Proof.
  intros H. assert (L := f_equal last_char H).
  rewrite last_char_app in L by apply string_of_nat_nonempty.
  apply last_char_uint in L. discriminate.
Qed.

Lemma expand_array_keeps_out (meta_key : string) (l : list scalar) :
  forall i loop_dict,
    ~ In "meta" (dkeys loop_dict) ->
    ~ In "meta" (dkeys (expand_array meta_key i l loop_dict)).
Proof.
  induction l as [|x l IH]; intros i loop_dict H; simpl; auto.
  apply IH. rewrite dkeys_dset. destruct (dmem _ loop_dict); auto.
  intros Hin. apply in_app_or in Hin. destruct Hin as [Hin|[E|[]]]; auto.
  now apply numbered_label_not_meta in E.
Qed.

Lemma expand_labels_keeps_out (self : pyval -> result pyval) (items : record) :
  forall loop_dict r,
    ~ In "meta" (dkeys loop_dict) ->
    expand_labels self items loop_dict = Ok r ->
    ~ In "meta" (dkeys r).
Proof.
  induction items as [|[meta_key value] rest IH]; intros loop_dict r H; simpl.
  - now intros [= <-].
  - destruct (String.eqb_spec meta_key "meta") as [->|Hne].
    + destruct (self value); [|discriminate]. now apply IH.
    + apply IH.
      assert (Hset : forall v, ~ In "meta" (dkeys (dset meta_key v loop_dict))).
      { intros v. rewrite dkeys_dset. destruct (dmem _ loop_dict); auto.
        intros Hin. apply in_app_or in Hin.
        destruct Hin as [Hin|[E|[]]]; auto. }
      destruct value as [s|l|d]; auto.
      destruct l as [|x [|y l]]; auto.
      now apply expand_array_keeps_out.
Qed.

Lemma expand_vars_in (self : pyval -> result pyval) (d : mdict) :
  forall d' key r',
    expand_vars self d = Ok d' -> In (key, r') d' ->
    exists r, In (key, r) d /\ expand_labels self r [] = Ok r'.
Proof.
  induction d as [|[k r] d IH]; intros d' key r'; simpl.
  - intros [= <-] [].
  - destruct (expand_labels self r []) as [ld|] eqn:E; [|discriminate].
    destruct (expand_vars self d) as [d''|] eqn:E'; [|discriminate].
    intros [= <-] [Hin|Hin].
    + inversion Hin; subst. exists r. auto.
    + destruct (IH _ _ _ eq_refl Hin) as [r0 [H1 H2]]. exists r0. auto.
Qed.

(** C9 (the defect): whatever the input, no record that the expander
    returns has a ['meta'] label: the nested metadata sets it was given
    are dropped from its result. *)
Theorem expander_drops_nested_sets (meta_dict d' : mdict) (key : string)
  (r : record) :
  meta_array_expander meta_dict = Ok d' ->
  In (key, r) d' ->
  dget "meta" r = None.
Proof.
  intros H Hin. apply dget_none_iff.
  destruct (expand_vars_in _ _ _ _ H Hin) as [r0 [_ E]].
  eapply expand_labels_keeps_out; [|exact E]. intros [].
Qed.

Lemma expander_drops_nested_sets_witness :
  meta_array_expander nested_input = Ok [("profiles", [("units", vstr "m")])]
  /\ dget "meta" [("units", vstr "m")] = None.
Proof.
  split; [reflexivity|].
  apply (@expander_drops_nested_sets nested_input _ "profiles" _ eq_refl).
  now left.
Defined.

End ExpanderFacts.

(* ===================================================================== *)
(** * The epoch metadata and the MonoTon tag *)
(* ===================================================================== *)

Section EpochFacts.
Import Standards Reference Cases.

Lemma dget_dupdate (V : Type) (src d : list (string * V)) (k : string) :
  NoDup (dkeys src) ->
  dget k (dupdate d src)
  = match dget k src with Some v => Some v | None => dget k d end.
Proof.
  unfold dupdate. revert d.
  induction src as [|[k0 v0] src IH]; intros d Hnd; simpl; auto.
  inversion Hnd; subst. rewrite IH by assumption.
  destruct (String.eqb_spec k0 k) as [->|Hne].
  - assert (E : dget k src = None) by now apply dget_none_iff.
    rewrite E. apply dget_dset_same.
  - destruct (dget k src); auto. now apply dget_dset_other.
Qed.

Lemma monotonic_increasing_sorted (l : list Z) :
  is_monotonic_increasing l = true <-> Sorted Z.le l.
Proof.
  induction l as [|a [|b l] IH]; simpl.
  - split; auto.
  - split; auto.
  - rewrite andb_true_iff, Z.leb_le, IH. split.
    + intros [H1 H2]. constructor; auto.
    + intros H. inversion H as [|? ? H1 H2]; subst.
      inversion H2; subst. auto.
Qed.

Lemma monotonic_decreasing_sorted (l : list Z) :
  is_monotonic_decreasing l = true <-> Sorted Z.ge l.
Proof.
  induction l as [|a [|b l] IH]; simpl.
  - split; auto.
  - split; auto.
  - rewrite andb_true_iff, Z.leb_le, IH. split.
    + intros [H1 H2]. constructor; auto. constructor. apply Z.le_ge, H1.
    + intros H. inversion H as [|? ? H1 H2]; subst.
      inversion H2; subst. split; [now apply Z.ge_le|auto].
Qed.

Lemma fill_basic_labels_text (basic_labels : list string) :
  forall new_dict,
    text_valued new_dict ->
    exists r, fill_basic_labels basic_labels new_dict = Ok r
              /\ text_valued r
              /\ (forall k, ~ In k basic_labels -> dget k r = dget k new_dict).
Proof.
  induction basic_labels as [|label rest IH]; intros new_dict Ht; simpl.
  - exists new_dict. auto.
  - assert (Hset : text_valued (dset label (vstr epoch_label) new_dict)).
    { intros k v. destruct (String.eqb_spec label k) as [->|Hne].
      - rewrite dget_dset_same. intros [= <-]. eauto.
      - rewrite dget_dset_other by assumption. apply Ht. }
    destruct (dget label new_dict) as [v|] eqn:G.
    + destruct (Ht _ _ G) as [s ->]. simpl.
      destruct (Nat.eqb (String.length s) 0).
      * destruct (IH _ Hset) as [r [E [T K]]]. exists r.
        split; [exact E|split; [exact T|]].
        intros k Hk. rewrite K by tauto.
        apply dget_dset_other. intros ->. tauto.
      * destruct (IH _ Ht) as [r [E [T K]]]. exists r.
        split; [exact E|split; [exact T|]].
        intros k Hk. apply K. tauto.
    + destruct (IH _ Hset) as [r [E [T K]]]. exists r.
      split; [exact E|split; [exact T|]].
      intros k Hk. rewrite K by tauto.
      apply dget_dset_other. intros ->. tauto.
Qed.

Lemma time_dict_keys (idx : list Z) : NoDup (dkeys (time_dict idx)).
Proof.
  unfold time_dict.
  destruct (is_monotonic_increasing idx);
    [|destruct (is_monotonic_decreasing idx)]; simpl;
    repeat (constructor; [simpl; intuition discriminate|]); constructor.
Qed.

Lemma time_dict_monoton (idx : list Z) :
  dget "MonoTon" (time_dict idx)
  = if is_monotonic_increasing idx then Some (vstr "increase")
    else if is_monotonic_decreasing idx then Some (vstr "decrease")
         else None.
Proof.
  unfold time_dict.
  destruct (is_monotonic_increasing idx);
    [|destruct (is_monotonic_decreasing idx)]; reflexivity.
Qed.

(** C3 (amended): when the store holds no record of the epoch variable
    and no metadata label is called MonoTon, the epoch metadata is
    produced, and its MonoTon tag is 'increase' exactly when the index
    never decreases (equal neighbours allowed), 'decrease' exactly when
    it never increases but is not of the first kind, and absent exactly
    when it does both. *)
Theorem monoton_tag_follows_pandas (inst : Instrument) (epoch_name : string) :
  meta_contains (meta inst) epoch_name = false ->
  ~ In "MonoTon" [l_units (labels inst); l_desc (labels inst);
                  l_notes (labels inst); l_name (labels inst)] ->
  exists r,
    return_epoch_metadata inst epoch_name = Ok r
    /\ (dget "MonoTon" r = Some (vstr "increase")
        <-> Sorted Z.le (index inst))
    /\ (dget "MonoTon" r = Some (vstr "decrease")
        <-> ~ Sorted Z.le (index inst) /\ Sorted Z.ge (index inst))
    /\ (dget "MonoTon" r = None
        <-> ~ Sorted Z.le (index inst) /\ ~ Sorted Z.ge (index inst)).
Proof.
  intros Hm Hl. unfold return_epoch_metadata. rewrite Hm.
  destruct (fill_basic_labels_text
              [l_units (labels inst); l_desc (labels inst);
               l_notes (labels inst)] (new_dict := []))
    as [r [E [T K]]].
  { intros k v. discriminate. }
  rewrite E. eexists. split; [reflexivity|].
  rewrite dget_dupdate by apply time_dict_keys.
  rewrite time_dict_monoton.
  assert (G : dget "MonoTon"
                (dset (l_name (labels inst)) (vstr epoch_name) r) = None).
  { rewrite dget_dset_other by (intros H; apply Hl; simpl; auto).
    rewrite K; auto. intros H. apply Hl. simpl in *. tauto. }
  rewrite G.
  rewrite <- monotonic_increasing_sorted, <- monotonic_decreasing_sorted.
  destruct (is_monotonic_increasing (index inst));
    destruct (is_monotonic_decreasing (index inst));
    repeat split; intros; try discriminate; try tauto;
    try (exfalso; intuition congruence).
Qed.

Lemma monoton_tag_follows_pandas_witness :
  exists r,
    return_epoch_metadata repeated_index "Epoch" = Ok r
    /\ (dget "MonoTon" r = Some (vstr "increase")
        <-> Sorted Z.le (index repeated_index))
    /\ (dget "MonoTon" r = Some (vstr "decrease")
        <-> ~ Sorted Z.le (index repeated_index)
            /\ Sorted Z.ge (index repeated_index))
    /\ (dget "MonoTon" r = None
        <-> ~ Sorted Z.le (index repeated_index)
            /\ ~ Sorted Z.ge (index repeated_index)).
Proof.
  apply (@monoton_tag_follows_pandas repeated_index "Epoch").
  - reflexivity.
  - simpl. intuition discriminate.
Defined.

(** C3 as stated fails: an index with a repeated value is tagged
    'increase' although it is not strictly increasing. *)
Lemma monoton_tag_not_strict :
  exists r,
    return_epoch_metadata repeated_index "Epoch" = Ok r
    /\ dget "MonoTon" r = Some (vstr "increase")
    /\ strictly_increasing (index repeated_index) = false
    /\ index repeated_index = [1000000; 1000000].
Proof.
  eexists. repeat split; reflexivity.
Qed.

End EpochFacts.

(* ===================================================================== *)
(** * Codec.Write before the file is opened *)
(* ===================================================================== *)

Section PreflightFacts.
Context {X : Externals}.
Import Write Cases.

(** C10: an instrument without data is not written: the call returns
    normally, the disk is what it was (no file created, none changed), and
    the only thing logged is the warning. *)
Theorem empty_instrument_not_written (inst : Instrument) (fname : string)
  (o : options) (fs : disk) :
  empty inst = true ->
  inst_to_netcdf inst fname o fs
  = (fs, ([LogEmptyInstrument fname], Ok tt)).
Proof.
  intros H. unfold inst_to_netcdf. now rewrite H.
Qed.

Lemma nodup_length_le (l : list string) :
  (length (nodup string_dec l) <= length l)%nat.
Proof.
  induction l as [|a l IH]; simpl; auto.
  destruct (in_dec string_dec a l); simpl; lia.
Qed.

Lemma count_unique_full (l : list string) :
  count_unique l = length l -> NoDup l.
Proof.
  unfold count_unique. induction l as [|a l IH]; simpl.
  - constructor.
  - destruct (in_dec string_dec a l) as [Hin|Hnot]; simpl.
    + pose proof (nodup_length_le l). lia.
    + intros H. constructor; auto.
Qed.

Lemma NoDup_map_injective (A B : Type) (f : A -> B) (l : list A) (a b : A) :
  NoDup (map f l) -> In a l -> In b l -> f a = f b -> a = b.
Proof.
  induction l as [|x l IH]; simpl; [tauto|].
  intros Hnd Ha Hb E. inversion Hnd as [|? ? Hx Hl]; subst.
  destruct Ha as [->|Ha], Hb as [->|Hb]; auto.
  - exfalso. apply Hx. rewrite E. now apply in_map.
  - exfalso. apply Hx. rewrite <- E. now apply in_map.
Qed.

(** Two different names that are equal in lower case are detected. *)
Lemma collision_detected (inst : Instrument) (a b : string) :
  In a (variables inst) -> In b (variables inst) ->
  a <> b -> lower a = lower b ->
  case_collision inst = true.
Proof.
  intros Ha Hb Hne E. unfold case_collision.
  destruct (Nat.eqb_spec (count_unique (map lower (variables inst)))
              (length (map lower (variables inst)))) as [Hc|]; auto.
  exfalso. apply Hne. apply count_unique_full in Hc.
  eapply NoDup_map_injective; eauto.
Qed.

Lemma preflight_collision (inst : Instrument) (fname : string) (o : options) :
  case_collision inst = true ->
  exists e, outcome (preflight inst fname o) = Raise e
            /\ (base_instrument o = None -> e = ValueError).
Proof.
  intros Hc. unfold preflight.
  assert (H : forall export_nan,
            exists e,
              outcome
                (attrb_dict <- lift (global_attributes inst fname o) ;;
                 (if case_collision inst then raise ValueError else ret tt) ;;;
                 export_meta <- export_metadata inst o
                                  (resolve_check_type inst (check_type o))
                                  export_nan ;;
                 ret (attrb_dict, export_meta)) = Raise e
              /\ (base_instrument o = None -> e = ValueError)).
  { intros export_nan. rewrite Hc.
    destruct (global_attributes inst fname o) as [d|e] eqn:G; simpl.
    - exists ValueError. auto.
    - exists e. split; auto. intros Hb.
      unfold global_attributes in G. rewrite Hb in G.
      assert (Hca : forall l acc, custom_attrs (Some base_attrb) l acc
                                  <> Raise e).
      { induction l as [|[k v] l IHl]; intros acc; simpl; [discriminate|].
        apply IHl. }
      destruct (custom_attrs _ _ _) eqn:C; [discriminate|].
      exfalso. inversion G; subst. eapply Hca; eauto. }
  destruct (export_nan o) as [l|].
  - rewrite bind_ret_l. apply H.
  - destruct (H (meta_export_nan inst)) as [e [H1 H2]]. exists e.
    split; auto. unfold outcome in *.
    destruct (Py.bind (lift (global_attributes inst fname o)) _)
      as [lg r] eqn:B.
    simpl in *.
    unfold emit. simpl. rewrite B. simpl. exact H1.
Qed.

(** C5 (amended): for an instrument that has data, two variable names
    that differ by case only make the write raise, and the disk is what
    it was: the file is not opened.  With no base instrument given the
    error is the [ValueError] of the check. *)
Theorem case_collision_is_fatal (inst : Instrument) (fname : string)
  (o : options) (fs : disk) (a b : string) :
  empty inst = false ->
  In a (variables inst) -> In b (variables inst) ->
  a <> b -> lower a = lower b ->
  fst (inst_to_netcdf inst fname o fs) = fs
  /\ exists e, outcome (snd (inst_to_netcdf inst fname o fs)) = Raise e
               /\ (base_instrument o = None -> e = ValueError).
Proof.
  intros He Ha Hb Hne E.
  destruct (@preflight_collision inst fname o
              (@collision_detected inst a b Ha Hb Hne E)) as [e [H1 H2]].
  unfold inst_to_netcdf. rewrite He.
  destruct (preflight inst fname o) as [l [p|e']]; simpl in *;
    [discriminate|].
  split; auto. exists e'. split; auto. intros Hbase. inversion H1; subst.
  auto.
Qed.

End PreflightFacts.

Section PreflightCases.
Import Write Cases Sample.

Lemma empty_instrument_not_written_witness :
  inst_to_netcdf unloaded "out.nc" default_options one_file
  = (one_file, ([LogEmptyInstrument "out.nc"], Ok tt)).
Proof.
  apply (@empty_instrument_not_written interpreter unloaded "out.nc").
  reflexivity.
Defined.

Lemma case_collision_is_fatal_witness :
  fst (inst_to_netcdf colliding "out.nc" default_options one_file) = one_file
  /\ exists e,
       outcome (snd (inst_to_netcdf colliding "out.nc" default_options one_file))
       = Raise e
       /\ (base_instrument default_options = None -> e = ValueError).
Proof.
  apply (@case_collision_is_fatal interpreter colliding "out.nc" default_options one_file
           "Foo" "foo").
  - reflexivity.
  - simpl. auto.
  - simpl. auto.
  - discriminate.
  - reflexivity.
Defined.

(** C5 as stated fails: a frame without rows whose columns differ by case
    only is not written and nothing is raised. *)
Lemma case_collision_passes_when_empty :
  In "Foo" (variables colliding_empty)
  /\ In "foo" (variables colliding_empty)
  /\ lower "Foo" = lower "foo"
  /\ inst_to_netcdf colliding_empty "out.nc" default_options one_file
     = (one_file, ([LogEmptyInstrument "out.nc"], Ok tt)).
Proof.
  repeat split; simpl; auto.
Qed.

End PreflightCases.

(* ===================================================================== *)
(** * The global attributes of the file *)
(* ===================================================================== *)

Create HintDb attrs.

Section AttributeFacts.
Context {X : Externals}.
Import Write Reference Overlay.

Lemma keeps_attrs_seq (a b : step) :
  keeps_attrs a -> keeps_attrs b -> keeps_attrs (NetCDF.seq a b).
Proof.
  intros Ha Hb ds. unfold NetCDF.seq. specialize (Ha ds).
  destruct (a ds) as [ds1 [l1 [u|e]]]; simpl in *; auto.
  specialize (Hb ds1). destruct (b ds1) as [ds2 [l2 r]]. simpl in *.
  congruence.
Qed.

Lemma keeps_attrs_seq_all (l : list step) :
  Forall keeps_attrs l -> keeps_attrs (seq_all l).
Proof.
  induction 1; simpl.
  - intros ds. reflexivity.
  - now apply keeps_attrs_seq.
Qed.

Lemma keeps_attrs_done : keeps_attrs done.
Proof. intros ds. reflexivity. Qed.

Lemma keeps_attrs_fail e : keeps_attrs (fail e).
Proof. intros ds. reflexivity. Qed.

Lemma keeps_attrs_say ev : keeps_attrs (say ev).
Proof. intros ds. reflexivity. Qed.

Lemma keeps_attrs_create_variable name t dims :
  keeps_attrs (attempt (create_variable name t dims)).
Proof.
  intros ds. unfold attempt, create_variable.
  destruct (dmem name (ds_vars ds)); reflexivity.
Qed.

Lemma keeps_attrs_create_dimension name size :
  keeps_attrs (attempt (create_dimension name size)).
Proof.
  intros ds. unfold attempt, create_dimension.
  destruct (dmem name (ds_dims ds)); reflexivity.
Qed.

Lemma keeps_attrs_update_var name f : keeps_attrs (change (update_var name f)).
Proof.
  intros ds. unfold change, update_var. simpl.
  destruct (dget name (ds_vars ds)); reflexivity.
Qed.

Lemma keeps_attrs_attach_meta name lkey wname export_meta :
  keeps_attrs (attach_meta name lkey wname export_meta).
Proof.
  unfold attach_meta. destruct (dget lkey export_meta).
  - apply keeps_attrs_update_var.
  - apply keeps_attrs_say.
Qed.

#[local] Hint Resolve keeps_attrs_done keeps_attrs_fail keeps_attrs_say
  keeps_attrs_create_variable keeps_attrs_create_dimension
  keeps_attrs_update_var keeps_attrs_attach_meta : attrs.

Lemma keeps_attrs_write_variable inst o export_meta kc :
  keeps_attrs (write_variable inst o export_meta kc).
Proof.
  unfold write_variable. destruct (snd kc) as [e|cells].
  - unfold write_1d. apply keeps_attrs_seq_all.
    repeat constructor; auto with attrs.
    apply keeps_attrs_update_var.
  - unfold write_nested. destruct (nth_cell cells 0) as [first|e];
      [|auto with attrs].
    apply keeps_attrs_seq_all. repeat constructor; auto with attrs.
    + destruct first as [f|s].
      * apply keeps_attrs_seq_all. apply Forall_forall. intros s Hs.
        apply in_map_iff in Hs. destruct Hs as [col [<- _]].
        unfold write_frame_column.
        destruct (frame_column col (CFrame f)); [|auto with attrs].
        apply keeps_attrs_seq_all. repeat constructor; auto with attrs.
        destruct (fill_buffer _ _ _ _ _ _); auto with attrs.
        apply keeps_attrs_update_var.
      * unfold write_series_data. apply keeps_attrs_seq_all.
        repeat constructor; auto with attrs.
        destruct (fill_buffer _ _ _ _ _ _); auto with attrs.
        apply keeps_attrs_update_var.
    + unfold write_cell_index. apply keeps_attrs_seq_all.
      repeat constructor; auto with attrs.
      * destruct (dmem _ _); auto with attrs.
      * destruct (snd _); auto with attrs.
      * apply keeps_attrs_update_var.
      * destruct (fill_buffer _ _ _ _ _ _); auto with attrs.
        apply keeps_attrs_update_var.
Qed.

Lemma change_then_keep (f : dataset -> dataset) (b : step) (ds : dataset) :
  keeps_attrs b ->
  ds_attrs (fst (NetCDF.seq (change f) b ds)) = ds_attrs (f ds).
Proof.
  intros K. unfold NetCDF.seq, change. specialize (K (f ds)).
  destruct (b (f ds)) as [ds2 [l2 r]]. exact K.
Qed.

(** The global attributes of the written file are the ones set first. *)
Lemma write_pandas_attrs inst o attrb_dict export_meta ds :
  ds_attrs (fst (write_pandas inst o attrb_dict export_meta ds))
  = dupdate (ds_attrs ds) attrb_dict.
Proof.
  unfold write_pandas. cbn [seq_all]. rewrite change_then_keep.
  - reflexivity.
  - repeat apply keeps_attrs_seq; auto with attrs.
    + destruct (dget _ export_meta); auto with attrs.
      apply keeps_attrs_update_var.
    + apply keeps_attrs_update_var.
    + apply keeps_attrs_seq_all. apply Forall_forall. intros s Hs.
      apply in_map_iff in Hs. destruct Hs as [kc [<- _]].
      apply keeps_attrs_write_variable.
Qed.

Lemma dget_map_values (f : pyval -> pyval) (d : record) (k : string) :
  dget k (map (fun kv => (fst kv, f (snd kv))) d)
  = option_map f (dget k d).
Proof.
  induction d as [|[k' v'] d IH]; simpl; auto.
  destruct (String.eqb k' k); auto.
Qed.

Lemma dkeys_map_values (f : pyval -> pyval) (d : record) :
  dkeys (map (fun kv => (fst kv, f (snd kv))) d) = dkeys d.
Proof.
  unfold dkeys. rewrite map_map. reflexivity.
Qed.

Lemma dget_dpop_other (V : Type) (d : list (string * V)) (k k' : string) :
  k <> k' -> dget k' (dpop k d) = dget k' d.
Proof.
  intros Hne. induction d as [|[k0 v0] d IH]; simpl; auto.
  destruct (String.eqb_spec k0 k) as [->|Hk]; simpl.
  - destruct (String.eqb_spec k k'); congruence.
  - now rewrite IH.
Qed.

Lemma NoDup_dpop (V : Type) (d : list (string * V)) (k : string) :
  NoDup (dkeys d) -> NoDup (dkeys (dpop k d)).
Proof.
  intros H. rewrite dpop_filter by assumption. now apply NoDup_dkeys_filter.
Qed.

Lemma custom_attrs_keys base (l acc d : record) :
  custom_attrs base l acc = Ok d -> NoDup (dkeys acc) -> NoDup (dkeys d).
Proof.
  revert acc. induction l as [|[k v] l IH]; intros acc; simpl.
  - now intros [= <-].
  - destruct base as [names|]; [|discriminate].
    intros E H. apply (IH _ E).
    destruct (negb (mem k names) && is_public k); auto.
    now apply NoDup_dset.
Qed.

Lemma custom_attrs_base (l acc d : record) (base : option (list string)) :
  custom_attrs base l acc = Ok d ->
  custom_attrs (Some match base with Some b => b | None => base_attrb end)
    l acc = Ok d.
Proof.
  destruct base as [names|]; auto.
  destruct l as [|[k v] l]; simpl; auto. discriminate.
Qed.

Lemma pop_items_other (items : list string) (d : record) (k : string) :
  ~ In k items ->
  dget k (fold_left (fun acc pitem => if dmem pitem acc then dpop pitem acc
                                      else acc) items d)
  = dget k d.
Proof.
  revert d. induction items as [|p items IH]; intros d H; simpl; auto.
  rewrite IH by (simpl in H; tauto).
  destruct (dmem p d); auto. apply dget_dpop_other. simpl in H. tauto.
Qed.

Lemma pop_items_keys (items : list string) (d : record) :
  NoDup (dkeys d) ->
  NoDup (dkeys (fold_left (fun acc pitem => if dmem pitem acc
                                            then dpop pitem acc else acc)
                  items d)).
Proof.
  revert d. induction items as [|p items IH]; intros d H; simpl; auto.
  apply IH. destruct (dmem p d); auto. now apply NoDup_dpop.
Qed.

Lemma file_info_keys inst fname d :
  NoDup (dkeys d) -> NoDup (dkeys (file_info inst fname d)).
Proof.
  intros H. unfold file_info. repeat apply NoDup_dset. exact H.
Qed.

Ltac skip_dset :=
  repeat (rewrite dget_dset_other by discriminate).

(** What the writer computes for the global attributes it owns, and what
    it does about [Conventions]. *)
Lemma global_attributes_owned inst fname o attrb_dict :
  (forall h, header inst = Some h -> NoDup (dkeys h)) ->
  global_attributes inst fname o = Ok attrb_dict ->
  base_instrument o = None ->
  NoDup (dkeys attrb_dict)
  /\ dget "Date_Start" attrb_dict = Some (date_string (first_index inst))
  /\ dget "Date_End" attrb_dict = Some (date_string (last_index inst))
  /\ dget "File_Date" attrb_dict = Some (date_string (last_index inst))
  /\ dget "Generation_Date" attrb_dict = Some (vstr utcnow_date)
  /\ dget "File" attrb_dict
     = Some (VArr [SStr (fst (path_split fname));
                   SStr (snd (path_split fname))])
  /\ dget "Logical_File_ID" attrb_dict
     = Some (VArr (map SStr
                     (but_last (split_dot (snd (path_split fname)) ""))))
  /\ dget "Conventions" attrb_dict
     = Some (match caller_attr inst "Conventions" with
             | Some v => plain_attr v
             | None => vstr "pysat-simplified SPDF ISTP/IACG for NetCDF"
             end).
Proof.
  intros Hh G Hb. unfold global_attributes in G. unfold caller_attr.
  rewrite Hb in G.
  destruct (custom_attrs (Some base_attrb) (attrs inst) _) as [d|e] eqn:C;
    [|discriminate].
  injection G as <-.
  assert (Hd : NoDup (dkeys d)).
  { apply (custom_attrs_keys _ _ _ C).
    destruct (header inst) as [h|] eqn:H; [|constructor].
    destruct (Nat.ltb 0 (length h)); [|constructor]. now apply Hh. }
  unfold standard_attributes.
  set (d1 := dset "pysat_version" (vstr pysat_version) d).
  set (d2 := if dmem "Conventions" d1 then d1 else dset "Conventions" _ d1).
  set (d3 := if dmem "Text_Supplement" d2 then d2
             else dset "Text_Supplement" (vstr "") d2).
  match goal with
  | |- context [file_info inst fname ?x] => set (d4 := x)
  end.
  assert (H4 : NoDup (dkeys d4)).
  { unfold d4. apply pop_items_keys. unfold d3, d2, d1.
    destruct (dmem "Text_Supplement" _); destruct (dmem "Conventions" _);
      repeat apply NoDup_dset; assumption. }
  split; [rewrite dkeys_map_values; now apply file_info_keys|].
  rewrite !dget_map_values. unfold file_info.
  repeat split; skip_dset; try (rewrite dget_dset_same; reflexivity).
  unfold d4. rewrite pop_items_other by (simpl; intuition discriminate).
  assert (E3 : dget "Conventions" d3 = dget "Conventions" d2).
  { unfold d3. destruct (dmem "Text_Supplement" d2); auto.
    now rewrite dget_dset_other by discriminate. }
  rewrite E3. unfold d2, dmem.
  assert (E1 : dget "Conventions" d1 = dget "Conventions" d).
  { unfold d1. now rewrite dget_dset_other by discriminate. }
  rewrite E1.
  destruct (dget "Conventions" d) as [v|] eqn:Gc.
  - now rewrite E1.
  - now rewrite dget_dset_same.
Qed.

Lemma preflight_attrs inst fname o l p :
  preflight inst fname o = (l, Ok p) ->
  global_attributes inst fname o = Ok (fst p).
Proof.
  unfold preflight.
  assert (H : forall export_nan l0,
            (attrb_dict <- lift (global_attributes inst fname o) ;;
             (if case_collision inst then raise ValueError else ret tt) ;;;
             export_meta <- export_metadata inst o
                              (resolve_check_type inst (check_type o))
                              export_nan ;;
             ret (attrb_dict, export_meta)) = (l0, Ok p) ->
            global_attributes inst fname o = Ok (fst p)).
  { intros export_nan l0.
    destruct (global_attributes inst fname o) as [d|e]; simpl;
      [|discriminate].
    destruct (case_collision inst); simpl; [discriminate|].
    destruct (export_metadata inst o _ export_nan) as [l1 [em|e]]; simpl;
      [|discriminate].
    now intros [= _ <-]. }
  destruct (export_nan o) as [en|].
  - rewrite bind_ret_l. apply H.
  - rewrite bind_emit_ret.
    destruct (Py.bind (lift (global_attributes inst fname o)) _)
      as [l1 r1] eqn:B.
    intros E. apply (H (meta_export_nan inst) l1). rewrite B.
    simpl in E. inversion E; subst. reflexivity.
Qed.

(** C8 (amended): a write that goes through with no base instrument
    leaves, in the global attributes of the file, the start, end and file
    timestamps, the generation date, the file name parts and the logical
    file identifier as the writer computes them, whatever the caller
    attached under those names; the Conventions attribute is the caller's
    when the caller attached one and the default otherwise. *)
Theorem codec_owned_attributes (inst : Instrument) (fname : string)
  (o : options) (fs fs' : disk) (log : list event) :
  (forall h, header inst = Some h -> NoDup (dkeys h)) ->
  base_instrument o = None ->
  inst_to_netcdf inst fname o fs = (fs', (log, Ok tt)) ->
  empty inst = false ->
  exists ds,
    dget fname fs' = Some ds
    /\ dget "Date_Start" (ds_attrs ds) = Some (date_string (first_index inst))
    /\ dget "Date_End" (ds_attrs ds) = Some (date_string (last_index inst))
    /\ dget "File_Date" (ds_attrs ds) = Some (date_string (last_index inst))
    /\ dget "Generation_Date" (ds_attrs ds) = Some (vstr utcnow_date)
    /\ dget "File" (ds_attrs ds)
       = Some (VArr [SStr (fst (path_split fname));
                     SStr (snd (path_split fname))])
    /\ dget "Logical_File_ID" (ds_attrs ds)
       = Some (VArr (map SStr
                       (but_last (split_dot (snd (path_split fname)) ""))))
    /\ dget "Conventions" (ds_attrs ds)
       = Some (match caller_attr inst "Conventions" with
               | Some v => plain_attr v
               | None => vstr "pysat-simplified SPDF ISTP/IACG for NetCDF"
               end).
Proof.
  intros Hh Hb W He. unfold inst_to_netcdf in W. rewrite He in W.
  destruct (preflight inst fname o) as [l [p|e]] eqn:P; [|discriminate].
  destruct (open_dataset fname (mode o) fs) as [ds0|e]; [|discriminate].
  pose proof (write_pandas_attrs inst o (fst p) (snd p) ds0) as A.
  destruct (write_pandas inst o (fst p) (snd p) ds0) as [ds [l' r]].
  inversion W; subst. simpl in A.
  destruct (global_attributes_owned inst fname o Hh (preflight_attrs _ _ _ P) Hb)
    as [Hn [H1 [H2 [H3 [H4 [H5 [H6 H7]]]]]]].
  exists ds. split; [apply dget_dset_same|].
  rewrite A, !dget_dupdate by assumption.
  rewrite H1, H2, H3, H4, H5, H6, H7. repeat split.
Qed.

End AttributeFacts.

(* ===================================================================== *)
(** * LabelTranslator, read direction *)
(* ===================================================================== *)

Section TranslateFacts.
Import Translate Compare Reference Cases.


















End TranslateFacts.

Section AttributeCases.
Import Write NetCDF Cases Sample Reference.

Lemma codec_owned_attributes_witness :
  exists ds,
    dget "out.nc" (fst (inst_to_netcdf with_conventions "out.nc"
                          default_options [])) = Some ds
    /\ dget "Date_Start" (ds_attrs ds)
       = Some (date_string (first_index with_conventions))
    /\ dget "Date_End" (ds_attrs ds)
       = Some (date_string (last_index with_conventions))
    /\ dget "File_Date" (ds_attrs ds)
       = Some (date_string (last_index with_conventions))
    /\ dget "Generation_Date" (ds_attrs ds) = Some (vstr utcnow_date)
    /\ dget "File" (ds_attrs ds)
       = Some (VArr [SStr (fst (path_split "out.nc"));
                     SStr (snd (path_split "out.nc"))])
    /\ dget "Logical_File_ID" (ds_attrs ds)
       = Some (VArr (map SStr
                       (but_last (split_dot (snd (path_split "out.nc")) ""))))
    /\ dget "Conventions" (ds_attrs ds)
       = Some (match caller_attr with_conventions "Conventions" with
               | Some v => plain_attr v
               | None => vstr "pysat-simplified SPDF ISTP/IACG for NetCDF"
               end).
Proof.
  apply (@codec_owned_attributes interpreter with_conventions "out.nc"
           default_options []
           (fst (inst_to_netcdf with_conventions "out.nc" default_options []))
           (fst (snd (inst_to_netcdf with_conventions "out.nc"
                        default_options [])))).
  - intros h [= <-]. simpl. constructor; [simpl; tauto|constructor].
  - reflexivity.
  - vm_compute. reflexivity.
  - reflexivity.
Defined.

(** C8 (as stated): a Conventions attribute attached to the header of the
    instrument is written to the file in place of the default of the
    writer. *)
Lemma conventions_taken_from_caller :
  header with_conventions = Some [("Conventions", vstr "CF-1.8")]
  /\ outcome (snd (inst_to_netcdf with_conventions "out.nc"
                     default_options [])) = Ok tt
  /\ exists ds,
       dget "out.nc" (fst (inst_to_netcdf with_conventions "out.nc"
                             default_options [])) = Some ds
       /\ dget "Conventions" (ds_attrs ds) = Some (vstr "CF-1.8").
Proof.
  split; [reflexivity|]. split; [vm_compute; reflexivity|].
  eexists. split; vm_compute; reflexivity.
Qed.

End AttributeCases.

Section TranslateCases.
Import Translate Compare Reference Cases.




End TranslateCases.

(* ===================================================================== *)
(** * Reading several files under the strict option *)
(* ===================================================================== *)

Section StrictFacts.
Import NetCDF Read Compare Reference.




Section FoldSet.
Variables (A V : Type) (f : A -> V).

Lemma in_dset (d : list (string * V)) (k k0 : string) (x v : V) :
  In (k, x) (dset k0 v d) -> (k = k0 /\ x = v) \/ In (k, x) d.
Proof.
  induction d as [|[k1 v1] d IH]; simpl.
  - intros [[= <- <-]|[]]. auto.
  - destruct (String.eqb_spec k1 k0) as [->|Hne]; simpl.
    + intros [[= <- <-]|H]; auto.
    + intros [E|H]; auto. destruct (IH H); auto.
Qed.

Lemma dset_length (d : list (string * V)) (k : string) (v : V) :
  length (dset k v d) = if dmem k d then length d else S (length d).
Proof.
  rewrite <- !(length_map fst). change (map fst) with (@dkeys V).
  rewrite dkeys_dset. destruct (dmem k d); auto.
  rewrite length_app. simpl. lia.
Qed.

(** Storing the image of every entry of [l], in the order of [l]. *)
Lemma fold_dset_get (l : list (string * A)) :
  forall (acc : list (string * V)) (k : string),
    NoDup (dkeys l) ->
    dget k (fold_left (fun acc kv => dset (fst kv) (f (snd kv)) acc) l acc)
    = match dget k l with
      | Some a => Some (f a)
      | None => dget k acc
      end.
Proof.
  induction l as [|[k0 a0] l IH]; intros acc k Hnd; simpl; auto.
  inversion Hnd as [|? ? Hnot Hnd']; subst.
  rewrite IH by assumption.
  destruct (String.eqb_spec k0 k) as [<-|Hne].
  - apply dget_none_iff in Hnot. rewrite Hnot. apply dget_dset_same.
  - destruct (dget k l); auto. now apply dget_dset_other.
Qed.



Lemma fold_dset_fresh (l : list (string * A)) :
  forall acc : list (string * V),
    NoDup (dkeys l) ->
    (forall k, In k (dkeys l) -> ~ In k (dkeys acc)) ->
    fold_left (fun acc kv => dset (fst kv) (f (snd kv)) acc) l acc
    = acc ++ map (fun kv => (fst kv, f (snd kv))) l.
Proof.
  induction l as [|[k0 a0] l IH]; intros acc Hnd H; simpl.
  - now rewrite app_nil_r.
  - inversion Hnd as [|? ? Hnot Hnd']; subst.
    rewrite dset_notin by (apply H; now left).
    rewrite IH; [now rewrite <- app_assoc|assumption|].
    intros k Hk. rewrite dkeys_app, in_app_iff. simpl.
    intros [Hacc|[<-|[]]]; [|contradiction].
    apply (H k); auto. now right.
Qed.

End FoldSet.














End StrictFacts.

Section StrictCases.
Import NetCDF Read Compare Reference Cases Sample.






End StrictCases.

(* ===================================================================== *)
(** * StandardsOverlay: removal after addition *)
(* ===================================================================== *)

Section RemovalFacts.
Import Standards Reference.

Lemma filter_all (A : Type) (f : A -> bool) (l : list A) :
  (forall x, In x l -> f x = true) -> filter f l = l.
Proof.
  intros H. apply forallb_filter_id. now apply forallb_forall.
Qed.

Lemma filter_none (A : Type) (f : A -> bool) (l : list A) :
  (forall x, In x l -> f x = false) -> filter f l = [].
Proof.
  induction l as [|x l IH]; simpl; auto.
  intros H. rewrite (H x (or_introl eq_refl)). apply IH. auto.
Qed.

Lemma mem_cons (k a : string) (l : list string) :
  mem k (a :: l) = String.eqb k a || mem k l.
Proof. reflexivity. Qed.

(** Popping the labels that match [lval] keeps the others, in order. *)
Lemma pop_matching_filter (lval : string) (ks : list string) :
  forall acc : record,
    NoDup (dkeys acc) ->
    pop_matching lval ks acc
    = filter (fun kv => negb (mem (fst kv) ks
                              && String.eqb (lower (fst kv)) lval)) acc.
Proof.
  induction ks as [|k ks IH]; intros acc Hnd; cbn [pop_matching].
  - symmetry. apply filter_all. reflexivity.
  - destruct (String.eqb_spec (lower k) lval) as [E|Hne].
    + rewrite IH by now apply NoDup_dpop.
      rewrite dpop_filter, filter_twice by assumption.
      apply filter_ext. intros [x v]. cbn [fst]. rewrite mem_cons.
      destruct (String.eqb_spec x k) as [->|Hx]; simpl; auto.
      destruct (String.eqb_spec (lower k) lval); [reflexivity|contradiction].
    + rewrite IH by assumption.
      apply filter_ext. intros [x v]. cbn [fst]. rewrite mem_cons.
      destruct (String.eqb_spec x k) as [->|Hx]; simpl; auto.
      destruct (String.eqb_spec (lower k) lval); [contradiction|].
      now rewrite andb_false_r.
Qed.

Lemma strip_fold (sub_keys lvals : list string) :
  forall acc : record,
    NoDup (dkeys acc) ->
    (forall k, In k (dkeys acc) -> In k sub_keys) ->
    fold_left
      (fun acc lval =>
         if mem lval (map lower sub_keys) then pop_matching lval sub_keys acc
         else acc)
      lvals acc
    = filter (fun kv => negb (mem (lower (fst kv)) lvals)) acc.
Proof.
  induction lvals as [|lval rest IH]; intros acc Hnd Hsub; cbn [fold_left].
  - symmetry. apply filter_all. reflexivity.
  - assert (E : (if mem lval (map lower sub_keys)
                 then pop_matching lval sub_keys acc else acc)
                = filter (fun kv => negb (String.eqb (lower (fst kv)) lval))
                    acc).
    { destruct (mem lval (map lower sub_keys)) eqn:M.
      - rewrite pop_matching_filter by assumption.
        apply filter_ext_in. intros [x v] Hin. simpl.
        assert (Hx : mem x sub_keys = true).
        { apply mem_true_iff, Hsub. change x with (fst (x, v)).
          now apply in_map. }
        now rewrite Hx.
      - symmetry. apply filter_all. intros [x v] Hin. simpl.
        destruct (String.eqb_spec (lower x) lval) as [<-|]; auto.
        apply mem_false_iff in M. exfalso. apply M.
        apply in_map, Hsub. change x with (fst (x, v)). now apply in_map. }
    rewrite E, IH, filter_twice.
    + apply filter_ext. intros [x v]. cbn [fst]. rewrite mem_cons.
      now rewrite negb_orb.
    + now apply NoDup_dkeys_filter.
    + intros k Hk. apply Hsub. eapply dkeys_filter_incl; eauto.
Qed.

(** The [else] branch of the removal keeps exactly the entries whose
    label, in lower case, is none of the labels of the overlay. *)
Lemma strip_standards_spec (r : record) :
  NoDup (dkeys r) -> strip_standards r = without_standards r.
Proof.
  intros Hnd. unfold strip_standards, without_standards, is_standard.
  apply strip_fold; auto.
Qed.

Lemma remove_vars_flat (d : mdict) :
  (forall k r, In (k, r) d -> NoDup (dkeys r) /\ has_meta_label r = false) ->
  remove_vars remove_nested d
  = Ok (map (fun kr => (fst kr, without_standards (snd kr))) d).
Proof.
  induction d as [|[k r] d IH]; intros H; simpl; auto.
  destruct (H k r (or_introl eq_refl)) as [Hnd Hm].
  unfold has_meta_label in Hm.
  rewrite Hm, IH by (intros k' r' Hin; apply (H k' r'); now right).
  now rewrite strip_standards_spec.
Qed.

End RemovalFacts.

Section OverlayFacts.
Context {X : Externals}.
Import Standards Overlay Filter Reference.

Lemma dset_app_right (V : Type) (r s : list (string * V)) (k : string)
  (v : V) :
  ~ In k (dkeys r) -> dset k v (r ++ s) = r ++ dset k v s.
Proof.
  induction r as [|[k0 v0] r IH]; simpl; auto.
  intros H. destruct (String.eqb_spec k0 k) as [->|Hne].
  - exfalso. auto.
  - f_equal. apply IH. tauto.
Qed.

Lemma dset_same (V : Type) (d : list (string * V)) (k : string) (v : V) :
  dget k d = Some v -> dset k v d = d.
Proof.
  induction d as [|[k0 v0] d IH]; simpl; [discriminate|].
  destruct (String.eqb_spec k0 k) as [->|Hne].
  - intros [= ->]. reflexivity.
  - intros H. f_equal. auto.
Qed.

Lemma clean_not_standard (r : record) (k : string) :
  clean r -> is_standard k = true -> ~ In k (dkeys r).
Proof.
  intros [_ H] Hk Hin. specialize (H k Hin). unfold clean_label in H.
  rewrite Hk in H. discriminate.
Qed.

(** Setting a label of the overlay in a record that already carries
    entries of the overlay. *)
Lemma overlaid_set (ct : list string) (r r' : record) (k t : string) :
  clean r -> overlaid ct r r' ->
  is_standard k = true -> mem k ct = false ->
  overlaid ct r (dset k (vstr t) r').
Proof.
  intros Hc (s & -> & Hnd & Hs) Hk Hm.
  exists (dset k (vstr t) s). split; [|split].
  - apply dset_app_right. now apply clean_not_standard.
  - now apply NoDup_dset.
  - intros [k' v'] Hin. apply in_dset in Hin.
    destruct Hin as [[-> ->]|Hin]; [|now apply Hs].
    split; [exact Hk|]. split; [exact Hm|]. eexists. reflexivity.
Qed.

Lemma overlaid_refl (ct : list string) (r : record) :
  clean r -> overlaid ct r r.
Proof.
  intros [Hnd _]. exists []. rewrite app_nil_r. split; [reflexivity|].
  split; [exact Hnd|]. intros x [].
Qed.

Lemma overlaid_stable (coltype : pytype) (ct en : list string)
  (r r' : record) :
  overlaid ct r r' ->
  forallb (stable coltype ct en) r = true ->
  forallb (stable coltype ct en) r' = true.
Proof.
  intros (s & -> & _ & Hs) Hr. rewrite forallb_app, Hr. simpl.
  apply forallb_forall. intros [k v] Hin.
  destruct (Hs _ Hin) as (_ & Hm & t & Ht). simpl in Hm, Ht. subst v.
  unfold stable. simpl. now rewrite Hm.
Qed.

(** What the removal leaves of a record the overlay extended. *)
Lemma overlaid_removed (ct : list string) (r r' : record) :
  clean r -> overlaid ct r r' ->
  NoDup (dkeys r') /\ has_meta_label r' = false
  /\ without_standards r' = r.
Proof.
  intros [Hnd Hc] (s & -> & Hnd' & Hs). split; [exact Hnd'|]. split.
  - unfold has_meta_label. apply mem_false_iff. intros Hin.
    apply in_map_iff in Hin. destruct Hin as (k & Hl & Hk).
    rewrite dkeys_app in Hk. apply in_app_or in Hk. destruct Hk as [Hk|Hk].
    + specialize (Hc k Hk). unfold clean_label in Hc. rewrite Hl in Hc.
      simpl in Hc. now rewrite andb_false_r in Hc.
    + unfold dkeys in Hk. apply in_map_iff in Hk.
      destruct Hk as (x & <- & Hx). destruct (Hs x Hx) as (Hst & _).
      unfold is_standard in Hst. rewrite Hl in Hst. discriminate.
  - unfold without_standards. rewrite filter_app.
    rewrite (filter_all _ r), (filter_none _ s); [apply app_nil_r| |].
    + intros x Hx. destruct (Hs x Hx) as (Hst & _). now rewrite Hst.
    + intros [k v] Hin. simpl.
      assert (Hk : In k (dkeys r))
        by (change k with (fst (k, v)); now apply in_map).
      specialize (Hc k Hk). unfold clean_label in Hc.
      apply andb_true_iff in Hc. tauto.
Qed.

Lemma overlaid_get (ct : list string) (M d : mdict) (k : string)
  (r : record) :
  Forall2 (overlaid_var ct) M d -> dget k M = Some r ->
  exists r', dget k d = Some r' /\ overlaid ct r r'.
Proof.
  induction 1 as [|[k0 r0] [k0' r0'] M d [E O] F IH]; simpl;
    [discriminate|].
  simpl in E, O. subst k0'.
  destruct (String.eqb k0 k); auto.
  intros [= <-]. eauto.
Qed.

Lemma overlaid_put (ct : list string) (M d : mdict) (k : string)
  (r v : record) :
  Forall2 (overlaid_var ct) M d -> dget k M = Some r -> overlaid ct r v ->
  Forall2 (overlaid_var ct) M (dset k v d).
Proof.
  induction 1 as [|[k0 r0] [k0' r0'] M d [E O] F IH]; simpl;
    [discriminate|].
  simpl in E, O. subst k0'.
  destruct (String.eqb_spec k0 k) as [->|Hne].
  - intros [= <-] Hv. constructor; [split; auto|exact F].
  - intros G Hv. constructor; [split; auto|auto].
Qed.

Lemma overlay_not_checked (check_type : option (list string)) (k : string) :
  (forall l, In l (default_list check_type) -> is_standard l = false) ->
  is_standard k = true -> mem k (default_list check_type) = false.
Proof.
  intros H Hk. apply mem_false_iff. intros Hin.
  rewrite (H k Hin) in Hk. discriminate.
Qed.

(** One pass of the loop over the variables, on a column of numbers or
    of text whose record already carries entries of the overlay. *)
Lemma add_var_step (inst : Instrument) (epoch_name : string)
  (check_type export_nan : option (list string)) (d : mdict)
  (var : string) (e : elems) (code : string) (r r' : record) :
  meta_contains (meta inst) var && negb (String.eqb var epoch_name) = true ->
  snd (elems_info e) = false ->
  var_type_code (fst (elems_info e)) = Ok code ->
  dget (lower var) d = Some r' ->
  clean r ->
  overlaid (default_list check_type) r r' ->
  (forall l, In l (default_list check_type) -> is_standard l = false) ->
  forallb (stable (resolve_coltype (AType (fst (elems_info e))))
             (default_list check_type) (default_list export_nan)) r = true ->
  exists log u,
    add_var inst epoch_name check_type export_nan d var (Col1D e)
    = (log, Ok (dset (lower var) u d))
    /\ overlaid (default_list check_type) r u.
Proof.
  intros Sel Hdt Hcode G' Hc O Hct Hst. unfold add_var. rewrite Sel.
  cbn [get_data_info]. rewrite Hdt, Hcode. unfold dindex. rewrite G'.
  rewrite bind_ret_l, !bind_lift_ok.
  set (u := dupdate r' _).
  assert (Ou : overlaid (default_list check_type) r u).
  { unfold u, std_meta_dict, dupdate. simpl.
    repeat (apply overlaid_set; auto;
            try (apply overlay_not_checked; auto)). }
  rewrite filter_stable.
  - rewrite bind_ret_l. exists [], u. split; [reflexivity|exact Ou].
  - destruct Ou as (s & _ & Hnd & _). exact Hnd.
  - eapply overlaid_stable; eauto.
Qed.

Lemma add_var_plain (inst : Instrument) (epoch_name : string)
  (check_type export_nan : option (list string)) (M d : mdict)
  (var : string) (col : column) :
  (forall k r, In (k, r) M -> clean r) ->
  (forall l, In l (default_list check_type) -> is_standard l = false) ->
  plain_variable inst epoch_name check_type export_nan M var col ->
  Forall2 (overlaid_var (default_list check_type)) M d ->
  exists log d',
    add_var inst epoch_name check_type export_nan d var col = (log, Ok d')
    /\ Forall2 (overlaid_var (default_list check_type)) M d'.
Proof.
  intros Hclean Hct Hp F.
  destruct (meta_contains (meta inst) var && negb (String.eqb var epoch_name))
    eqn:Sel.
  - destruct (Hp Sel) as (e & r & code & -> & Hdt & Hcode & G & Hst).
    destruct (overlaid_get _ F G) as (r' & G' & O).
    assert (Hc : clean r) by (apply (Hclean (lower var)); now apply dget_some_in).
    destruct (@add_var_step inst epoch_name check_type export_nan d var e
                code r r' Sel Hdt Hcode G' Hc O Hct Hst) as (log & u & E & Ou).
    eexists _, _. split; [exact E|]. eapply overlaid_put; eauto.
  - unfold add_var. rewrite Sel. eexists _, _. split; [reflexivity|exact F].
Qed.

Lemma add_loop_plain (inst : Instrument) (epoch_name : string)
  (check_type export_nan : option (list string)) (M : mdict)
  (vars : list (string * column)) :
  (forall k r, In (k, r) M -> clean r) ->
  (forall l, In l (default_list check_type) -> is_standard l = false) ->
  (forall var col, In (var, col) vars ->
     plain_variable inst epoch_name check_type export_nan M var col) ->
  forall d,
    Forall2 (overlaid_var (default_list check_type)) M d ->
    exists log d',
      add_loop inst epoch_name check_type export_nan vars d = (log, Ok d')
      /\ Forall2 (overlaid_var (default_list check_type)) M d'.
Proof.
  intros Hclean Hct. induction vars as [|[var col] vars IH]; intros Hp d F.
  - eexists _, _. split; [reflexivity|exact F].
  - destruct (@add_var_plain inst epoch_name check_type export_nan M d
                var col Hclean Hct (Hp var col (or_introl eq_refl)) F)
      as (l1 & d1 & E1 & F1).
    destruct (IH (fun v c Hin => Hp v c (or_intror Hin)) d1 F1)
      as (l2 & d2 & E2 & F2).
    exists (l1 ++ l2), d2. split; [|exact F2].
    simpl. rewrite E1. unfold Py.bind. now rewrite E2.
Qed.

Lemma overlaid_start (ct : list string) (M : mdict) :
  (forall k r, In (k, r) M -> clean r) -> Forall2 (overlaid_var ct) M M.
Proof.
  induction M as [|[k r] M IH]; intros H; constructor.
  - split; [reflexivity|]. apply overlaid_refl, (H k). now left.
  - apply IH. intros k' r' Hin. apply (H k'). now right.
Qed.

Lemma overlaid_back (ct : list string) (M d : mdict) :
  (forall k r, In (k, r) M -> clean r) ->
  Forall2 (overlaid_var ct) M d ->
  remove_vars remove_nested d = Ok M.
Proof.
  intros Hclean F. rewrite remove_vars_flat.
  - f_equal. induction F as [|[k r] [k' r'] M d [E O] F IH]; simpl; auto.
    simpl in E, O. subst k'.
    destruct (@overlaid_removed ct r r') as (_ & _ & ->); auto.
    + apply (Hclean k). now left.
    + f_equal. apply IH. intros k0 r0 Hin. apply (Hclean k0). now right.
  - induction F as [|[k r] [k' r'] M d [E O] F IH]; intros k0 r0 Hin;
      [destruct Hin|].
    simpl in E, O. destruct Hin as [[= <- <-]|Hin].
    + destruct (@overlaid_removed ct r r') as (Hnd & Hm & _); auto.
      apply (Hclean k). now left.
    + apply (IH (fun k1 r1 H1 => Hclean k1 r1 (or_intror H1)) k0 r0 Hin).
Qed.

Lemma strip_epoch_clean (epoch_name : string) (M : mdict) :
  (forall k r, In (k, r) M -> clean r) -> strip_epoch epoch_name M = M.
Proof.
  intros Hclean. unfold strip_epoch.
  destruct (String.eqb epoch_name ""); auto.
  destruct (dget epoch_name M) as [r|] eqn:G; auto.
  assert (Hc : clean r) by (apply (Hclean epoch_name); now apply dget_some_in).
  assert (E : forall val, is_standard val = true -> dmem val r = false).
  { intros val Hv. apply dmem_false_iff. now apply clean_not_standard. }
  unfold epoch_vals. simpl. rewrite !E by reflexivity. now apply dset_same.
Qed.

(** C2 (amended): for columns of numbers or of text, when no label of the
    caller's records is, in lower case, a label of the overlay or 'meta',
    every entry of those records is one the filter passes on as it is, and
    the type check is asked for no label of the overlay, removing the
    overlay after adding it gives back the caller's records. *)
Theorem remove_after_add (inst : Instrument) (M : mdict)
  (epoch_name : string) (check_type export_nan : option (list string)) :
  (forall k r, In (k, r) M -> clean r) ->
  (forall l, In l (default_list check_type) -> is_standard l = false) ->
  (forall var col, In (var, col) (data inst) ->
     plain_variable inst epoch_name check_type export_nan M var col) ->
  exists log M',
    add_netcdf4_standards_to_metadict inst M epoch_name check_type export_nan
    = (log, Ok M')
    /\ remove_netcdf4_standards_from_meta M' epoch_name = Ok M.
Proof.
  intros Hclean Hct Hp. unfold add_netcdf4_standards_to_metadict.
  destruct (@add_loop_plain inst epoch_name check_type export_nan M
              (data inst) Hclean Hct Hp M
              (@overlaid_start (default_list check_type) M Hclean))
    as (log & M' & E & F).
  exists log, M'. split; [exact E|].
  unfold remove_netcdf4_standards_from_meta.
  rewrite (@overlaid_back _ M M' Hclean F). now rewrite strip_epoch_clean.
Qed.

End OverlayFacts.

Section OverlayCases.
Import Standards Overlay Filter Reference Cases Sample.

Lemma remove_after_add_witness :
  exists log M',
    add_netcdf4_standards_to_metadict (with_mlt hours) hours "Epoch" None None
    = (log, Ok M')
    /\ remove_netcdf4_standards_from_meta M' "Epoch" = Ok hours.
Proof.
  apply (@remove_after_add interpreter (with_mlt hours) hours "Epoch"
           None None).
  - intros k r [[= <- <-]|[]]. split.
    + simpl. constructor; [intros []|constructor].
    + intros label [<-|[]]. reflexivity.
  - intros l [].
  - intros var col [[= <- <-]|[]] _.
    exists (EFloat [S754_zero false]), [("units", vstr "hours")], "f8".
    repeat split; reflexivity.
Defined.

(** C2 (as stated): a second column of times gets its units and its name
    from the overlay, and the removal leaves them; a NaN fill value of a
    column of numbers is dropped by the addition and not restored; and the
    removal deletes a label that is a label of the overlay in lower case
    only. *)
Lemma remove_after_add_changes_records :
  remove_add with_times seconds "Epoch" None None
  = Ok [("t2", [("units", vstr "Milliseconds since 1970-1-1 00:00:00");
                ("long_name", vstr "Epoch")])]
  /\ remove_add (with_mlt hours_nan_fill) hours_nan_fill "Epoch" None None
     = Ok hours
  /\ remove_netcdf4_standards_from_meta lower_case_format ""
     = Ok hours.
Proof. repeat split; vm_compute; reflexivity. Qed.

End OverlayCases.

(* ===================================================================== *)
(** * Writing a file and reading it back *)
(* ===================================================================== *)

Section WriteFacts.
Context {X : Externals}.
Import Write NetCDF Reference.








End WriteFacts.

Section ReadBackFacts.
Import NetCDF Read Reference Standards Translate Expander Compare.


Lemma bind_ok (A B : Type) (m : Eff A) (k : A -> Eff B)
  (log : list event) (b : B) :
  Py.bind m k = (log, Ok b) ->
  exists l1 a l2, m = (l1, Ok a) /\ k a = (l2, Ok b) /\ log = l1 ++ l2.
Proof.
  destruct m as [l1 [a|e]]; simpl; [|discriminate].
  destruct (k a) as [l2 r] eqn:K. intros H. injection H as <- ->.
  exists l1, a, l2. auto.
Qed.








Lemma map_pair_id (A B : Type) (l : list (A * B)) :
  map (fun kr => (fst kr, snd kr)) l = l.
Proof.
  induction l as [|[a b] l IH]; simpl; [reflexivity|now rewrite IH].
Qed.

Lemma strip_epoch_none (epoch_name : string) (d : mdict) :
  (forall k r, In (k, r) d ->
     forall label, In label (dkeys r) -> is_standard label = false) ->
  strip_epoch epoch_name d = d.
Proof.
  intros H. unfold strip_epoch.
  destruct (String.eqb epoch_name ""); auto.
  destruct (dget epoch_name d) as [r|] eqn:G; auto.
  assert (E : forall val, is_standard val = true -> dmem val r = false).
  { intros val Hv. apply dmem_false_iff. intros Hin.
    rewrite (H _ _ (dget_some_in _ _ G) val Hin) in Hv. discriminate. }
  unfold epoch_vals. simpl. rewrite !E by reflexivity. now apply dset_same.
Qed.




End ReadBackFacts.

Section RoundTripFacts.
Context {X : Externals}.
Import NetCDF Reference.

Lemma NoDup_dupdate (V : Type) (src d : list (string * V)) :
  NoDup (dkeys d) -> NoDup (dkeys (dupdate d src)).
Proof.
  unfold dupdate. revert d.
  induction src as [|[k v] src IH]; intros d H; simpl; auto.
  apply IH. now apply NoDup_dset.
Qed.






End RoundTripFacts.

(* ===================================================================== *)
(** * LabelTranslator, write direction, and back *)
(* ===================================================================== *)

Section TranslateToFacts.
Import Translate Reference.

Lemma translate_labels_to_cons table (L : string) (v : pyval)
  (rest out : record) :
  translate_labels_to table ((L, v) :: rest) out
  = translate_labels_to table rest
      (fold_left (fun acc t => dset t v acc) (targets table L) out).
Proof.
  unfold targets. cbn [translate_labels_to].
  destruct (dget L table); reflexivity.
Qed.

Lemma fold_dset_same_value_in (v : pyval) (ts : list string) :
  forall (out : record) (t : string) (x : pyval),
    In (t, x) (fold_left (fun acc t => dset t v acc) ts out) ->
    In (t, x) out \/ (In t ts /\ x = v).
Proof.
  induction ts as [|t0 ts IH]; intros out t x H; simpl in *; auto.
  destruct (IH _ _ _ H) as [Hin|[Hin ->]]; auto.
  apply in_dset in Hin. destruct Hin as [[-> ->]|Hin]; auto.
Qed.

Lemma fold_dset_same_value_keys (v : pyval) (ts : list string) :
  forall (out : record) (t : string),
    In t (dkeys out) \/ In t ts ->
    In t (dkeys (fold_left (fun acc t => dset t v acc) ts out)).
Proof.
  induction ts as [|t0 ts IH]; intros out t H; simpl in *; [tauto|].
  apply IH. rewrite dkeys_dset.
  destruct (dmem t0 out) eqn:M.
  - destruct H as [H|[<-|H]]; auto. left. now apply dmem_true_iff.
  - rewrite in_app_iff. simpl. tauto.
Qed.

Lemma fold_dset_same_value_nodup (v : pyval) (ts : list string) :
  forall out : record,
    NoDup (dkeys out) ->
    NoDup (dkeys (fold_left (fun acc t => dset t v acc) ts out)).
Proof.
  induction ts as [|t0 ts IH]; intros out H; simpl; auto.
  apply IH. now apply NoDup_dset.
Qed.

(** Every entry written comes from a label of the store that is written
    under its label. *)
Lemma translate_to_in table (items : record) :
  forall (out : record) (t : string) (x : pyval),
    In (t, x) (translate_labels_to table items out) ->
    In (t, x) out \/ exists L, In (L, x) items /\ In t (targets table L).
Proof.
  induction items as [|[L v] rest IH]; intros out t x H.
  - simpl in H. auto.
  - rewrite translate_labels_to_cons in H.
    destruct (IH _ _ _ H) as [Hin|(L' & Hin & Ht)].
    + apply fold_dset_same_value_in in Hin.
      destruct Hin as [Hin|[Hin ->]]; auto.
      right. exists L. simpl. auto.
    + right. exists L'. simpl. auto.
Qed.

Lemma translate_to_grows table (items : record) :
  forall (out : record) (t : string),
    In t (dkeys out) -> In t (dkeys (translate_labels_to table items out)).
Proof.
  induction items as [|[L v] rest IH]; intros out t H; [exact H|].
  rewrite translate_labels_to_cons. apply IH.
  apply fold_dset_same_value_keys. auto.
Qed.

(** Every label of the store is written under each of its labels. *)
Lemma translate_to_keys table (items : record) :
  forall (out : record) (L t : string),
    In L (dkeys items) -> In t (targets table L) ->
    In t (dkeys (translate_labels_to table items out)).
Proof.
  induction items as [|[L0 v] rest IH]; intros out L t HL Ht;
    [destruct HL|].
  rewrite translate_labels_to_cons. destruct HL as [<-|HL].
  - apply translate_to_grows. apply fold_dset_same_value_keys. auto.
  - eapply IH; eauto.
Qed.

Lemma translate_to_nodup table (items : record) :
  forall out : record,
    NoDup (dkeys out) ->
    NoDup (dkeys (translate_labels_to table items out)).
Proof.
  induction items as [|[L v] rest IH]; intros out H; [exact H|].
  rewrite translate_labels_to_cons. apply IH.
  now apply fold_dset_same_value_nodup.
Qed.




End TranslateToFacts.

(* ===================================================================== *)
(** * The round trip of the metadata *)
(* ===================================================================== *)

Section ExportFacts.
Context {X : Externals}.
Import Write NetCDF Reference Standards Overlay Translate Filter.


Lemma dkeys_dset_present (V : Type) (d : list (string * V)) (k : string)
  (v v' : V) :
  dget k d = Some v' -> dkeys (dset k v d) = dkeys d.
Proof.
  intros G. rewrite dkeys_dset. unfold dmem. now rewrite G.
Qed.




Lemma dupdate_nil (V : Type) (x : list (string * V)) :
  NoDup (dkeys x) -> dupdate [] x = x.
Proof.
  intros H. unfold dupdate.
  pose proof (@fold_dset_fresh _ _ (fun v : V => v) x [] H) as F.
  cbv zeta in F. rewrite F by (intros k _ []). simpl. apply map_pair_id.
Qed.

(** The record exported for a variable is the translation of the record
    the overlay returned. *)
Lemma translation_to_file_get (inst : Instrument) (added : mdict)
  (table : list (string * list string)) (k : string) :
  NoDup (dkeys added) ->
  dget k (apply_table_translation_to_file inst added (Some table))
  = option_map (fun r => translate_labels_to table r []) (dget k added).
Proof.
  intros H. unfold apply_table_translation_to_file.
  pose proof (@fold_dset_get _ _ (fun r => translate_labels_to table r [])
                added [] k H) as F.
  cbv zeta in F. rewrite F. destruct (dget k added); reflexivity.
Qed.









End ExportFacts.

Section RoundTripCases.
Import Write NetCDF Reference Cases Sample.



End RoundTripCases.

(* ===================================================================== *)
(** * Laws of the value filter *)
(* ===================================================================== *)

Section FilterLaws.
Context {X : Externals}.
Import Filter Reference Laws.

Lemma checked_entries_values coltype remove check_type (l : record) :
  forall log kept k v',
    checked_entries coltype remove check_type l = (log, Ok kept) ->
    In (k, v') kept ->
    exists v0,
      In (k, v0) l
      /\ (v' = coerce_bool v0
          \/ (mem k check_type = true /\ remove = false
              /\ construct coltype (coerce_bool v0) = Ok v')).
Proof.
  induction l as [|[key v0] rest IH]; intros log kept k v' E Hin.
  - inversion E; subst. destruct Hin.
  - assert (Hskip : forall log0,
              checked_entries coltype remove check_type rest = (log0, Ok kept) ->
              exists v1,
                In (k, v1) ((key, v0) :: rest)
                /\ (v' = coerce_bool v1
                    \/ (mem k check_type = true /\ remove = false
                        /\ construct coltype (coerce_bool v1) = Ok v'))).
    { intros log0 E0. destruct (IH _ _ _ _ E0 Hin) as [v1 [H1 H2]].
      exists v1. split; [now right|assumption]. }
    assert (Hkeep : forall v log0,
              (v = coerce_bool v0
               \/ (mem key check_type = true /\ remove = false
                   /\ construct coltype (coerce_bool v0) = Ok v)) ->
              (kept0 <- checked_entries coltype remove check_type rest ;;
               ret ((key, v) :: kept0)) = (log0, Ok kept) ->
              exists v1,
                In (k, v1) ((key, v0) :: rest)
                /\ (v' = coerce_bool v1
                    \/ (mem k check_type = true /\ remove = false
                        /\ construct coltype (coerce_bool v1) = Ok v'))).
    { intros v log0 Hv E0.
      destruct (checked_entries coltype remove check_type rest)
        as [l1 [kept1|e]] eqn:E1; simpl in E0; [|discriminate].
      inversion E0; subst. destruct Hin as [Hin|Hin].
      - inversion Hin; subst. exists v0. split; [now left|assumption].
      - destruct (IH _ _ _ _ eq_refl Hin) as [v1 [H1 H2]].
        exists v1. split; [now right|assumption]. }
    assert (Hwarn : forall ev log0,
              (emit ev ;;; checked_entries coltype remove check_type rest)
              = (log0, Ok kept) ->
              exists v1,
                In (k, v1) ((key, v0) :: rest)
                /\ (v' = coerce_bool v1
                    \/ (mem k check_type = true /\ remove = false
                        /\ construct coltype (coerce_bool v1) = Ok v'))).
    { intros ev log0.
      destruct (checked_entries coltype remove check_type rest)
        as [l1 [kept1|e1]] eqn:E1; simpl; [|discriminate].
      intros [= <- <-]. now apply (Hskip l1). }
    revert E. cbn [checked_entries].
    destruct (coerce_bool v0) as [[| b | np z | np f | s] | a | m] eqn:Ec;
      try (now apply Hskip);
      (destruct (mem key check_type) eqn:Em; cbn [andb];
       [ destruct (negb (isinstance _ coltype)) eqn:Ei;
         [ destruct remove eqn:Er; [now apply Hskip|];
           destruct (construct coltype _) as [v2|e] eqn:Ek;
           [ apply Hkeep; right; auto
           | destruct e; try discriminate; apply Hwarn ]
         | apply Hkeep; left; reflexivity ]
       | apply Hkeep; left; reflexivity ]).
Qed.

(** X1: every entry the filter returns comes from an entry of the input
    under the same label: its value is the input value (a boolean as an
    integer), or, for a label of [check_type] with [remove] off, the
    input value cast to the type of the column. *)
Theorem filter_values_come_from_input (d d' : record) (coltype : coltype_arg)
  (remove : bool) (check_type export_nan : option (list string))
  (k : string) (v' : pyval) :
  NoDup (dkeys d) ->
  outcome (filter_netcdf4_metadata d coltype remove check_type export_nan)
  = Ok d' ->
  In (k, v') d' ->
  exists v0,
    In (k, v0) d
    /\ (v' = coerce_bool v0
        \/ (mem k (default_list check_type) = true /\ remove = false
            /\ construct (resolve_coltype coltype) (coerce_bool v0) = Ok v')).
Proof.
  intros Hnd Hout Hin.
  rewrite filter_refines in Hout by assumption.
  unfold filtered in Hout.
  destruct (first_escape d); [discriminate|].
  destruct (checked_entries _ _ _ _) as [log [kept|e]] eqn:E;
    simpl in Hout; [|discriminate].
  inversion Hout; subst kept.
  destruct (@checked_entries_values _ _ _ _ _ _ _ _ E Hin) as [v0 [H1 H2]].
  exists v0. split; [|assumption].
  apply filter_In in H1. tauto.
Qed.

Lemma checked_entries_get coltype remove check_type (l : record) :
  forall log kept k,
    NoDup (dkeys l) ->
    checked_entries coltype remove check_type l = (log, Ok kept) ->
    dget k kept
    = match dget k l with
      | Some v0 => checked_value coltype remove check_type k v0
      | None => None
      end.
Proof.
  induction l as [|[key v0] rest IH]; intros log kept k Hnd E.
  - inversion E; subst. reflexivity.
  - simpl in Hnd. inversion Hnd as [|? ? Hk Hnd']; subst.
    set (G := dget k kept
              = match dget k ((key, v0) :: rest) with
                | Some v1 => checked_value coltype remove check_type k v1
                | None => None
                end).
    assert (Hskip : forall log0,
              checked_entries coltype remove check_type rest = (log0, Ok kept) ->
              checked_value coltype remove check_type key v0 = None -> G).
    { intros log0 E0 Hc. unfold G. rewrite (IH _ _ k Hnd' E0). cbn [dget].
      destruct (String.eqb key k) eqn:Ek; [|reflexivity].
      apply String.eqb_eq in Ek. subst k. rewrite Hc.
      assert (Hn : dget key rest = None) by now apply dget_none_iff.
      now rewrite Hn. }
    assert (Hkeep : forall v log0,
              (kept0 <- checked_entries coltype remove check_type rest ;;
               ret ((key, v) :: kept0)) = (log0, Ok kept) ->
              checked_value coltype remove check_type key v0 = Some v -> G).
    { intros v log0 E0 Hc. unfold G.
      destruct (checked_entries coltype remove check_type rest)
        as [l1 [kept1|e]] eqn:E1; simpl in E0; [|discriminate].
      inversion E0; subst. cbn [dget].
      destruct (String.eqb key k) eqn:Ek.
      - apply String.eqb_eq in Ek. subst k. now rewrite Hc.
      - apply (IH _ _ k Hnd' eq_refl). }
    assert (Hwarn : forall ev log0,
              (emit ev ;;; checked_entries coltype remove check_type rest)
              = (log0, Ok kept) ->
              checked_value coltype remove check_type key v0 = None -> G).
    { intros ev log0.
      destruct (checked_entries coltype remove check_type rest)
        as [l1 [kept1|e1]] eqn:E1; simpl; [|discriminate].
      intros [= <- <-]. now apply (Hskip l1). }
    fold G. clearbody G. revert E. cbn [checked_entries].
    destruct (coerce_bool v0) as [[| b | np z | np f | s] | a | m] eqn:Ec;
      try (now intros E; apply (Hskip _ E); unfold checked_value; rewrite Ec);
      (destruct (mem key check_type) eqn:Em; cbn [andb];
       [ destruct (negb (isinstance _ coltype)) eqn:Ei;
         [ destruct remove eqn:Er;
           [ now intros E; apply (Hskip _ E); unfold checked_value;
             rewrite Ec, Em; cbn [andb]; rewrite Ei
           | destruct (construct coltype _) as [v2|e] eqn:Ek;
             [ intros E; apply (Hkeep _ _ E); unfold checked_value;
               rewrite Ec, Em; cbn [andb]; rewrite Ei, Ek; reflexivity
             | destruct e; try discriminate;
               intros E; apply (Hwarn _ _ E); unfold checked_value;
               rewrite Ec, Em; cbn [andb]; rewrite Ei, Ek; reflexivity ] ]
         | intros E; apply (Hkeep _ _ E); unfold checked_value;
           rewrite Ec, Em; cbn [andb]; rewrite Ei; reflexivity ]
       | intros E; apply (Hkeep _ _ E); unfold checked_value;
         rewrite Ec, Em; reflexivity ]).
Qed.

Lemma dget_filter (V : Type) (f : string * V -> bool) (d : list (string * V))
  (k : string) :
  NoDup (dkeys d) ->
  dget k (filter f d)
  = match dget k d with
    | Some v => if f (k, v) then Some v else None
    | None => None
    end.
Proof.
  induction d as [|[k' v'] d IH]; intros Hnd; [reflexivity|].
  simpl in Hnd. inversion Hnd as [|? ? Hk Hnd']; subst.
  simpl. destruct (String.eqb k' k) eqn:Ek.
  - apply String.eqb_eq in Ek. subst k'.
    destruct (f (k, v')); simpl.
    + now rewrite String.eqb_refl.
    + rewrite (IH Hnd'). 
      assert (Hn : dget k d = None) by now apply dget_none_iff.
      now rewrite Hn.
  - destruct (f (k', v')); simpl; [rewrite Ek|]; apply (IH Hnd').
Qed.

(** X2: the filter works label by label.  When it returns, what it holds
    under a label depends on the entry of the input under that label alone:
    nothing if the value is NaN and the label is not in [export_nan], and
    otherwise what the type check makes of the value (a boolean as an
    integer, [None] dropped, a mismatch under a label of [check_type]
    dropped or cast). *)
Theorem filter_is_pointwise (d d' : record) (coltype : coltype_arg)
  (remove : bool) (check_type export_nan : option (list string))
  (k : string) :
  NoDup (dkeys d) ->
  outcome (filter_netcdf4_metadata d coltype remove check_type export_nan)
  = Ok d' ->
  dget k d'
  = match dget k d with
    | Some v0 => filtered_value coltype remove check_type export_nan k v0
    | None => None
    end.
Proof.
  intros Hnd Hout.
  rewrite filter_refines in Hout by assumption.
  unfold filtered in Hout.
  destruct (first_escape d); [discriminate|].
  destruct (checked_entries _ _ _ _) as [log [kept|e]] eqn:E;
    simpl in Hout; [|discriminate].
  inversion Hout; subst kept.
  rewrite (@checked_entries_get _ _ _ _ _ _ k
             (@NoDup_dkeys_filter _ _ _ Hnd) E).
  rewrite dget_filter by assumption.
  unfold filtered_value.
  destruct (dget k d) as [v0|]; [|reflexivity].
  destruct (nan_dropped _ (k, v0)); reflexivity.
Qed.

(** X3: a boolean under a label that is not type-checked comes out of the
    filter as the integer 0 or 1. *)
Theorem filter_stores_booleans_as_integers (d d' : record)
  (coltype : coltype_arg) (remove : bool)
  (check_type export_nan : option (list string)) (k : string) (b : bool) :
  NoDup (dkeys d) ->
  outcome (filter_netcdf4_metadata d coltype remove check_type export_nan)
  = Ok d' ->
  In (k, VS (SBool b)) d ->
  mem k (default_list check_type) = false ->
  dget k d' = Some (vint (Z.b2z b)).
Proof.
  intros Hnd Hout Hin Hm.
  rewrite filter_refines in Hout by assumption.
  unfold filtered in Hout.
  destruct (first_escape d); [discriminate|].
  destruct (checked_entries _ _ _ _) as [log [kept|e]] eqn:E;
    simpl in Hout; [|discriminate].
  inversion Hout; subst kept.
  rewrite (@checked_entries_get _ _ _ _ _ _ k
             (@NoDup_dkeys_filter _ _ _ Hnd) E).
  rewrite dget_filter by assumption.
  rewrite (in_dget _ _ _ Hnd Hin).
  unfold nan_dropped, checked_value. simpl. now rewrite Hm.
Qed.


Lemma scalar_no_escape (k : string) (v : pyval) :
  is_scalar v = true -> nan_escapes (k, v) = None.
Proof.
  destruct v as [s|l|m]; try discriminate. intros _.
  unfold nan_escapes. simpl.
  destruct s as [| b | [|] z | np f | t]; simpl; try reflexivity.
  match goal with
  | |- context [if ?c then _ else _] => destruct c
  end; reflexivity.
Qed.



Lemma long_array_escapes (k : string) (v : pyval) :
  long_numeric_array v = true -> nan_escapes (k, v) = Some ValueError.
Proof.
  destruct v as [s|l|m]; try discriminate. simpl.
  intros H. apply andb_true_iff in H. destruct H as [Hl Hn].
  unfold nan_escapes. simpl. rewrite Hn.
  destruct l as [|x [|y l]]; try discriminate. reflexivity.
Qed.

(** X5: a numeric array of two elements or more among scalars makes the
    filter raise [ValueError]: the truth value of [np.isnan] of such an
    array is ambiguous, and the first pass catches [TypeError] only. *)
Theorem filter_numeric_array_raises (d : record) (coltype : coltype_arg)
  (remove : bool) (check_type export_nan : option (list string))
  (k : string) (v : pyval) :
  NoDup (dkeys d) ->
  (forall k' v', In (k', v') d ->
     is_scalar v' || long_numeric_array v' = true) ->
  In (k, v) d ->
  long_numeric_array v = true ->
  filter_netcdf4_metadata d coltype remove check_type export_nan
  = ([], Raise ValueError).
Proof.
  intros Hnd Hall Hin Hv. rewrite filter_refines by assumption.
  unfold filtered.
  assert (He : first_escape d = Some ValueError).
  { clear Hnd. induction d as [|[k' v'] d IH]; [destruct Hin|].
    cbn [first_escape].
    destruct (orb_prop _ _ (Hall k' v' (or_introl eq_refl))) as [H|H].
    - rewrite (scalar_no_escape k' _ H).
      destruct Hin as [Hin|Hin].
      + inversion Hin; subst. destruct v; discriminate.
      + apply IH; [|assumption]. intros k2 v2 H2. apply (Hall k2 v2).
        now right.
    - now rewrite (long_array_escapes k' _ H). }
  now rewrite He.
Qed.

End FilterLaws.

Ltac nodup_keys := simpl; repeat constructor; simpl; intuition discriminate.

Section FilterLawCases.
Import Filter Reference Laws Inputs Sample.

Lemma filter_values_come_from_input_witness :
  exists v0,
    In ("flag", v0) mixed_record
    /\ (vint 1 = coerce_bool v0
        \/ (mem "flag" (default_list None) = true /\ false = false
            /\ construct (resolve_coltype (AType TNpFloat64)) (coerce_bool v0)
               = Ok (vint 1))).
Proof.
  apply (@filter_values_come_from_input interpreter mixed_record
           mixed_filtered (AType TNpFloat64) false None None "flag" (vint 1)).
  - nodup_keys.
  - reflexivity.
  - simpl. auto.
Defined.

Lemma filter_is_pointwise_witness :
  dget "fill" mixed_filtered
  = match dget "fill" mixed_record with
    | Some v0 => filtered_value (AType TNpFloat64) false None None "fill" v0
    | None => None
    end.
Proof.
  apply (@filter_is_pointwise interpreter mixed_record mixed_filtered
           (AType TNpFloat64) false None None "fill").
  - nodup_keys.
  - reflexivity.
Defined.

Lemma filter_stores_booleans_as_integers_witness :
  dget "flag" mixed_filtered = Some (vint (Z.b2z true)).
Proof.
  apply (@filter_stores_booleans_as_integers interpreter mixed_record
           mixed_filtered (AType TNpFloat64) false None None "flag" true).
  - nodup_keys.
  - reflexivity.
  - simpl. auto.
  - reflexivity.
Defined.


Lemma filter_numeric_array_raises_witness :
  filter_netcdf4_metadata with_range (AType TNpFloat64) false None None
  = ([], Raise ValueError).
Proof.
  apply (@filter_numeric_array_raises interpreter with_range
           (AType TNpFloat64) false None None "valid_range"
           (VArr [SFloat true (S754_zero false);
                  SFloat true (S754_infinity false)])).
  - nodup_keys.
  - intros k v Hin. simpl in Hin.
    repeat match type of Hin with
           | _ \/ _ => destruct Hin as [Hin|Hin]
           | False => destruct Hin
           end; inversion Hin; reflexivity.
  - simpl. auto.
  - reflexivity.
Defined.

Lemma filter_drops_none_and_nan_witness :
  dget "fill" mixed_filtered = None.
Proof.
  apply (@filter_drops_none_and_nan interpreter mixed_record mixed_filtered
           (AType TNpFloat64) false None None "fill" vnan).
  - nodup_keys.
  - reflexivity.
  - simpl. auto.
  - right. split; [reflexivity|]. intros [].
Defined.

End FilterLawCases.

(* ===================================================================== *)
(** * Laws of the removal of the standards overlay *)
(* ===================================================================== *)

Section RemovalLaws.
Import Standards Reference Laws.

Lemma without_standards_twice (r : record) :
  without_standards (without_standards r) = without_standards r.
Proof.
  unfold without_standards. rewrite filter_twice.
  apply filter_ext. intros kv. now destruct (negb (is_standard (fst kv))).
Qed.

Lemma has_meta_label_filter (f : string * pyval -> bool) (r : record) :
  has_meta_label r = false -> has_meta_label (filter f r) = false.
Proof.
  unfold has_meta_label. intros H.
  apply mem_false_iff. intros Hin.
  apply mem_false_iff in H. apply H.
  apply in_map_iff in Hin. destruct Hin as [k [Hk Hin]].
  apply in_map_iff. exists k. split; [assumption|].
  eapply dkeys_filter_incl; eauto.
Qed.

Lemma without_standards_labels (r : record) (label : string) :
  In label (dkeys (without_standards r)) -> is_standard label = false.
Proof.
  unfold without_standards, dkeys. intros Hin.
  apply in_map_iff in Hin. destruct Hin as [[k v] [<- Hin]].
  apply filter_In in Hin. destruct Hin as [_ H]. simpl in *.
  now destruct (is_standard k).
Qed.

(** X6: on records without a nested set, the removal deletes exactly the
    labels that spell a label of the overlay in any case and keeps every
    other label, with its value and in its place; the name of the time
    variable makes no difference. *)
Theorem removal_deletes_standard_labels (d : mdict) (epoch_name : string) :
  (forall k r, In (k, r) d -> NoDup (dkeys r) /\ has_meta_label r = false) ->
  remove_netcdf4_standards_from_meta d epoch_name
  = Ok (map (fun kr => (fst kr, without_standards (snd kr))) d).
Proof.
  intros Hflat. unfold remove_netcdf4_standards_from_meta.
  rewrite remove_vars_flat by assumption.
  rewrite strip_epoch_none; [reflexivity|].
  intros k r Hin label Hl.
  apply in_map_iff in Hin. destruct Hin as [[k0 r0] [E _]].
  inversion E; subst. now apply (without_standards_labels r0).
Qed.

(** X7: on records without a nested set the removal is idempotent, also
    when the second call names another time variable. *)
Theorem removal_is_idempotent (d : mdict) (epoch_name epoch_name' : string) :
  (forall k r, In (k, r) d -> NoDup (dkeys r) /\ has_meta_label r = false) ->
  exists d',
    remove_netcdf4_standards_from_meta d epoch_name = Ok d'
    /\ remove_netcdf4_standards_from_meta d' epoch_name' = Ok d'.
Proof.
  intros Hflat.
  exists (map (fun kr => (fst kr, without_standards (snd kr))) d).
  split.
  - unfold remove_netcdf4_standards_from_meta.
    rewrite remove_vars_flat by assumption.
    rewrite strip_epoch_none; [reflexivity|].
    intros k r Hin label Hl.
    apply in_map_iff in Hin. destruct Hin as [[k0 r0] [E _]].
    inversion E; subst. now apply (without_standards_labels r0).
  - unfold remove_netcdf4_standards_from_meta.
    rewrite remove_vars_flat.
    + rewrite map_map. simpl.
      rewrite strip_epoch_none.
      * f_equal. apply map_ext. intros [k r]. simpl.
        now rewrite without_standards_twice.
      * intros k r Hin label Hl.
        apply in_map_iff in Hin. destruct Hin as [[k0 r0] [E _]].
        simpl in E. inversion E; subst.
        rewrite without_standards_twice in Hl.
        now apply (without_standards_labels r0).
    + intros k r Hin.
      apply in_map_iff in Hin. destruct Hin as [[k0 r0] [E Hin]].
      inversion E; subst. simpl.
      destruct (Hflat _ _ Hin) as [Hnd Hm]. split.
      * now apply NoDup_dkeys_filter.
      * now apply has_meta_label_filter.
Qed.

Lemma set_meta_missing (self : pyval -> result pyval) (r : record) :
  dget "meta" r = None -> set_meta self r = Raise KeyError.
Proof.
  induction r as [|[k v] r IH]; [reflexivity|].
  simpl. destruct (String.eqb k "meta"); [discriminate|].
  intros H. now rewrite (IH H).
Qed.

(** X8: a record whose nested set sits under a label that spells ['meta']
    in another case, with no label ['meta'] itself, makes the removal
    raise [KeyError]: the test ignores case and the access does not. *)
Theorem removal_needs_meta_spelled_exactly (d1 d2 : mdict) (key : string)
  (r : record) (epoch_name : string) :
  (forall k r', In (k, r') d1 -> has_meta_label r' = false) ->
  has_meta_label r = true ->
  dget "meta" r = None ->
  remove_netcdf4_standards_from_meta (d1 ++ (key, r) :: d2) epoch_name
  = Raise KeyError.
Proof.
  intros Hflat Hm Hg. unfold remove_netcdf4_standards_from_meta.
  assert (E : remove_vars remove_nested (d1 ++ (key, r) :: d2)
              = Raise KeyError).
  { induction d1 as [|[k0 r0] d1 IH].
    - cbn [app remove_vars]. unfold has_meta_label in Hm. rewrite Hm.
      now rewrite set_meta_missing.
    - cbn [app remove_vars].
      assert (H0 : has_meta_label r0 = false)
        by (apply (Hflat k0); now left).
      unfold has_meta_label in H0. rewrite H0.
      rewrite IH; [reflexivity|].
      intros k r' Hin. apply (Hflat k). now right. }
  now rewrite E.
Qed.

End RemovalLaws.

Section RemovalLawCases.
Import Standards Reference Laws Inputs Sample.

Lemma removal_deletes_standard_labels_witness :
  remove_netcdf4_standards_from_meta overlaid_hours "Epoch"
  = Ok (map (fun kr => (fst kr, without_standards (snd kr))) overlaid_hours).
Proof.
  apply (@removal_deletes_standard_labels overlaid_hours "Epoch").
  intros k r [[= <- <-]|[]]. split; [nodup_keys|reflexivity].
Defined.

Lemma removal_is_idempotent_witness :
  exists d',
    remove_netcdf4_standards_from_meta overlaid_hours "Epoch" = Ok d'
    /\ remove_netcdf4_standards_from_meta d' "" = Ok d'.
Proof.
  apply (@removal_is_idempotent overlaid_hours "Epoch" "").
  intros k r [[= <- <-]|[]]. split; [nodup_keys|reflexivity].
Defined.

Lemma removal_needs_meta_spelled_exactly_witness :
  remove_netcdf4_standards_from_meta misspelled_meta "Epoch" = Raise KeyError.
Proof.
  apply (@removal_needs_meta_spelled_exactly
           [("mlt", [("units", vstr "hours")])] []
           "profiles" [("units", vstr "m"); ("META", VMeta [])] "Epoch").
  - intros k r [[= <- <-]|[]]. reflexivity.
  - reflexivity.
  - reflexivity.
Defined.

End RemovalLawCases.

(* ===================================================================== *)
(** * Laws of the metadata of the time variable *)
(* ===================================================================== *)

Section EpochLaws.
Import Standards Reference Laws.

Lemma time_dict_fixed (idx : list Z) (k : string) :
  k <> "MonoTon" ->
  dget k (time_dict idx)
  = dget k [("calendar", vstr "standard"); ("Format", vstr "i8");
            ("Var_Type", vstr "data"); ("Time_Base", vstr epoch_label);
            ("Time_Scale", vstr "UTC")].
Proof.
  intros Hk. unfold time_dict.
  destruct (is_monotonic_increasing idx);
    [|destruct (is_monotonic_decreasing idx)];
    try reflexivity; now rewrite dget_dset_other by congruence.
Qed.

(** X9: the five time standards of the metadata of the time variable are
    the codec's own: whatever the metadata of the instrument holds under
    these labels, the result holds the calendar, the format, the variable
    type, the time base and the time scale of the codec. *)
Theorem epoch_metadata_time_standards (inst : Instrument)
  (epoch_name : string) (r : record) :
  return_epoch_metadata inst epoch_name = Ok r ->
  dget "calendar" r = Some (vstr "standard")
  /\ dget "Format" r = Some (vstr "i8")
  /\ dget "Var_Type" r = Some (vstr "data")
  /\ dget "Time_Base" r = Some (vstr "Milliseconds since 1970-1-1 00:00:00")
  /\ dget "Time_Scale" r = Some (vstr "UTC").
Proof.
  unfold return_epoch_metadata.
  destruct (fill_basic_labels _ _) as [nd|e]; [|discriminate].
  intros [= <-].
  repeat split;
    rewrite dget_dupdate by apply time_dict_keys;
    rewrite time_dict_fixed by discriminate; reflexivity.
Qed.

Lemma py_len_type_error (v : pyval) (e : exn) :
  py_len v = Raise e -> e = TypeError.
Proof.
  destruct v as [[| b | np z | np f | s] | l | m]; simpl; congruence.
Qed.

Lemma fill_basic_labels_rejects (L : string) (v : pyval)
  (basic_labels : list string) :
  forall new_dict,
    In L basic_labels ->
    dget L new_dict = Some v ->
    no_length v = true ->
    fill_basic_labels basic_labels new_dict = Raise TypeError.
Proof.
  induction basic_labels as [|label rest IH]; intros nd Hin Hg Hv;
    [destruct Hin|].
  cbn [fill_basic_labels].
  destruct (String.eqb label L) eqn:El.
  - apply String.eqb_eq in El. subst label. rewrite Hg.
    unfold no_length in Hv.
    destruct (py_len v) as [n|e] eqn:Ep; [discriminate|].
    now rewrite (py_len_type_error _ Ep).
  - apply String.eqb_neq in El.
    destruct Hin as [Hin|Hin]; [congruence|].
    destruct (dget label nd) as [v0|] eqn:E0.
    + destruct (py_len v0) as [n|e] eqn:Ep.
      * apply IH; try assumption.
        destruct (Nat.eqb n 0); [|assumption].
        now rewrite dget_dset_other.
      * now rewrite (py_len_type_error _ Ep).
    + apply IH; try assumption. now rewrite dget_dset_other.
Qed.

(** X10: a number, a boolean or [None] under the units, the
    description or the notes of the time variable makes the writer raise
    [TypeError]: the test for an empty text takes the length of the
    value. *)
Theorem epoch_metadata_rejects_non_text (inst : Instrument)
  (epoch_name L : string) (v : pyval) :
  In L [l_units (labels inst); l_desc (labels inst); l_notes (labels inst)] ->
  dget L (stored_epoch_record inst epoch_name) = Some v ->
  no_length v = true ->
  return_epoch_metadata inst epoch_name = Raise TypeError.
Proof.
  intros Hin Hg Hv. unfold return_epoch_metadata.
  fold (stored_epoch_record inst epoch_name).
  now rewrite (@fill_basic_labels_rejects L v _ _ Hin Hg Hv).
Qed.

Lemma filled_epoch_label : filled (vstr epoch_label) = true.
Proof. reflexivity. Qed.

Lemma fill_basic_labels_get (basic_labels : list string) :
  forall new_dict r L,
    fill_basic_labels basic_labels new_dict = Ok r ->
    dget L r
    = if mem L basic_labels then
        Some (match dget L new_dict with
              | Some v => if filled v then v else vstr epoch_label
              | None => vstr epoch_label
              end)
      else dget L new_dict.
Proof.
  induction basic_labels as [|label rest IH]; intros nd r L E.
  - inversion E; subst. reflexivity.
  - cbn [fill_basic_labels] in E.
    assert (Hnext : forall nd',
              fill_basic_labels rest nd' = Ok r ->
              (label <> L -> dget L nd' = dget L nd) ->
              (label = L ->
               dget L nd'
               = Some (match dget L nd with
                       | Some v => if filled v then v else vstr epoch_label
                       | None => vstr epoch_label
                       end)
               /\ filled (match dget L nd with
                          | Some v => if filled v then v else vstr epoch_label
                          | None => vstr epoch_label
                          end) = true) ->
              dget L r
              = (if mem L (label :: rest) then
                   Some (match dget L nd with
                         | Some v => if filled v then v else vstr epoch_label
                         | None => vstr epoch_label
                         end)
                 else dget L nd)).
    { intros nd' E' Hother Hsame.
      rewrite (IH _ _ L E'). unfold mem. cbn [existsb].
      fold (mem L rest).
      destruct (String.eqb L label) eqn:El.
      - apply String.eqb_eq in El. subst label.
        destruct (Hsame eq_refl) as [Hg Hf]. rewrite Hg. cbn [orb].
        rewrite Hf. now destruct (mem L rest).
      - apply String.eqb_neq in El. cbn [orb].
        rewrite Hother by congruence. reflexivity. }
    destruct (dget label nd) as [v0|] eqn:E0.
    + destruct (py_len v0) as [n|e] eqn:Ep; [|discriminate].
      apply (Hnext _ E).
      * intros Hne. destruct (Nat.eqb n 0); [|reflexivity].
        now rewrite dget_dset_other.
      * intros ->. rewrite E0. unfold filled at 1 3. rewrite Ep.
        destruct n as [|n]; simpl.
        -- rewrite dget_dset_same. now split.
        -- split; [assumption|]. unfold filled. now rewrite Ep.
    + apply (Hnext _ E).
      * intros Hne. now rewrite dget_dset_other.
      * intros ->. rewrite E0, dget_dset_same. now split.
Qed.

(** X11: the units, the description and the notes of the time variable
    are kept when the metadata holds a text that is not empty, and are the
    codec's own text otherwise, provided the label is not the label of the
    name and not a label of the time standards. *)
Theorem epoch_metadata_keeps_text (inst : Instrument) (epoch_name L : string)
  (r : record) :
  return_epoch_metadata inst epoch_name = Ok r ->
  In L [l_units (labels inst); l_desc (labels inst); l_notes (labels inst)] ->
  L <> l_name (labels inst) ->
  dget L (time_dict (index inst)) = None ->
  dget L r
  = Some (match dget L (stored_epoch_record inst epoch_name) with
          | Some v =>
              if filled v then v
              else vstr "Milliseconds since 1970-1-1 00:00:00"
          | None => vstr "Milliseconds since 1970-1-1 00:00:00"
          end).
Proof.
  unfold return_epoch_metadata.
  fold (stored_epoch_record inst epoch_name).
  destruct (fill_basic_labels _ _) as [nd|e] eqn:E; [|discriminate].
  intros [= <-] Hin Hname Htime.
  rewrite dget_dupdate by apply time_dict_keys. rewrite Htime.
  rewrite dget_dset_other by congruence.
  rewrite (fill_basic_labels_get _ _ L E).
  apply mem_true_iff in Hin. now rewrite Hin.
Qed.

End EpochLaws.

Section EpochLawCases.
Import Standards Reference Laws Inputs Sample.

Lemma epoch_metadata_time_standards_witness :
  dget "calendar"
    (dupdate [("units", vstr epoch_label);
              ("notes", vstr "UTC, from the GPS receiver");
              ("desc", vstr epoch_label); ("long_name", vstr "Epoch")]
       (time_dict [0; 1000000]))
  = Some (vstr "standard")
  /\ dget "Format"
       (dupdate [("units", vstr epoch_label);
                 ("notes", vstr "UTC, from the GPS receiver");
                 ("desc", vstr epoch_label); ("long_name", vstr "Epoch")]
          (time_dict [0; 1000000]))
     = Some (vstr "i8")
  /\ dget "Var_Type"
       (dupdate [("units", vstr epoch_label);
                 ("notes", vstr "UTC, from the GPS receiver");
                 ("desc", vstr epoch_label); ("long_name", vstr "Epoch")]
          (time_dict [0; 1000000]))
     = Some (vstr "data")
  /\ dget "Time_Base"
       (dupdate [("units", vstr epoch_label);
                 ("notes", vstr "UTC, from the GPS receiver");
                 ("desc", vstr epoch_label); ("long_name", vstr "Epoch")]
          (time_dict [0; 1000000]))
     = Some (vstr "Milliseconds since 1970-1-1 00:00:00")
  /\ dget "Time_Scale"
       (dupdate [("units", vstr epoch_label);
                 ("notes", vstr "UTC, from the GPS receiver");
                 ("desc", vstr epoch_label); ("long_name", vstr "Epoch")]
          (time_dict [0; 1000000]))
     = Some (vstr "UTC").
Proof.
  apply (@epoch_metadata_time_standards (timed epoch_notes) "Epoch").
  reflexivity.
Defined.

Lemma epoch_metadata_rejects_non_text_witness :
  return_epoch_metadata (timed epoch_numbers) "Epoch" = Raise TypeError.
Proof.
  apply (@epoch_metadata_rejects_non_text (timed epoch_numbers) "Epoch"
           "notes" vnan).
  - simpl. auto.
  - reflexivity.
  - reflexivity.
Defined.

Lemma epoch_metadata_keeps_text_witness :
  dget "notes"
    (dupdate [("units", vstr epoch_label);
              ("notes", vstr "UTC, from the GPS receiver");
              ("desc", vstr epoch_label); ("long_name", vstr "Epoch")]
       (time_dict [0; 1000000]))
  = Some (match dget "notes" (stored_epoch_record (timed epoch_notes) "Epoch")
          with
          | Some v =>
              if filled v then v
              else vstr "Milliseconds since 1970-1-1 00:00:00"
          | None => vstr "Milliseconds since 1970-1-1 00:00:00"
          end).
Proof.
  apply (@epoch_metadata_keeps_text (timed epoch_notes) "Epoch" "notes").
  - reflexivity.
  - simpl. auto.
  - discriminate.
  - reflexivity.
Defined.

End EpochLawCases.

(* ===================================================================== *)
(** * Laws of the translation of labels *)
(* ===================================================================== *)

Section TranslationLaws.
Import Translate Reference Laws.

(** X12: the write translation invents nothing and loses nothing: every
    entry of the record written for a variable holds the value of a label
    of the store that is written under that name, every label of the store
    is found under each of the names it is written under, and no name
    appears twice. *)
Theorem translation_to_file_is_faithful (inst : Instrument) (d : mdict)
  (trans_table : option (list (string * list string))) (var : string)
  (r : record) :
  NoDup (dkeys d) ->
  dget var d = Some r ->
  exists r',
    dget var (apply_table_translation_to_file inst d trans_table) = Some r'
    /\ NoDup (dkeys r')
    /\ (forall t x, In (t, x) r' ->
          exists L, In (L, x) r /\ In t (targets (to_table inst trans_table) L))
    /\ (forall L t, In L (dkeys r) ->
          In t (targets (to_table inst trans_table) L) -> In t (dkeys r')).
Proof.
  intros Hnd Hg.
  exists (translate_labels_to (to_table inst trans_table) r []).
  split.
  - change (apply_table_translation_to_file inst d trans_table)
      with (apply_table_translation_to_file inst d
              (Some (to_table inst trans_table))).
    rewrite translation_to_file_get by assumption. now rewrite Hg.
  - split; [|split].
    + apply translate_to_nodup. constructor.
    + intros t x Hin.
      destruct (translate_to_in _ _ _ _ _ Hin) as [[]|H]. exact H.
    + intros L t HL Ht. now apply (translate_to_keys _ _ [] L).
Qed.

Lemma fold_same_get (v : pyval) (ts : list string) :
  forall (out : record) (t : string),
    dget t (fold_left (fun acc t => dset t v acc) ts out)
    = if mem t ts then Some v else dget t out.
Proof.
  induction ts as [|a ts IH]; intros out t; [reflexivity|].
  cbn [fold_left]. rewrite IH. unfold mem. cbn [existsb].
  fold (mem t ts).
  destruct (String.eqb t a) eqn:E; cbn [orb].
  - apply String.eqb_eq in E. subst a. rewrite dget_dset_same.
    now destruct (mem t ts).
  - apply String.eqb_neq in E. rewrite dget_dset_other by congruence.
    reflexivity.
Qed.

Lemma translate_to_untouched table (t : string) (r : record) :
  forall out : record,
    (forall L, In L (dkeys r) -> mem t (targets table L) = false) ->
    dget t (translate_labels_to table r out) = dget t out.
Proof.
  induction r as [|[L v] r IH]; intros out H; [reflexivity|].
  rewrite translate_labels_to_cons. rewrite IH.
  - rewrite fold_same_get. now rewrite (H L (or_introl eq_refl)).
  - intros L' HL'. apply H. now right.
Qed.

Lemma translate_to_get_unique table (t L : string) (v : pyval) (r : record) :
  forall out : record,
    NoDup (dkeys r) ->
    In (L, v) r ->
    mem t (targets table L) = true ->
    (forall L', In L' (dkeys r) -> L' <> L ->
       mem t (targets table L') = false) ->
    dget t (translate_labels_to table r out) = Some v.
Proof.
  induction r as [|[L0 v0] r IH]; intros out Hnd Hin Ht Hother;
    [destruct Hin|].
  simpl in Hnd. inversion Hnd as [|? ? Hk Hnd']; subst.
  rewrite translate_labels_to_cons.
  destruct Hin as [Hin|Hin].
  - inversion Hin; subst.
    rewrite translate_to_untouched.
    + rewrite fold_same_get. now rewrite Ht.
    + intros L' HL'. apply Hother; [now right|].
      intros ->. now apply Hk.
  - apply IH; try assumption.
    intros L' HL' Hne. apply Hother; [now right|assumption].
Qed.

(** X13: under the default table of the write the fill value of a
    variable is found under each of the three names [_FillValue],
    [FillVal] and [fill] of the file, provided no other label of its record
    is written under the name. *)
Theorem default_table_writes_fill_value (inst : Instrument) (d : mdict)
  (var t : string) (r : record) (v : pyval) :
  NoDup (dkeys d) ->
  dget var d = Some r ->
  NoDup (dkeys r) ->
  In (l_fill_val (labels inst), v) r ->
  In t fill_names ->
  (forall L, In L (dkeys r) -> L <> l_fill_val (labels inst) ->
     ~ In t (targets (default_to_netcdf_translation_table inst) L)) ->
  exists r',
    dget var (apply_table_translation_to_file inst d None) = Some r'
    /\ dget t r' = Some v.
Proof.
  intros Hnd Hg Hr Hin Ht Hother.
  exists (translate_labels_to (default_to_netcdf_translation_table inst) r []).
  split.
  - change (apply_table_translation_to_file inst d None)
      with (apply_table_translation_to_file inst d
              (Some (default_to_netcdf_translation_table inst))).
    rewrite translation_to_file_get by assumption. now rewrite Hg.
  - apply (@translate_to_get_unique _ t (l_fill_val (labels inst)) v r []);
      try assumption.
    + apply mem_true_iff. unfold targets, default_to_netcdf_translation_table.
      rewrite dget_dset_same. exact Ht.
    + intros L HL Hne. apply mem_false_iff. now apply Hother.
Qed.

Lemma labels_from_empty_table (items : record) :
  forall filt : record,
    NoDup (dkeys filt ++ dkeys items) ->
    translate_labels_from [] items filt = ret (filt ++ items).
Proof.
  induction items as [|[k v] items IH]; intros filt Hnd.
  - simpl. now rewrite app_nil_r.
  - cbn [translate_labels_from]. unfold new_key_of. cbn [dget].
    assert (Hk : ~ In k (dkeys filt)).
    { intros Hin. simpl in Hnd. apply NoDup_remove_2 in Hnd.
      apply Hnd. apply in_or_app. now left. }
    assert (Hn : dget k filt = None) by now apply dget_none_iff.
    rewrite Hn. rewrite dset_notin by assumption.
    rewrite IH.
    + now rewrite <- app_assoc.
    + rewrite dkeys_app, <- app_assoc. exact Hnd.
Qed.

Lemma first_source_empty_table (r : record) (n : string) :
  In n (dkeys r) -> first_source [] r n = Some n.
Proof.
  induction r as [|[k v] r IH]; intros Hin; [destruct Hin|].
  cbn [first_source]. unfold new_key_of. cbn [dget].
  destruct (String.eqb k n) eqn:E.
  - apply String.eqb_eq in E. now subst.
  - apply String.eqb_neq in E. simpl in Hin.
    destruct Hin as [Hin|Hin]; [congruence|].
    now apply IH.
Qed.

Lemma nested_loop_empty_table (ldict : mdict) (keys : list string) :
  (forall k, In k keys -> In k (dkeys ldict)) ->
  nested_loop_aliased [] keys ldict = Ok tt.
Proof.
  induction keys as [|k keys IH]; intros H; [reflexivity|].
  cbn [nested_loop_aliased]. unfold new_key_of. cbn [dget].
  assert (Hm : dmem k ldict = true).
  { apply dmem_true_iff. apply H. now left. }
  rewrite Hm. apply IH. intros k' Hk'. apply H. now right.
Qed.

Lemma translate_nested_empty_table (r : record) :
  meta_is_nested r -> translate_nested [] r r = Ok r.
Proof.
  intros Hm. unfold translate_nested.
  destruct (dget "meta" r) as [v|] eqn:E; [|reflexivity].
  specialize (Hm v E).
  destruct v as [s|l|ldict]; try discriminate.
  destruct ldict as [|kr ldict]; [reflexivity|].
  rewrite first_source_empty_table.
  - rewrite nested_loop_empty_table; [reflexivity|auto].
  - apply dget_some_in in E. apply in_map_iff. now exists ("meta", VMeta (kr :: ldict)).
Qed.

Lemma vars_from_empty_table (items : mdict) :
  forall acc : mdict,
    NoDup (dkeys acc ++ dkeys items) ->
    (forall var r, In (var, r) items -> NoDup (dkeys r) /\ meta_is_nested r) ->
    translate_vars_from [] items acc = ret (acc ++ items).
Proof.
  induction items as [|[var r] items IH]; intros acc Hnd H.
  - simpl. now rewrite app_nil_r.
  - cbn [translate_vars_from].
    destruct (H var r (or_introl eq_refl)) as [Hr Hm].
    rewrite labels_from_empty_table by exact Hr.
    cbn [app]. unfold missing_labels. cbn [dkeys map filter].
    unfold ret, lift, Py.bind. cbn [app].
    rewrite translate_nested_empty_table by assumption.
    assert (Hk : ~ In var (dkeys acc)).
    { intros Hin. simpl in Hnd. apply NoDup_remove_2 in Hnd.
      apply Hnd. apply in_or_app. now left. }
    rewrite dset_notin by assumption.
    rewrite IH.
    + unfold ret. now rewrite <- app_assoc.
    + rewrite dkeys_app, <- app_assoc. exact Hnd.
    + intros var' r' Hin. apply (H var' r'). now right.
Qed.

(** X14: an empty table disables the read translation: the metadata of a
    file comes back as it is, nested sets included, and nothing is
    logged. *)
Theorem empty_table_disables_translation (meta_dict : mdict) :
  NoDup (dkeys meta_dict) ->
  (forall var r, In (var, r) meta_dict ->
     NoDup (dkeys r) /\ meta_is_nested r) ->
  apply_table_translation_from_file [] meta_dict = ([], Ok meta_dict).
Proof.
  intros Hnd H. unfold apply_table_translation_from_file.
  now rewrite vars_from_empty_table.
Qed.

End TranslationLaws.

Section TranslationLawCases.
Import Translate Reference Laws Inputs Sample.

Lemma translation_to_file_is_faithful_witness :
  exists r',
    dget "mlt"
      (apply_table_translation_to_file (with_mlt_fill) with_fill None)
    = Some r'
    /\ NoDup (dkeys r')
    /\ (forall t x, In (t, x) r' ->
          exists L,
            In (L, x) [("units", vstr "hours");
                       ("fill", vfloat (S754_zero false))]
            /\ In t (targets (to_table with_mlt_fill None) L))
    /\ (forall L t,
          In L (dkeys [("units", vstr "hours");
                       ("fill", vfloat (S754_zero false))]) ->
          In t (targets (to_table with_mlt_fill None) L) -> In t (dkeys r')).
Proof.
  apply (@translation_to_file_is_faithful with_mlt_fill with_fill None "mlt").
  - nodup_keys.
  - reflexivity.
Defined.

Lemma default_table_writes_fill_value_witness :
  exists r',
    dget "mlt" (apply_table_translation_to_file with_mlt_fill with_fill None)
    = Some r'
    /\ dget "_FillValue" r' = Some (vfloat (S754_zero false)).
Proof.
  apply (@default_table_writes_fill_value with_mlt_fill with_fill "mlt"
           "_FillValue"
           [("units", vstr "hours"); ("fill", vfloat (S754_zero false))]).
  - nodup_keys.
  - reflexivity.
  - nodup_keys.
  - simpl. auto.
  - simpl. auto.
  - intros L [<-|[<-|[]]] Hne; [|exfalso; apply Hne; reflexivity].
    simpl. intuition discriminate.
Defined.

Lemma empty_table_disables_translation_witness :
  apply_table_translation_from_file [] from_file = ([], Ok from_file).
Proof.
  apply (@empty_table_disables_translation from_file).
  - nodup_keys.
  - intros var r [[= <- <-]|[[= <- <-]|[]]]; (split; [nodup_keys|]);
      intros v E; simpl in E; inversion E; reflexivity.
Defined.

End TranslationLawCases.

(* ===================================================================== *)
(** * Laws of the expansion of arrays *)
(* ===================================================================== *)

Section ExpanderLaws.
Import Expander Reference Laws.

Lemma expand_labels_app_plain (self : pyval -> result pyval) (a : record) :
  forall (b acc : record),
    (forall k v, In (k, v) a -> is_array v = false) ->
    ~ In "meta" (dkeys a) ->
    NoDup (dkeys acc ++ dkeys a) ->
    expand_labels self (a ++ b) acc = expand_labels self b (acc ++ a).
Proof.
  induction a as [|[k v] a IH]; intros b acc Hv Hm Hnd.
  - simpl. now rewrite app_nil_r.
  - cbn [app expand_labels].
    assert (Hk : String.eqb k "meta" = false).
    { apply String.eqb_neq. intros ->. apply Hm. now left. }
    rewrite Hk.
    assert (Hfresh : ~ In k (dkeys acc)).
    { intros Hin. simpl in Hnd. apply NoDup_remove_2 in Hnd.
      apply Hnd. apply in_or_app. now left. }
    assert (Hgoal : forall acc',
              acc' = acc ++ [(k, v)] ->
              expand_labels self (a ++ b) acc'
              = expand_labels self b (acc ++ (k, v) :: a)).
    { intros acc' ->. rewrite IH.
      - now rewrite <- app_assoc.
      - intros k' v' Hin. apply (Hv k' v'). now right.
      - intros Hin. apply Hm. now right.
      - rewrite dkeys_app, <- app_assoc. exact Hnd. }
    specialize (Hv k v (or_introl eq_refl)).
    destruct v as [s|l|m]; try discriminate; apply Hgoal;
      now apply dset_notin.
Qed.

Lemma expand_labels_fixed (self : pyval -> result pyval) (r : record) :
  forall acc : record,
    (forall k v, In (k, v) r -> is_array v = false) ->
    ~ In "meta" (dkeys r) ->
    NoDup (dkeys acc ++ dkeys r) ->
    expand_labels self r acc = Ok (acc ++ r).
Proof.
  intros acc Hv Hm Hnd.
  rewrite <- (app_nil_r r) at 1.
  now rewrite expand_labels_app_plain.
Qed.





Lemma append_cancel (k s1 s2 : string) :
  (k ++ s1)%string = (k ++ s2)%string -> s1 = s2.
Proof.
  induction k as [|c k IH]; simpl; [auto|].
  intros [= H]. now apply IH.
Qed.

Lemma string_of_nat_inj (a b : nat) :
  string_of_nat a = string_of_nat b -> a = b.
Proof.
  unfold string_of_nat. intros H.
  apply DecimalNat.Unsigned.to_uint_inj.
  assert (E : NilEmpty.uint_of_string (NilEmpty.string_of_uint (Nat.to_uint a))
              = NilEmpty.uint_of_string
                  (NilEmpty.string_of_uint (Nat.to_uint b)))
    by now rewrite H.
  rewrite !NilEmpty.usu in E. now inversion E.
Qed.

Lemma numbered_keys_in (key : string) (l : list scalar) :
  forall i k,
    In k (dkeys (numbered key i l)) ->
    exists j, (i <= j < i + length l)%nat
              /\ k = (key ++ string_of_nat j)%string.
Proof.
  induction l as [|x l IH]; intros i k Hin; [destruct Hin|].
  simpl in Hin. destruct Hin as [<-|Hin].
  - exists i. simpl. split; [lia|reflexivity].
  - destruct (IH _ _ Hin) as [j [Hj ->]]. exists j. simpl. split; [lia|auto].
Qed.

Lemma numbered_keys_nodup (key : string) (l : list scalar) :
  forall i, NoDup (dkeys (numbered key i l)).
Proof.
  induction l as [|x l IH]; intros i; simpl; constructor.
  - intros Hin. destruct (numbered_keys_in _ _ _ _ Hin) as [j [Hj E]].
    apply append_cancel, string_of_nat_inj in E. lia.
  - apply IH.
Qed.

Lemma expand_array_fresh (key : string) (l : list scalar) :
  forall i (acc : record),
    (forall j, (i <= j < i + length l)%nat ->
       ~ In (key ++ string_of_nat j)%string (dkeys acc)) ->
    expand_array key i l acc = acc ++ numbered key i l.
Proof.
  induction l as [|x l IH]; intros i acc H.
  - simpl. now rewrite app_nil_r.
  - cbn [expand_array numbered].
    rewrite dset_notin by (apply H; simpl; lia).
    rewrite IH.
    + now rewrite <- app_assoc.
    + intros j Hj. rewrite dkeys_app. intros Hin.
      apply in_app_or in Hin. destruct Hin as [Hin|[E|[]]].
      * apply (H j); [simpl; lia|assumption].
      * simpl in E. apply append_cancel, string_of_nat_inj in E. lia.
Qed.

Lemma NoDup_insert_middle (A : Type) (a b c : list A) :
  NoDup (a ++ c) -> NoDup b ->
  (forall x, In x b -> ~ In x (a ++ c)) ->
  NoDup (a ++ b ++ c).
Proof.
  induction a as [|a0 a IH]; intros Hac Hb Hd.
  - simpl in *. induction b as [|b0 b IHb]; [assumption|].
    simpl. inversion Hb; subst. constructor.
    + intros Hin. apply in_app_or in Hin. destruct Hin as [Hin|Hin].
      * contradiction.
      * apply (Hd b0); [now left|assumption].
    + apply IHb; [assumption|]. intros x Hx. apply Hd. now right.
  - simpl in *. inversion Hac; subst. constructor.
    + intros Hin. apply in_app_or in Hin. destruct Hin as [Hin|Hin].
      * match goal with H : ~ In a0 (a ++ c) |- _ => apply H end.
        apply in_or_app. now left.
      * apply in_app_or in Hin. destruct Hin as [Hin|Hin].
        -- apply (Hd a0 Hin). now left.
        -- match goal with H : ~ In a0 (a ++ c) |- _ => apply H end.
           apply in_or_app. now right.
    + apply IH; try assumption.
      intros x Hx Hin. apply (Hd x Hx). now right.
Qed.

Lemma expand_vars_get (self : pyval -> result pyval) (d : mdict) :
  forall d' var r,
    expand_vars self d = Ok d' ->
    dget var d = Some r ->
    exists r', dget var d' = Some r' /\ expand_labels self r [] = Ok r'.
Proof.
  induction d as [|[key r0] d IH]; intros d' var r E Hg; [discriminate|].
  cbn [expand_vars] in E.
  destruct (expand_labels self r0 []) as [r0'|e] eqn:E0; [|discriminate].
  destruct (expand_vars self d) as [d0|e] eqn:E1; [|discriminate].
  inversion E; subst. cbn [dget] in *.
  destruct (String.eqb key var).
  - inversion Hg; subst. now exists r0'.
  - now apply IH.
Qed.

(** X16: an array under a label, among values that are not arrays, is
    replaced in place by its elements under the label followed by 0, 1,
    ... when it has two elements or more, and is dropped when it has none;
    the other labels keep their values and their places.  The numbered
    labels must not be labels of the record already. *)
Theorem expander_numbers_array_elements (meta_dict d' : mdict)
  (var key : string) (pre post : record) (l : list scalar) :
  meta_array_expander meta_dict = Ok d' ->
  dget var meta_dict = Some (pre ++ (key, VArr l) :: post) ->
  length l <> 1%nat ->
  NoDup (dkeys (pre ++ (key, VArr l) :: post)) ->
  (forall k v, In (k, v) (pre ++ post) -> is_array v = false) ->
  ~ In "meta" (dkeys (pre ++ (key, VArr l) :: post)) ->
  (forall j, (j < length l)%nat ->
     ~ In (key ++ string_of_nat j)%string (dkeys (pre ++ post))) ->
  dget var d' = Some (pre ++ numbered key 0 l ++ post).
Proof.
  intros E Hg Hl Hnd Hv Hm Hfresh.
  destruct (expand_vars_get _ _ _ E Hg) as [r' [Hg' Er]].
  rewrite Hg'. f_equal.
  assert (Hpre : NoDup (dkeys pre)).
  { rewrite dkeys_app in Hnd. now apply NoDup_app_remove_r in Hnd. }
  rewrite expand_labels_app_plain in Er.
  - cbn [app expand_labels] in Er.
    assert (Hk : String.eqb key "meta" = false).
    { apply String.eqb_neq. intros ->. apply Hm.
      rewrite dkeys_app. apply in_or_app. right. now left. }
    rewrite Hk in Er.
    assert (Harr : expand_array key 0 l pre = pre ++ numbered key 0 l).
    { apply expand_array_fresh. intros j Hj Hin.
      apply (Hfresh j); [simpl in Hj; lia|].
      rewrite dkeys_app. apply in_or_app. now left. }
    assert (Er' : expand_labels expand_nested post (pre ++ numbered key 0 l)
                  = Ok r').
    { rewrite <- Harr. destruct l as [|x [|y l]];
        [exact Er|exfalso; apply Hl; reflexivity|exact Er]. }
    clear Er. rename Er' into Er.
    rewrite expand_labels_fixed in Er.
    + inversion Er. now rewrite <- app_assoc.
    + intros k v Hin. apply (Hv k v). apply in_or_app. now right.
    + intros Hin. apply Hm. rewrite dkeys_app. apply in_or_app.
      right. now right.
    + rewrite dkeys_app, <- app_assoc.
      apply NoDup_insert_middle.
      * rewrite dkeys_app in Hnd. simpl in Hnd.
        now apply NoDup_remove_1 in Hnd.
      * apply numbered_keys_nodup.
      * intros x Hx Hin.
        destruct (numbered_keys_in _ _ _ _ Hx) as [j [Hj ->]].
        apply (Hfresh j); [lia|]. now rewrite dkeys_app.
  - intros k v Hin. apply (Hv k v). apply in_or_app. now left.
  - intros Hin. apply Hm. rewrite dkeys_app. apply in_or_app. now left.
  - exact Hpre.
Qed.

End ExpanderLaws.

Section ExpanderLawCases.
Import Expander Reference Laws Inputs Cases Sample.


Lemma expander_numbers_array_elements_witness :
  dget "mlt" ranged_expanded
  = Some (ranged_before
          ++ numbered "range" 0 [SInt true 0; SInt true 24] ++ ranged_after).
Proof.
  apply (@expander_numbers_array_elements ranged ranged_expanded "mlt"
           "range" ranged_before ranged_after [SInt true 0; SInt true 24]).
  - reflexivity.
  - reflexivity.
  - discriminate.
  - nodup_keys.
  - intros k v [[= <- <-]|[[= <- <-]|[]]]; reflexivity.
  - simpl. intuition discriminate.
  - intros j Hj. simpl in Hj.
    destruct j as [|[|j]]; [| |lia]; simpl; intuition discriminate.
Defined.

End ExpanderLawCases.

(* ===================================================================== *)
(** * Laws of the writer *)
(* ===================================================================== *)

Section WriterLaws.
Context {X : Externals}.
Import Write NetCDF Reference Laws.

(** X17: the check for names that differ by case only passes exactly
    when the names of the variables are pairwise distinct in lower case. *)
Theorem case_collision_iff_names_clash (inst : Instrument) :
  case_collision inst = false <-> NoDup (map lower (variables inst)).
Proof.
  unfold case_collision. split.
  - intros H. apply negb_false_iff, Nat.eqb_eq in H.
    now apply count_unique_full.
  - intros H. apply negb_false_iff, Nat.eqb_eq.
    unfold count_unique. now rewrite nodup_fixed_point.
Qed.




Lemma append_missing (std : list string) :
  forall acc : list string,
    (exists extra,
       fold_left (fun acc label => if mem label acc then acc
                                   else acc ++ [label]) std acc
       = acc ++ extra)
    /\ forall x, In x std ->
         In x (fold_left (fun acc label => if mem label acc then acc
                                           else acc ++ [label]) std acc).
Proof.
  induction std as [|a std IH]; intros acc.
  - split; [exists []; now rewrite app_nil_r|intros x []].
  - cbn [fold_left].
    destruct (IH (if mem a acc then acc else acc ++ [a]))
      as [[extra E] Hin].
    split.
    + rewrite E. destruct (mem a acc).
      * now exists extra.
      * exists ([a] ++ extra). now rewrite app_assoc.
    + intros x [<-|Hx]; [|now apply Hin].
      rewrite E. apply in_or_app. left.
      destruct (mem a acc) eqn:Em.
      * now apply mem_true_iff.
      * apply in_or_app. right. now left.
Qed.

(** X19: the labels of the fill value, the maximum and the minimum are
    always type-checked: the list the writer hands to the filter holds
    them, after the labels the caller listed, which stay first and in
    order. *)
Theorem check_type_always_covers_limits (inst : Instrument)
  (check_type : option (list string)) :
  In (l_fill_val (labels inst)) (resolve_check_type inst check_type)
  /\ In (l_max_val (labels inst)) (resolve_check_type inst check_type)
  /\ In (l_min_val (labels inst)) (resolve_check_type inst check_type)
  /\ exists extra,
       resolve_check_type inst check_type
       = match check_type with Some l => l | None => [] end ++ extra.
Proof.
  unfold resolve_check_type. destruct check_type as [l|].
  - destruct (append_missing
                [l_fill_val (labels inst); l_max_val (labels inst);
                 l_min_val (labels inst)] l) as [Hex Hin].
    repeat split; try (apply Hin; simpl; auto). exact Hex.
  - repeat split; simpl; auto. now eexists.
Qed.

End WriterLaws.

Section WriterLawCases.
Import Write NetCDF Reference Laws Inputs Cases Sample.


End WriterLawCases.

(* ===================================================================== *)
(** * Laws of the reader *)
(* ===================================================================== *)

Section ReaderLaws.
Import NetCDF Read Reference Laws.

Lemma scan_rejects (n : nat) (vars : list (string * ncvar)) :
  forall lv st k v,
    In (k, v) vars -> (3 <= length (nc_dims v))%nat ->
    scan_variables n vars lv st = Raise ValueError.
Proof.
  induction vars as [|[key v0] vars IH]; intros lv st k v Hin Hd;
    [destruct Hin|].
  cbn [scan_variables].
  destruct (length (nc_dims v0)) as [|[|[|m]]] eqn:E; try reflexivity;
    (destruct Hin as [Hin|Hin];
     [inversion Hin; subst; lia|eapply IH; eauto]).
Qed.

(** X20: a file that holds a variable of three dimensions or more is
    refused with [ValueError], before anything of it is loaded into a
    frame. *)
Theorem three_dimensions_are_rejected (fs : disk) (fname : string)
  (rest : list string) (o : options) (ds : dataset) (k : string)
  (v : ncvar) :
  dget fname fs = Some ds ->
  In (k, v) (ds_vars ds) ->
  (3 <= length (nc_dims v))%nat ->
  load_netcdf_pandas fs (fname :: rest) o = ([], Raise ValueError).
Proof.
  intros Hg Hin Hd. unfold load_netcdf_pandas. cbn [load_files].
  assert (E : load_file o fs 0 fname initial = Raise ValueError).
  { unfold load_file. rewrite Hg.
    now rewrite (@scan_rejects 0 (ds_vars ds) _ _ k v Hin Hd). }
  now rewrite E.
Qed.

Lemma scan_low (n : nat) (vars : list (string * ncvar)) :
  forall lv st,
    (forall k v, In (k, v) vars -> (length (nc_dims v) <= 1)%nat) ->
    exists lv' fm,
      scan_variables n vars lv st
      = Ok (lv', {| full_mdict := fm; two_d_keys := two_d_keys st;
                    two_d_dims := two_d_dims st;
                    running_store := running_store st;
                    saved_meta := saved_meta st;
                    header_attrs := header_attrs st |})
      /\ forall q,
           (forall v, In (q, v) vars -> length (nc_dims v) <> 1%nat) ->
           dget q lv' = dget q lv.
Proof.
  induction vars as [|[key v0] vars IH]; intros lv st H.
  - exists lv, (full_mdict st). split; [now destruct st|auto].
  - cbn [scan_variables].
    assert (Hrest : forall k v, In (k, v) vars ->
                      (length (nc_dims v) <= 1)%nat).
    { intros k v Hin. apply (H k v). now right. }
    pose proof (H key v0 (or_introl eq_refl)) as H0.
    destruct (length (nc_dims v0)) as [|[|m]] eqn:E; [| |lia].
    + destruct (IH lv st Hrest) as [lv' [fm [Es Hq]]].
      exists lv', fm. split; [exact Es|].
      intros q Hn. apply Hq. intros v Hin. apply Hn. now right.
    + match goal with
      | |- context [scan_variables n vars ?l ?s] =>
          destruct (IH l s Hrest) as [lv' [fm [Es Hq]]]
      end.
      exists lv', fm. split; [exact Es|].
      intros q Hn. rewrite Hq.
      * apply dget_dset_other. intros ->.
        apply (Hn v0); [now left|exact E].
      * intros v Hin. apply Hn. now right.
Qed.

(** X21: a file whose variables have one dimension at most and that
    holds no variable of one dimension under the name of the time variable
    is refused with [KeyError]. *)
Theorem missing_time_variable_is_rejected (fs : disk) (fname : string)
  (rest : list string) (o : options) (ds : dataset) :
  dget fname fs = Some ds ->
  (forall k v, In (k, v) (ds_vars ds) -> (length (nc_dims v) <= 1)%nat) ->
  (forall v, In (epoch_name o, v) (ds_vars ds) ->
     length (nc_dims v) <> 1%nat) ->
  load_netcdf_pandas fs (fname :: rest) o = ([], Raise KeyError).
Proof.
  intros Hg Hlow Hno. unfold load_netcdf_pandas. cbn [load_files].
  assert (E : load_file o fs 0 fname initial = Raise KeyError).
  { unfold load_file. rewrite Hg.
    match goal with
    | |- context [scan_variables 0 (ds_vars ds) [] ?s] =>
        destruct (@scan_low 0 (ds_vars ds) [] s Hlow) as [lv' [fm [Es Hq]]]
    end.
    rewrite Es. cbn [two_d_dims initial unique_dims load_groups].
    rewrite (Hq (epoch_name o) Hno). reflexivity. }
  now rewrite E.
Qed.

Lemma scan_mid (n : nat) (vars : list (string * ncvar)) :
  forall lv st,
    (forall k v, In (k, v) vars -> (length (nc_dims v) <= 2)%nat) ->
    exists lv' fm keys,
      scan_variables n vars lv st
      = Ok (lv', {| full_mdict := fm; two_d_keys := keys;
                    two_d_dims :=
                      two_d_dims st
                      ++ map (fun kv => dim_pair (snd kv))
                           (filter (fun kv => Nat.eqb (dims_of kv) 2) vars);
                    running_store := running_store st;
                    saved_meta := saved_meta st;
                    header_attrs := header_attrs st |}).
Proof.
  induction vars as [|[key v0] vars IH]; intros lv st H.
  - exists lv, (full_mdict st), (two_d_keys st). simpl.
    rewrite app_nil_r. now destruct st.
  - cbn [scan_variables filter]. unfold dims_of at 1. cbn [snd].
    assert (Hrest : forall k v, In (k, v) vars ->
                      (length (nc_dims v) <= 2)%nat).
    { intros k v Hin. apply (H k v). now right. }
    pose proof (H key v0 (or_introl eq_refl)) as H0.
    destruct (length (nc_dims v0)) as [|[|[|m]]] eqn:E; [| | |lia];
      cbn [Nat.eqb];
      match goal with
      | |- context [scan_variables n vars ?l ?s] =>
          destruct (IH l s Hrest) as [lv' [fm [keys Es]]]
      end;
      exists lv', fm, keys; rewrite Es; cbn [two_d_dims running_store
                                             saved_meta header_attrs];
      try reflexivity.
    cbn [map snd]. unfold dim_pair at 2. now rewrite <- app_assoc.
Qed.

(** X22: a file whose tables have no time dimension is refused with
    [KeyError]: every variable of two dimensions must have the name of the
    time variable as one of its dimensions. *)
Theorem foreign_dimensions_are_rejected (fs : disk) (fname : string)
  (rest : list string) (o : options) (ds : dataset) (k0 : string)
  (v0 : ncvar) :
  dget fname fs = Some ds ->
  (forall k v, In (k, v) (ds_vars ds) -> (length (nc_dims v) <= 2)%nat) ->
  In (k0, v0) (ds_vars ds) ->
  length (nc_dims v0) = 2%nat ->
  (forall k v, In (k, v) (ds_vars ds) -> length (nc_dims v) = 2%nat ->
     fst (dim_pair v) <> epoch_name o /\ snd (dim_pair v) <> epoch_name o) ->
  load_netcdf_pandas fs (fname :: rest) o = ([], Raise KeyError).
Proof.
  intros Hg Hmid Hin0 Hd0 Hforeign.
  unfold load_netcdf_pandas. cbn [load_files].
  assert (E : load_file o fs 0 fname initial = Raise KeyError).
  { unfold load_file. rewrite Hg.
    match goal with
    | |- context [scan_variables 0 (ds_vars ds) [] ?s] =>
        destruct (@scan_mid 0 (ds_vars ds) [] s Hmid) as [lv' [fm [keys Es]]]
    end.
    rewrite Es. cbn [two_d_dims initial app].
    destruct (filter (fun kv => Nat.eqb (dims_of kv) 2) (ds_vars ds))
      as [|[k1 v1] l] eqn:F.
    - exfalso.
      assert (Hf : In (k0, v0)
                     (filter (fun kv => Nat.eqb (dims_of kv) 2) (ds_vars ds))).
      { apply filter_In. split; [assumption|].
        unfold dims_of. simpl. now rewrite Hd0. }
      now rewrite F in Hf.
    - assert (Hf : In (k1, v1)
                     (filter (fun kv => Nat.eqb (dims_of kv) 2) (ds_vars ds)))
        by (rewrite F; now left).
      apply filter_In in Hf. destruct Hf as [Hin1 Hd1].
      unfold dims_of in Hd1. simpl in Hd1. apply Nat.eqb_eq in Hd1.
      destruct (Hforeign k1 v1 Hin1 Hd1) as [Ha Hb].
      cbn [map snd unique_dims existsb load_groups].
      unfold load_group.
      apply String.eqb_neq in Ha. apply String.eqb_neq in Hb.
      now rewrite Ha, Hb. }
  now rewrite E.
Qed.

Lemma scan_skips_scalars (n : nat) (vars : list (string * ncvar)) :
  forall lv st,
    scan_variables n
      (filter (fun kv => negb (Nat.eqb (dims_of kv) 0)) vars) lv st
    = scan_variables n vars lv st.
Proof.
  induction vars as [|[key v0] vars IH]; intros lv st; [reflexivity|].
  cbn [filter]. unfold dims_of at 1. cbn [snd].
  destruct (length (nc_dims v0)) as [|[|[|m]]] eqn:E; cbn [Nat.eqb negb].
  - rewrite IH. cbn [scan_variables]. now rewrite E.
  - cbn [scan_variables]. rewrite E. apply IH.
  - cbn [scan_variables]. rewrite E. apply IH.
  - cbn [scan_variables]. now rewrite E.
Qed.

(** X23: a variable without a dimension contributes neither data nor
    metadata: a file whose variables have one dimension at most reads as
    the same file without its variables of no dimension. *)
Theorem scalar_variables_are_ignored (fs : disk) (fname : string)
  (o : options) (ds : dataset) :
  dget fname fs = Some ds ->
  (forall k v, In (k, v) (ds_vars ds) -> (length (nc_dims v) <= 1)%nat) ->
  load_netcdf_pandas (dset fname (without_scalars ds) fs) [fname] o
  = load_netcdf_pandas fs [fname] o.
Proof.
  intros Hg Hlow. unfold load_netcdf_pandas. cbn [load_files].
  assert (E : load_file o (dset fname (without_scalars ds) fs) 0 fname initial
              = load_file o fs 0 fname initial).
  { unfold load_file. rewrite dget_dset_same, Hg.
    cbn [ds_attrs ds_vars without_scalars].
    rewrite scan_skips_scalars.
    match goal with
    | |- context [scan_variables 0 (ds_vars ds) [] ?s] =>
        destruct (@scan_low 0 (ds_vars ds) [] s Hlow) as [lv' [fm [Es Hq]]]
    end.
    rewrite Es. reflexivity. }
  now rewrite E.
Qed.

Lemma scan_header (n : nat) (vars : list (string * ncvar)) :
  forall lv st lv' st',
    scan_variables n vars lv st = Ok (lv', st') ->
    header_attrs st' = header_attrs st.
Proof.
  induction vars as [|[key v0] vars IH]; intros lv st lv' st' E.
  - inversion E; subst. reflexivity.
  - cbn [scan_variables] in E.
    destruct (length (nc_dims v0)) as [|[|[|m]]]; try discriminate;
      apply IH in E; exact E.
Qed.

Lemma load_group_header (o : options) (n : nat) (ds : dataset)
  (dim : string * string) (lv : list (string * column)) (st : state)
  (lv' : list (string * column)) (st' : state) :
  load_group o n ds dim lv st = Ok (lv', st') ->
  header_attrs st' = header_attrs st.
Proof.
  unfold load_group. intros H.
  repeat match type of H with
         | context [match ?x with _ => _ end] =>
             destruct x eqn:?; try discriminate
         end;
    inversion H; reflexivity.
Qed.

Lemma load_groups_header (o : options) (n : nat) (ds : dataset)
  (dims : list (string * string)) :
  forall lv st lv' st',
    load_groups o n ds dims lv st = Ok (lv', st') ->
    header_attrs st' = header_attrs st.
Proof.
  induction dims as [|dim dims IH]; intros lv st lv' st' E.
  - inversion E; subst. reflexivity.
  - cbn [load_groups] in E.
    destruct (load_group o n ds dim lv st) as [[lv1 st1]|e] eqn:G;
      [|discriminate].
    rewrite (IH _ _ _ _ E). now apply load_group_header in G.
Qed.

Lemma load_file_header (o : options) (fs : disk) (n : nat) (fname : string)
  (st st' : state) :
  load_file o fs n fname st = Ok st' ->
  exists ds,
    dget fname fs = Some ds
    /\ header_attrs st' = dupdate (header_attrs st) (ds_attrs ds).
Proof.
  unfold load_file. intros H.
  destruct (dget fname fs) as [ds|]; [|discriminate].
  exists ds. split; [reflexivity|].
  destruct (scan_variables n (ds_vars ds) [] _) as [[lv1 st1]|e] eqn:S;
    [|discriminate].
  apply scan_header in S. cbn [header_attrs] in S.
  destruct (load_groups o n ds _ lv1 st1) as [[lv2 st2]|e] eqn:G;
    [|discriminate].
  apply load_groups_header in G.
  assert (Hh : header_attrs st2 = dupdate (header_attrs st) (ds_attrs ds))
    by congruence.
  repeat match type of H with
         | context [match ?x with _ => _ end] =>
             destruct x eqn:?; try discriminate
         end;
    inversion H; exact Hh.
Qed.

Lemma load_files_header (o : options) (fs : disk) (fnames : list string) :
  forall n st st',
    load_files o fs n fnames st = Ok st' ->
    header_attrs st' = merged_attrs fs fnames (header_attrs st).
Proof.
  induction fnames as [|fname rest IH]; intros n st st' E.
  - inversion E; subst. reflexivity.
  - cbn [load_files] in E.
    destruct (load_file o fs n fname st) as [st1|e] eqn:F; [|discriminate].
    destruct (load_file_header _ _ _ _ _ F) as [ds [Hg Hh]].
    cbn [merged_attrs]. rewrite Hg, <- Hh. now apply (IH (S n)).
Qed.

(** X24: the header a read returns holds the global attributes of the
    files merged in the order of reading: an attribute of a later file
    replaces the attribute of the same name of an earlier file. *)
Theorem header_merges_files_in_order (fs : disk) (fnames : list string)
  (o : options) (h : record) :
  read_header fs fnames o = Some h ->
  h = merged_attrs fs fnames [].
Proof.
  unfold read_header, load_netcdf_pandas.
  destruct (load_files o fs 0 fnames initial) as [st|e] eqn:L;
    [|discriminate].
  apply load_files_header in L. cbn [header_attrs initial] in L.
  unfold lift, Py.bind, outcome.
  destruct (process_metadata o _) as [l [m|e]]; simpl; [|discriminate].
  intros [= <-]. exact L.
Qed.

End ReaderLaws.

Section ReaderLawCases.
Import NetCDF Read Reference Laws Inputs Cases Sample.

Lemma three_dimensions_are_rejected_witness :
  load_netcdf_pandas shelf ["cube.nc"; "day1.nc"] read_options
  = ([], Raise ValueError).
Proof.
  apply (@three_dimensions_are_rejected shelf "cube.nc" ["day1.nc"]
           read_options with_cube "cube" (shaped ["Epoch"; "x"; "y"])).
  - reflexivity.
  - simpl. auto.
  - simpl. lia.
Defined.

Lemma missing_time_variable_is_rejected_witness :
  load_netcdf_pandas shelf ["bare.nc"] read_options = ([], Raise KeyError).
Proof.
  apply (@missing_time_variable_is_rejected shelf "bare.nc" [] read_options
           without_epoch).
  - reflexivity.
  - intros k v [[= <- <-]|[]]. simpl. lia.
  - intros v [[=]|[]].
Defined.

Lemma foreign_dimensions_are_rejected_witness :
  load_netcdf_pandas shelf ["grid.nc"] read_options = ([], Raise KeyError).
Proof.
  apply (@foreign_dimensions_are_rejected shelf "grid.nc" [] read_options
           with_grid "grid" (shaped ["x"; "y"])).
  - reflexivity.
  - intros k v [[= <- <-]|[[= <- <-]|[]]]; simpl; lia.
  - simpl. auto.
  - reflexivity.
  - intros k v [[= <- <-]|[[= <- <-]|[]]] Hd; [discriminate|].
    split; discriminate.
Defined.

Lemma scalar_variables_are_ignored_witness :
  load_netcdf_pandas (dset "constant.nc" (without_scalars with_constant) shelf)
    ["constant.nc"] read_options
  = load_netcdf_pandas shelf ["constant.nc"] read_options.
Proof.
  apply (@scalar_variables_are_ignored shelf "constant.nc" read_options
           with_constant).
  - reflexivity.
  - intros k v [[= <- <-]|[[= <- <-]|[[= <- <-]|[]]]]; simpl; lia.
Defined.

Lemma header_merges_files_in_order_witness :
  [("title", vstr "day 2"); ("source", vstr "raw")]
  = merged_attrs shelf ["day1.nc"; "day2.nc"] [].
Proof.
  apply (@header_merges_files_in_order shelf ["day1.nc"; "day2.nc"]
           read_options).
  vm_compute. reflexivity.
Defined.

End ReaderLawCases.

(* ===================================================================== *)
(** * Laws of the attachment of metadata to an xarray Dataset *)
(* ===================================================================== *)

Section AttachLaws.
Import Attach Reference Laws.

Lemma attach_labels_ok (export_nan : list string) (items : record) :
  forall attrs attrs',
    attach_labels items export_nan attrs = (attrs', Ok tt) ->
    attrs' = dupdate attrs (filter (attached export_nan) items).
Proof.
  induction items as [|[k v] items IH]; intros attrs attrs' E.
  - inversion E; subst. reflexivity.
  - cbn [attach_labels] in E. cbn [filter]. unfold attached at 1.
    cbn [fst snd].
    destruct (is_fill v (mem k export_nan)) as [[|]|e]; [| |discriminate].
    + now apply IH.
    + unfold dupdate. cbn [fold_left fst snd]. now apply IH.
Qed.

Lemma attach_vars_ok (export_nan : list string) (meta_items : mdict) :
  forall data_vars data_vars',
    NoDup (dkeys meta_items) ->
    attach_vars meta_items export_nan data_vars = (data_vars', Ok tt) ->
    dkeys data_vars' = dkeys data_vars
    /\ forall k attrs,
         dget k data_vars = Some attrs ->
         dget k data_vars'
         = Some (match dget k meta_items with
                 | Some r => dupdate attrs (filter (attached export_nan) r)
                 | None => attrs
                 end).
Proof.
  induction meta_items as [|[key r] rest IH]; intros dv dv' Hnd E.
  - inversion E; subst. split; [reflexivity|]. intros k attrs H. exact H.
  - simpl in Hnd. inversion Hnd as [|? ? Hk Hnd']; subst.
    cbn [attach_vars] in E.
    destruct (dget key dv) as [attrs0|] eqn:G.
    + destruct (attach_labels r export_nan attrs0) as [attrs1 [[]|e]] eqn:A;
        [|discriminate].
      apply attach_labels_ok in A.
      destruct (IH _ _ Hnd' E) as [Hkeys Hget].
      split.
      * rewrite Hkeys. now apply (dkeys_dset_present _ _ attrs1 G).
      * intros k attrs Hg. cbn [dget].
        destruct (String.eqb key k) eqn:Ek.
        -- apply String.eqb_eq in Ek. subst k.
           rewrite (Hget key attrs1) by apply dget_dset_same.
           assert (Hn : dget key rest = None) by now apply dget_none_iff.
           rewrite Hn. congruence.
        -- apply String.eqb_neq in Ek.
           apply Hget. now rewrite dget_dset_other.
    + destruct (IH _ _ Hnd' E) as [Hkeys Hget].
      split; [assumption|].
      intros k attrs Hg. cbn [dget].
      destruct (String.eqb key k) eqn:Ek; [|now apply Hget].
      apply String.eqb_eq in Ek. subst k. congruence.
Qed.

(** X25: when the attachment returns, a data variable that has metadata
    holds its former attributes updated with the labels of the metadata
    whose value is not a fill value: [None], an empty text and an empty
    array are not attached, NaN is attached under a label of [export_nan]
    only.  A data variable without metadata keeps its attributes, and no
    variable is added. *)
Theorem attachment_sets_the_filled_labels (xr_data xr_data' : list (string * record))
  (pysat_meta : mdict) (export_nan : option (list string)) :
  NoDup (dkeys pysat_meta) ->
  pysat_meta_to_xarray_attr xr_data pysat_meta export_nan
  = (xr_data', Ok tt) ->
  dkeys xr_data' = dkeys xr_data
  /\ forall k attrs,
       dget k xr_data = Some attrs ->
       dget k xr_data'
       = Some (match dget k pysat_meta with
               | Some r =>
                   dupdate attrs
                     (filter (attached (Filter.default_list export_nan)) r)
               | None => attrs
               end).
Proof.
  intros Hnd E. unfold pysat_meta_to_xarray_attr in E.
  now apply attach_vars_ok.
Qed.

Lemma attach_vars_keys (export_nan : list string) (meta_items : mdict) :
  forall data_vars,
    dkeys (fst (attach_vars meta_items export_nan data_vars))
    = dkeys data_vars
    /\ forall k,
         dget k meta_items = None ->
         dget k (fst (attach_vars meta_items export_nan data_vars))
         = dget k data_vars.
Proof.
  induction meta_items as [|[key r] rest IH]; intros dv.
  - split; [reflexivity|auto].
  - cbn [attach_vars].
    destruct (dget key dv) as [attrs0|] eqn:G.
    + destruct (attach_labels r export_nan attrs0) as [attrs1 [[]|e]].
      * destruct (IH (dset key attrs1 dv)) as [Hk Hg]. split.
        -- rewrite Hk. now apply (dkeys_dset_present _ _ attrs1 G).
        -- intros k Hn. cbn [dget] in Hn.
           destruct (String.eqb key k) eqn:Ek; [discriminate|].
           apply String.eqb_neq in Ek.
           rewrite (Hg k Hn). now apply dget_dset_other.
      * cbn [fst]. split.
        -- now apply (dkeys_dset_present _ _ attrs1 G).
        -- intros k Hn. cbn [dget] in Hn.
           destruct (String.eqb key k) eqn:Ek; [discriminate|].
           apply String.eqb_neq in Ek. now apply dget_dset_other.
    + destruct (IH dv) as [Hk Hg]. split; [assumption|].
      intros k Hn. cbn [dget] in Hn.
      destruct (String.eqb key k); [discriminate|]. now apply Hg.
Qed.

(** X26: however the attachment ends, the Dataset holds the same
    variables as before, and a variable the metadata does not name has the
    attributes it had. *)
Theorem attachment_keeps_the_variables (xr_data : list (string * record))
  (pysat_meta : mdict) (export_nan : option (list string)) :
  dkeys (fst (pysat_meta_to_xarray_attr xr_data pysat_meta export_nan))
  = dkeys xr_data
  /\ forall k,
       dget k pysat_meta = None ->
       dget k (fst (pysat_meta_to_xarray_attr xr_data pysat_meta export_nan))
       = dget k xr_data.
Proof. apply attach_vars_keys. Qed.

End AttachLaws.

Section AttachLawCases.
Import Attach Reference Laws Inputs Sample.

Lemma attachment_sets_the_filled_labels_witness :
  dkeys [("mlt", [("units", vstr "hours"); ("fill", vnan)]); ("slt", [])]
  = dkeys dataset_attrs
  /\ forall k attrs,
       dget k dataset_attrs = Some attrs ->
       dget k [("mlt", [("units", vstr "hours"); ("fill", vnan)]); ("slt", [])]
       = Some (match dget k store_meta with
               | Some r =>
                   dupdate attrs
                     (filter (attached (Filter.default_list (Some ["fill"])))
                        r)
               | None => attrs
               end).
Proof.
  apply (@attachment_sets_the_filled_labels dataset_attrs
           [("mlt", [("units", vstr "hours"); ("fill", vnan)]); ("slt", [])]
           store_meta (Some ["fill"])).
  - nodup_keys.
  - reflexivity.
Defined.

End AttachLawCases.

(* ===================================================================== *)
(** * The metadata of the two readers *)
(* ===================================================================== *)

Section ReadXarrayLaws.
Import Read Reference Laws Standards Translate Expander.

Lemma in_dpop (V : Type) (d : list (string * V)) (k : string)
  (x : string * V) :
  In x (dpop k d) -> In x d.
Proof.
  induction d as [|[k0 v0] d IH]; simpl; [auto|].
  destruct (String.eqb k0 k); [now right|].
  intros [H|H]; [now left|right; now apply IH].
Qed.

Lemma drop_labels_agree (drop : list string) :
  forall r : record,
    (forall d, ~ In ("meta", VMeta d) r) ->
    Read.drop_labels drop r = ReadXarray.drop_labels drop r.
Proof.
  unfold Read.drop_labels, ReadXarray.drop_labels.
  induction drop as [|label drop IH]; intros r H; [reflexivity|].
  cbn [fold_left].
  assert (H1 : forall d,
            ~ In ("meta", VMeta d)
                (if dmem label r then dpop label r else r)).
  { intros d Hin. apply (H d).
    destruct (dmem label r); [now apply in_dpop in Hin|assumption]. }
  destruct (dget "meta" (if dmem label r then dpop label r else r))
    as [[s|l|d]|] eqn:G; try (now apply IH).
  exfalso. apply (H1 d). now apply dget_some_in.
Qed.

Lemma assign_meta_without_nested (filt : mdict) :
  forall store : mdict,
    (forall k r, In (k, r) filt -> dget "meta" r = None) ->
    Read.assign_meta filt store
    = Ok (fold_left (fun store kr => dset (fst kr) (snd kr) store)
            filt store).
Proof.
  induction filt as [|[key r] filt IH]; intros store H; [reflexivity|].
  cbn [Read.assign_meta fold_left fst snd].
  rewrite (H key r (or_introl eq_refl)). apply IH.
  intros k r' Hin. apply (H k r'). now right.
Qed.

Lemma expanded_without_nested (d d' : mdict) :
  meta_array_expander d = Ok d' ->
  forall k r, In (k, r) d' -> dget "meta" r = None.
Proof.
  unfold meta_array_expander. intros E k r' Hin.
  destruct (expand_vars_in _ _ _ _ E Hin) as [r [_ Er]].
  apply dget_none_iff.
  eapply expand_labels_keeps_out; [|exact Er]. intros [].
Qed.

(** X27: on the attributes of a file none of whose variables has an
    attribute named ['meta'], the reader for xarray and the reader for
    pandas compute the same metadata and log the same records, under every
    option. *)
Theorem readers_agree_on_file_metadata (o : options)
  (variables : list (string * record)) :
  NoDup (dkeys variables) ->
  (forall k r, In (k, r) variables -> ~ In "meta" (dkeys r)) ->
  ReadXarray.load_netcdf_xarray_meta o variables
  = process_metadata o variables.
Proof.
  intros Hnd Hflat.
  unfold ReadXarray.load_netcdf_xarray_meta, process_metadata.
  change (fold_left (fun acc kv => dset (fst kv) (snd kv) acc) variables [])
    with (dupdate [] variables).
  rewrite dupdate_nil by assumption.
  assert (Hmap : map (fun kr => (fst kr,
                        ReadXarray.drop_labels
                          (match drop_meta_labels o with
                           | Some l => l
                           | None => []
                           end) (snd kr))) variables
                 = map (fun kr => (fst kr,
                          Read.drop_labels
                            (match drop_meta_labels o with
                             | Some l => l
                             | None => []
                             end) (snd kr))) variables).
  { apply map_ext_in. intros [k r] Hin. cbn [fst snd]. f_equal.
    symmetry. apply drop_labels_agree. intros d Hd.
    apply (Hflat k r Hin). apply in_map_iff.
    now exists ("meta", VMeta d). }
  rewrite Hmap.
  apply bind_ext. intros filt1.
  apply bind_ext. intros filt2.
  apply bind_ext. intros filt3.
  unfold lift, Py.bind, ret.
  destruct (meta_array_expander filt3) as [d'|e] eqn:E; [|reflexivity].
  rewrite assign_meta_without_nested.
  - reflexivity.
  - now apply (@expanded_without_nested filt3 d' E).
Qed.

End ReadXarrayLaws.

Section ReadXarrayLawCases.
Import Read Reference Laws Inputs Cases Sample.

Lemma readers_agree_on_file_metadata_witness :
  ReadXarray.load_netcdf_xarray_meta strict_dropping_notes
    (raw_records (NetCDF.ds_vars with_constant))
  = process_metadata strict_dropping_notes
      (raw_records (NetCDF.ds_vars with_constant)).
Proof.
  apply (@readers_agree_on_file_metadata strict_dropping_notes
           (raw_records (NetCDF.ds_vars with_constant))).
  - nodup_keys.
  - intros k r Hin. simpl in Hin.
    repeat match type of Hin with
           | _ \/ _ => destruct Hin as [Hin|Hin]
           | False => destruct Hin
           end; inversion Hin; subst; simpl; intuition discriminate.
Defined.

End ReadXarrayLawCases.

(* ===================================================================== *)
(** * Laws of the addition of the standards overlay *)
(* ===================================================================== *)

Section OverlayLaws.
Context {X : Externals}.
Import Standards Overlay Filter Reference Laws.

Lemma add_loop_without_metadata (inst : Instrument) (epoch_name : string)
  (check_type export_nan : option (list string))
  (vars : list (string * column)) :
  forall d : mdict,
    (forall var col, In (var, col) vars ->
       meta_contains (meta inst) var && negb (String.eqb var epoch_name)
       = false) ->
    add_loop inst epoch_name check_type export_nan vars d
    = (map (fun kc => LogNoMetaData "warning" (fst kc)) vars, Ok d).
Proof.
  induction vars as [|[var col] vars IH]; intros d H; [reflexivity|].
  cbn [add_loop]. unfold add_var.
  rewrite (H var col (or_introl eq_refl)).
  unfold emit, ret, Py.bind. cbn [app].
  rewrite IH; [reflexivity|].
  intros var' col' Hin. apply (H var' col'). now right.
Qed.

(** X28: a variable the metadata does not know, and the time variable
    itself, get no overlay: when this holds of every variable the metadata
    comes back as it went in, with one warning for each variable, in the
    order of the columns. *)
Theorem overlay_skips_variables_without_metadata (inst : Instrument)
  (in_meta_dict : mdict) (epoch_name : string)
  (check_type export_nan : option (list string)) :
  (forall var col, In (var, col) (data inst) ->
     meta_contains (meta inst) var && negb (String.eqb var epoch_name)
     = false) ->
  add_netcdf4_standards_to_metadict inst in_meta_dict epoch_name check_type
    export_nan
  = (map (fun kc => LogNoMetaData "warning" (fst kc)) (data inst),
     Ok in_meta_dict).
Proof.
  intros H. unfold add_netcdf4_standards_to_metadict.
  now apply add_loop_without_metadata.
Qed.

Lemma filter_keeps_unchecked_text (d d' : record) (coltype : coltype_arg)
  (remove : bool) (check_type export_nan : option (list string))
  (log : list event) (k s : string) :
  NoDup (dkeys d) ->
  filter_netcdf4_metadata d coltype remove check_type export_nan
  = (log, Ok d') ->
  dget k d = Some (vstr s) ->
  mem k (default_list check_type) = false ->
  dget k d' = Some (vstr s).
Proof.
  intros Hnd Hout Hg Hm.
  rewrite filter_refines in Hout by assumption.
  unfold filtered in Hout.
  destruct (first_escape d); [discriminate|].
  rewrite (@checked_entries_get X _ _ _ _ _ _ k
             (@NoDup_dkeys_filter _ _ _ Hnd) Hout).
  rewrite dget_filter by assumption. rewrite Hg.
  unfold nan_dropped, checked_value. simpl. now rewrite Hm.
Qed.

Lemma add_var_elsewhere (inst : Instrument) (epoch_name : string)
  (check_type export_nan : option (list string)) (d d' : mdict)
  (var : string) (e : elems) (log : list event) (k : string) :
  add_var inst epoch_name check_type export_nan d var (Col1D e)
  = (log, Ok d') ->
  k <> lower var ->
  dget k d' = dget k d.
Proof.
  unfold add_var. intros E Hk.
  destruct (meta_contains (meta inst) var && negb (String.eqb var epoch_name)).
  - apply bind_ok in E. destruct E as [l1 [[] [l2 [_ [E _]]]]].
    apply bind_ok in E. destruct E as [l3 [code [l4 [_ [E _]]]]].
    apply bind_ok in E. destruct E as [l5 [r [l6 [_ [E _]]]]].
    apply bind_ok in E. destruct E as [l7 [r' [l8 [_ [E _]]]]].
    inversion E; subst. apply dget_dset_other. congruence.
  - apply bind_ok in E. destruct E as [l1 [[] [l2 [_ [E _]]]]].
    now inversion E.
Qed.

Lemma add_loop_elsewhere (inst : Instrument) (epoch_name : string)
  (check_type export_nan : option (list string))
  (vars : list (string * column)) (k : string) :
  forall (d d' : mdict) (log : list event),
    (forall var c, In (var, c) vars -> exists e, c = Col1D e) ->
    (forall var c, In (var, c) vars -> k <> lower var) ->
    add_loop inst epoch_name check_type export_nan vars d = (log, Ok d') ->
    dget k d' = dget k d.
Proof.
  induction vars as [|[var c] vars IH]; intros d d' log H1 Hk E.
  - now inversion E.
  - cbn [add_loop] in E.
    apply bind_ok in E. destruct E as [l1 [d1 [l2 [Ev [El _]]]]].
    destruct (H1 var c (or_introl eq_refl)) as [e ->].
    rewrite (IH d1 d' l2).
    + apply (add_var_elsewhere _ _ _ _ _ _ _ Ev).
      apply (Hk var (Col1D e)). now left.
    + intros var' c' Hin. apply (H1 var' c'). now right.
    + intros var' c' Hin. apply (Hk var' c'). now right.
    + exact El.
Qed.

Lemma add_loop_app (inst : Instrument) (epoch_name : string)
  (check_type export_nan : option (list string))
  (a b : list (string * column)) :
  forall (d d' : mdict) (log : list event),
    add_loop inst epoch_name check_type export_nan (a ++ b) d = (log, Ok d') ->
    exists d1 l1 l2,
      add_loop inst epoch_name check_type export_nan a d = (l1, Ok d1)
      /\ add_loop inst epoch_name check_type export_nan b d1 = (l2, Ok d').
Proof.
  induction a as [|[var c] a IH]; intros d d' log E.
  - exists d, [], log. now split.
  - cbn [app add_loop] in E.
    apply bind_ok in E. destruct E as [l1 [d1 [l2 [Ev [El _]]]]].
    destruct (IH _ _ _ El) as [d2 [l3 [l4 [Ea Eb]]]].
    exists d2, (l1 ++ l3), l4. split; [|exact Eb].
    cbn [add_loop]. rewrite Ev. unfold Py.bind. now rewrite Ea.
Qed.

Lemma add_var_sets (inst : Instrument) (epoch_name : string)
  (check_type export_nan : option (list string)) (d d' : mdict)
  (var : string) (e : elems) (code : string) (log : list event) :
  meta_contains (meta inst) var && negb (String.eqb var epoch_name) = true ->
  snd (elems_info e) = false ->
  var_type_code (fst (elems_info e)) = Ok code ->
  (forall r, dget (lower var) d = Some r -> NoDup (dkeys r)) ->
  (forall L, In L ["Depend_0"; "Display_Type"; "Var_Type"; "Format"] ->
     mem L (default_list check_type) = false) ->
  add_var inst epoch_name check_type export_nan d var (Col1D e)
  = (log, Ok d') ->
  exists r',
    dget (lower var) d' = Some r'
    /\ dget "Depend_0" r' = Some (vstr epoch_name)
    /\ dget "Display_Type" r' = Some (vstr "Time Series")
    /\ dget "Var_Type" r' = Some (vstr "data")
    /\ dget "Format" r' = Some (vstr code).
Proof.
  intros Hc Hd Hcode Hnd Hct E. unfold add_var in E.
  rewrite Hc in E. cbn [get_data_info] in E. rewrite Hd in E.
  rewrite bind_ret_l in E. rewrite Hcode in E. rewrite bind_lift_ok in E.
  apply bind_ok in E. destruct E as [l5 [r [l6 [Er [E _]]]]].
  apply bind_ok in E. destruct E as [l7 [r' [l8 [Ef [E _]]]]].
  inversion E; subst.
  unfold lift, dindex in Er.
  destruct (dget (lower var) d) as [r0|] eqn:G; [|discriminate].
  inversion Er; subst r0.
  exists r'. split; [apply dget_dset_same|].
  assert (Hm : NoDup (dkeys (dset "Format" (vstr code)
                               (std_meta_dict (labels inst) epoch_name false)))).
  { unfold std_meta_dict. nodup_keys. }
  assert (Hget : forall L s,
            In L ["Depend_0"; "Display_Type"; "Var_Type"; "Format"] ->
            dget L (dset "Format" (vstr code)
                      (std_meta_dict (labels inst) epoch_name false))
            = Some (vstr s) ->
            dget L r' = Some (vstr s)).
  { intros L s HL Hg.
    eapply filter_keeps_unchecked_text; [|exact Ef| |].
    - apply NoDup_dupdate. now apply Hnd.
    - rewrite dget_dupdate by exact Hm. now rewrite Hg.
    - now apply Hct. }
  repeat split; apply Hget; simpl; auto.
Qed.

(** X29: a column of numbers or of text that the metadata knows gets the
    four labels of the overlay: the name of the time variable as
    [Depend_0], [Time Series] as [Display_Type], [data] as [Var_Type] and
    the type code of the column as [Format], whatever its record held under
    these labels, provided none of the four is type-checked. *)
Theorem overlay_sets_the_standard_labels (inst : Instrument)
  (in_meta_dict M' : mdict) (epoch_name : string)
  (check_type export_nan : option (list string)) (log : list event)
  (var : string) (e : elems) (code : string) :
  one_dimensional inst ->
  NoDup (map lower (variables inst)) ->
  In (var, Col1D e) (data inst) ->
  meta_contains (meta inst) var && negb (String.eqb var epoch_name) = true ->
  snd (elems_info e) = false ->
  var_type_code (fst (elems_info e)) = Ok code ->
  (forall r, dget (lower var) in_meta_dict = Some r -> NoDup (dkeys r)) ->
  (forall L, In L ["Depend_0"; "Display_Type"; "Var_Type"; "Format"] ->
     mem L (default_list check_type) = false) ->
  add_netcdf4_standards_to_metadict inst in_meta_dict epoch_name check_type
    export_nan
  = (log, Ok M') ->
  exists r',
    dget (lower var) M' = Some r'
    /\ dget "Depend_0" r' = Some (vstr epoch_name)
    /\ dget "Display_Type" r' = Some (vstr "Time Series")
    /\ dget "Var_Type" r' = Some (vstr "data")
    /\ dget "Format" r' = Some (vstr code).
Proof.
  intros H1 Hnd Hin Hc Hd Hcode Hr Hct E.
  unfold add_netcdf4_standards_to_metadict in E.
  destruct (in_split _ _ Hin) as [pre [post Hs]].
  unfold variables, dkeys in Hnd. rewrite Hs in Hnd, E.
  rewrite map_map in Hnd. rewrite map_app in Hnd. cbn [map fst] in Hnd.
  apply add_loop_app in E. destruct E as [d1 [l1 [l2 [Ea Eb]]]].
  cbn [add_loop] in Eb.
  apply bind_ok in Eb. destruct Eb as [l3 [d2 [l4 [Ev [Ep _]]]]].
  assert (Hpre : dget (lower var) d1 = dget (lower var) in_meta_dict).
  { eapply add_loop_elsewhere; [| |exact Ea].
    - intros var' c' Hin'. apply (H1 var' c'). rewrite Hs.
      apply in_or_app. now left.
    - intros var' c' Hin' Heq. apply NoDup_remove_2 in Hnd. apply Hnd.
      apply in_or_app. left. apply in_map_iff.
      exists (var', c'). split; [now rewrite Heq|assumption]. }
  assert (Hr1 : forall r, dget (lower var) d1 = Some r -> NoDup (dkeys r)).
  { intros r Hg. apply Hr. now rewrite <- Hpre. }
  destruct (@add_var_sets inst epoch_name check_type export_nan d1 d2 var e
              code l3 Hc Hd Hcode Hr1 Hct Ev) as [r' [Hg Hl]].
  exists r'. split; [|exact Hl]. rewrite <- Hg.
  eapply add_loop_elsewhere; [| |exact Ep].
  - intros var' c' Hin'. apply (H1 var' c'). rewrite Hs.
    apply in_or_app. right. now right.
  - intros var' c' Hin' Heq. apply NoDup_remove_2 in Hnd. apply Hnd.
    apply in_or_app. right. apply in_map_iff.
    exists (var', c'). split; [now rewrite Heq|assumption].
Qed.

End OverlayLaws.

Section OverlayLawCases.
Import Standards Overlay Filter Reference Laws Inputs Cases Sample.

Lemma overlay_skips_variables_without_metadata_witness :
  add_netcdf4_standards_to_metadict (with_mlt []) hours "Epoch" None None
  = (map (fun kc => LogNoMetaData "warning" (fst kc)) (data (with_mlt [])),
     Ok hours).
Proof.
  apply (@overlay_skips_variables_without_metadata interpreter (with_mlt [])
           hours "Epoch" None None).
  intros var col [[= <- <-]|[]]. reflexivity.
Defined.

Lemma overlay_sets_the_standard_labels_witness :
  exists r',
    dget (lower "mlt")
      [("mlt", [("units", vstr "hours"); ("Depend_0", vstr "Epoch");
                ("Display_Type", vstr "Time Series");
                ("Var_Type", vstr "data"); ("Format", vstr "f8")])]
    = Some r'
    /\ dget "Depend_0" r' = Some (vstr "Epoch")
    /\ dget "Display_Type" r' = Some (vstr "Time Series")
    /\ dget "Var_Type" r' = Some (vstr "data")
    /\ dget "Format" r' = Some (vstr "f8").
Proof.
  apply (@overlay_sets_the_standard_labels interpreter (with_mlt hours) hours
           [("mlt", [("units", vstr "hours"); ("Depend_0", vstr "Epoch");
                     ("Display_Type", vstr "Time Series");
                     ("Var_Type", vstr "data"); ("Format", vstr "f8")])]
           "Epoch" None None [] "mlt" (EFloat [S754_zero false]) "f8").
  - intros k c [[= <- <-]|[]]. now eexists.
  - nodup_keys.
  - simpl. auto.
  - reflexivity.
  - reflexivity.
  - reflexivity.
  - intros r [= <-]. nodup_keys.
  - intros L _. reflexivity.
  - reflexivity.
Defined.

End OverlayLawCases.
